(** * Social-media stat scraper: a shallow embedding and its properties

  The development follows the Python sources of the scraper:
  - [utils/rate_limiter.py]   the request counter of a session;
  - [platforms/tiktok.py]     TikTok extraction (network payload, HTML);
  - [platforms/instagram.py]  Instagram extraction (network payload, HTML);
  - [scraper.py], [api.py]    the orchestration of one URL or a batch.

  Python values are an inductive type, dictionaries are finite maps,
  exceptions are an error monad, [float] is IEEE binary64 as specified by
  [SpecFloat] (precision 53, [emax] 1024), and what the browser does is an
  explicit input of each scrape.  Text is a [string] of 7-bit characters:
  code points above 127 are outside of the model. *)

From Stdlib Require Import ZArith Ascii String Bool Lia.
From Stdlib Require Import Floats.SpecFloat.
From stdpp Require Import gmap strings list fin_maps.

(** ** Python values, exceptions and dynamic operations *)

Module Py.

(** The exception classes the modelled code can meet.  Every one of them
    is a subclass of [Exception]; only [ValueError] is ever caught by
    name. *)
Inductive exn_kind :=
| ValueError | OverflowError | TypeError | AttributeError
| KeyError | IndexError | TimeoutError | BrowserError.

(** An exception instance: its class and [str(e)]. *)
Record exn := Exn { exn_kind_of : exn_kind; exn_msg : string }.

(** A computation that returns or raises. *)
Inductive py (A : Type) :=
| Ret (a : A)
| Raise (e : exn).
Arguments Ret {A} a.
Arguments Raise {A} e.

Definition bind {A B : Type} (m : py A) (k : A -> py B) : py B :=
  match m with
  | Ret a => k a
  | Raise e => Raise e
  end.

(** [try: m  except Exception as e: h e] *)
Definition try_except {A} (m : py A) (h : exn -> py A) : py A :=
  match m with
  | Ret a => Ret a
  | Raise e => h e
  end.

Definition is_value_error (e : exn) : bool :=
  match exn_kind_of e with
  | ValueError => true
  | _ => false
  end.

(** [try: m  except ValueError: h]; any other class propagates. *)
Definition try_except_value_error {A} (m : py A) (h : py A) : py A :=
  match m with
  | Ret a => Ret a
  | Raise e => if is_value_error e then h else Raise e
  end.

(** The values that [json()] produces and that the result records
    carry. *)
#[warnings="-register-all"]
Inductive value :=
| VNone
| VBool (b : bool)
| VInt (n : Z)
| VFloat (f : spec_float)
| VStr (s : string)
| VList (l : list value)
| VDict (d : gmap string value).

End Py.
Export Py.

Notation "'let*' x := m 'in' k" := (Py.bind m (fun x => k))
(at level 10, x name, m at level 100, k at level 200, only parsing).

(** ** [str] methods *)

Module Text.

Local Open Scope N_scope.

Definition code (c : ascii) : N := N_of_ascii c.

(** [c.isspace()] on the ASCII range. *)
Definition isspace (c : ascii) : bool :=
  ((9 <=? code c) && (code c <=? 13)) || ((28 <=? code c) && (code c <=? 32)).

Definition isdigit (c : ascii) : bool :=
  (48 <=? code c) && (code c <=? 57).

Definition islower (c : ascii) : bool :=
  (97 <=? code c) && (code c <=? 122).

Definition isupper (c : ascii) : bool :=
  (65 <=? code c) && (code c <=? 90).

Definition upper_char (c : ascii) : ascii :=
  if islower c then ascii_of_N (code c - 32) else c.

Definition lower_char (c : ascii) : ascii :=
  if isupper c then ascii_of_N (code c + 32) else c.

Definition char_eqb (a b : ascii) : bool := code a =? code b.

(** [\w] on the ASCII range. *)
Definition isword (c : ascii) : bool :=
  isdigit c || islower c || isupper c || char_eqb c "_".

Fixpoint upper (s : string) : string :=
  match s with
  | EmptyString => EmptyString
  | String c r => String (upper_char c) (upper r)
  end.

Fixpoint lstrip (s : string) : string :=
  match s with
  | EmptyString => EmptyString
  | String c r => if isspace c then lstrip r else s
  end.

Fixpoint rstrip (s : string) : string :=
  match s with
  | EmptyString => EmptyString
  | String c r =>
      match rstrip r with
      | EmptyString => if isspace c then EmptyString else String c EmptyString
      | r' => String c r'
      end
  end.

Definition strip (s : string) : string := rstrip (lstrip s).

(** [s.replace(c, '')] for a one-character [c]. *)
Fixpoint remove_char (c : ascii) (s : string) : string :=
  match s with
  | EmptyString => EmptyString
  | String a r => if char_eqb a c then remove_char c r else String a (remove_char c r)
  end.

(** [s.endswith(c)] for a one-character [c]. *)
Fixpoint endswith_char (s : string) (c : ascii) : bool :=
  match s with
  | EmptyString => false
  | String a EmptyString => char_eqb a c
  | String _ r => endswith_char r c
  end.

(** [s[:-1]] *)
Fixpoint drop_last (s : string) : string :=
  match s with
  | EmptyString => EmptyString
  | String _ EmptyString => EmptyString
  | String a r => String a (drop_last r)
  end.

Definition is_empty (s : string) : bool :=
  match s with
  | EmptyString => true
  | _ => false
  end.

(** [s.startswith(p)], and its case-insensitive variant. *)
Fixpoint startswith (s p : string) : bool :=
  match p, s with
  | EmptyString, _ => true
  | String b p', String a s' => char_eqb a b && startswith s' p'
  | String _ _, EmptyString => false
  end.

Fixpoint startswith_nocase (s p : string) : bool :=
  match p, s with
  | EmptyString, _ => true
  | String b p', String a s' =>
      char_eqb (lower_char a) (lower_char b) && startswith_nocase s' p'
  | String _ _, EmptyString => false
  end.

Fixpoint drop (n : nat) (s : string) : string :=
  match n, s with
  | O, _ => s
  | S n', String _ r => drop n' r
  | S _, EmptyString => EmptyString
  end.

(** [p in s] between two strings. *)
Fixpoint contains (s p : string) : bool :=
  startswith s p ||
  match s with
  | EmptyString => false
  | String _ r => contains r p
  end.

(** No character of [s] is a minus sign. *)
Fixpoint minus_free (s : string) : bool :=
  match s with
  | EmptyString => true
  | String c r => negb (char_eqb c "-") && minus_free r
  end.

End Text.

(** ** [float]: IEEE binary64, [float(str)], [int(float)] *)

Module Float64.

Import Text.
Local Open Scope Z_scope.

Definition prec : Z := 53.
Definition emax : Z := 1024.

(** The binary64 value nearest to [num / den] (ties to even), for
    positive [num] and [den], with sign [neg]. *)
Definition of_ratio (neg : bool) (num den : Z) : spec_float :=
  let '(q, e, l) := SFdiv_core_binary prec emax num 0 den 0 in
  binary_round_aux prec emax neg q e l.

(** The binary64 value nearest to [m * 10^e10], for [0 <= m]. *)
Definition of_decimal (neg : bool) (m e10 : Z) : spec_float :=
  match m with
  | Z0 => S754_zero neg
  | _ => if 0 <=? e10 then of_ratio neg (m * 10 ^ e10) 1
         else of_ratio neg m (10 ^ (- e10))
  end.

(** The conversion of an [int] operand of a float operation. *)
Definition of_int (n : Z) : spec_float := binary_normalize prec emax n 0 false.

Definition mul (x y : spec_float) : spec_float := SFmul prec emax x y.

(** [int(f)]: truncation towards zero; infinities and NaN raise. *)
Definition to_int (f : spec_float) : py Z :=
  match f with
  | S754_zero _ => Ret 0
  | S754_finite s m e =>
      Ret (cond_Zopp s (if 0 <=? e then Zpos m * 2 ^ e else Zpos m / 2 ^ (- e)))
  | S754_infinity _ => Raise (Exn OverflowError "cannot convert float infinity to integer")
  | S754_nan => Raise (Exn ValueError "cannot convert float NaN to integer")
  end.

(** [f > 0] *)
Definition is_positive (f : spec_float) : bool :=
  match f with
  | S754_finite false _ _ | S754_infinity false => true
  | _ => false
  end.

(** [bool(f)] *)
Definition truthy (f : spec_float) : bool :=
  match f with
  | S754_zero _ => false
  | _ => true
  end.

(** The sign bit, with that of NaN read as clear. *)
Definition signbit (f : spec_float) : bool :=
  match f with
  | S754_zero s | S754_infinity s | S754_finite s _ _ => s
  | S754_nan => false
  end.

Definition is_infinite (f : spec_float) : bool :=
  match f with
  | S754_infinity _ => true
  | _ => false
  end.

Definition digit_value (c : ascii) : Z := Z.of_N (code c) - 48.

(** Reads the longest run of digits at the head of [s], continuing the
    value [acc] and the digit count [cnt]. *)
Fixpoint take_digits (s : string) (acc cnt : Z) : Z * Z * string :=
  match s with
  | String c r =>
      if isdigit c then take_digits r (10 * acc + digit_value c) (cnt + 1)
      else (acc, cnt, s)
  | EmptyString => (acc, cnt, s)
  end.

Definition take_sign (s : string) : bool * string :=
  match s with
  | String "-" r => (true, r)
  | String "+" r => (false, r)
  | _ => (false, s)
  end.

(** The exponent part, which must reach the end of the text. *)
Definition parse_exponent (s : string) : option Z :=
  match s with
  | EmptyString => Some 0
  | String c r =>
      if char_eqb (upper_char c) "E" then
        let '(neg, r1) := take_sign r in
        let '(v, n, r2) := take_digits r1 0 0 in
        if (0 <? n) && is_empty r2 then Some (if neg then - v else v) else None
      else None
  end.

(** [digits [. digits] [exponent]] or [. digits [exponent]] *)
Definition parse_decimal (neg : bool) (s : string) : option spec_float :=
  let '(ip, ni, r1) := take_digits s 0 0 in
  let '(m, nf, r2) :=
    match r1 with
    | String "." r' => take_digits r' ip 0
    | _ => (ip, 0, r1)
    end in
  if 0 <? ni + nf then
    match parse_exponent r2 with
    | Some e => Some (of_decimal neg m (e - nf))
    | None => None
    end
  else None.

(** [inf], [infinity] and [nan], in any letter case. *)
Definition parse_inf_nan (neg : bool) (s : string) : option spec_float :=
  if startswith_nocase s "inf" then
    let r := drop 3 s in
    let r' := if startswith_nocase r "inity" then drop 5 r else r in
    if is_empty r' then Some (S754_infinity neg) else None
  else if startswith_nocase s "nan" then
    if is_empty (drop 3 s) then Some S754_nan else None
  else None.

Definition parse_signed (s : string) : option spec_float :=
  let '(neg, r) := take_sign s in
  match parse_decimal neg r with
  | Some f => Some f
  | None => parse_inf_nan neg r
  end.

(** An underscore is accepted between two digits only, and dropped. *)
Fixpoint strip_underscores (prev : ascii) (s : string) : option string :=
  match s with
  | EmptyString => if char_eqb prev "_" then None else Some EmptyString
  | String c r =>
      if char_eqb c "_" then
        if isdigit prev then strip_underscores c r else None
      else if char_eqb prev "_" && negb (isdigit c) then None
      else option_map (String c) (strip_underscores c r)
  end.

(** The white space that [float] passes over at the two ends of an
    ASCII text: the characters of [Py_ISSPACE], which are those of
    [str.strip] without the separators 28 to 31. *)
Definition is_c_space (c : ascii) : bool :=
  (((9 <=? code c) && (code c <=? 13)) || (code c =? 32))%N.

Fixpoint skip_spaces (s : string) : string :=
  match s with
  | EmptyString => EmptyString
  | String c r => if is_c_space c then skip_spaces r else s
  end.

Fixpoint drop_trailing_spaces (s : string) : string :=
  match s with
  | EmptyString => EmptyString
  | String c r =>
      match drop_trailing_spaces r with
      | EmptyString => if is_c_space c then EmptyString else String c EmptyString
      | r' => String c r'
      end
  end.

(** [float(s)]: the underscores are checked and dropped on the whole
    text, then the white space of its two ends is passed over and the
    rest is read.  The message of its [ValueError] leaves out the quoted
    argument. *)
Definition of_string (s : string) : py spec_float :=
  match strip_underscores "000" s with
  | Some t =>
      match parse_signed (drop_trailing_spaces (skip_spaces t)) with
      | Some f => Ret f
      | None => Raise (Exn ValueError "could not convert string to float")
      end
  | None => Raise (Exn ValueError "could not convert string to float")
  end.

End Float64.

(** ** Dynamic operations on values *)

Module PyOps.

Local Open Scope Z_scope.

Definition type_name (v : value) : string :=
  match v with
  | VNone => "NoneType"
  | VBool _ => "bool"
  | VInt _ => "int"
  | VFloat _ => "float"
  | VStr _ => "str"
  | VList _ => "list"
  | VDict _ => "dict"
  end.

Definition type_error (msg : string) : exn := Exn TypeError msg.

(** [bool(v)] *)
Definition truthy (v : value) : bool :=
  match v with
  | VNone => false
  | VBool b => b
  | VInt n => negb (n =? 0)
  | VFloat f => Float64.truthy f
  | VStr s => negb (Text.is_empty s)
  | VList l => match l with [] => false | _ => true end
  | VDict d => negb (bool_decide (d = ∅))
  end.

Definition is_str (k : string) (v : value) : bool :=
  match v with
  | VStr s => bool_decide (s = k)
  | _ => false
  end.

(** [k in v] for a string [k]. *)
Definition contains (k : string) (v : value) : py bool :=
  match v with
  | VDict d => Ret (bool_decide (is_Some (d !! k)))
  | VList l => Ret (existsb (is_str k) l)
  | VStr s => Ret (Text.contains s k)
  | _ => Raise (type_error ("argument of type '" +:+ type_name v +:+ "' is not iterable"))
  end.

(** [v[k]] for a string [k]. *)
Definition getitem (k : string) (v : value) : py value :=
  match v with
  | VDict d =>
      match d !! k with
      | Some x => Ret x
      | None => Raise (Exn KeyError k)
      end
  | VStr _ => Raise (type_error "string indices must be integers")
  | VList _ => Raise (type_error "list indices must be integers or slices, not str")
  | _ => Raise (type_error ("'" +:+ type_name v +:+ "' object is not subscriptable"))
  end.

(** [v.get(k, dflt)]: a method of [dict] alone. *)
Definition get (k : string) (dflt : value) (v : value) : py value :=
  match v with
  | VDict d => Ret (default dflt (d !! k))
  | _ => Raise (Exn AttributeError
                  ("'" +:+ type_name v +:+ "' object has no attribute 'get'"))
  end.

(** [v[0]] *)
Definition getitem0 (v : value) : py value :=
  match v with
  | VList (x :: _) => Ret x
  | VList [] => Raise (Exn IndexError "list index out of range")
  | VStr (String c _) => Ret (VStr (String c EmptyString))
  | VStr EmptyString => Raise (Exn IndexError "string index out of range")
  | VDict _ => Raise (Exn KeyError "0")
  | _ => Raise (type_error ("'" +:+ type_name v +:+ "' object is not subscriptable"))
  end.

(** [v > 0] *)
Definition gt0 (v : value) : py bool :=
  match v with
  | VInt n => Ret (0 <? n)
  | VBool b => Ret b
  | VFloat f => Ret (Float64.is_positive f)
  | _ => Raise (type_error ("'>' not supported between instances of '"
                            +:+ type_name v +:+ "' and 'int'"))
  end.

(** [a or b], the second operand being evaluated on demand. *)
Definition or_else (a : value) (b : py value) : py value :=
  if truthy a then Ret a else b.

(** The elements that [for x in v] visits; a dictionary yields its
    keys. *)
Definition iterate (v : value) : py (list value) :=
  match v with
  | VList l => Ret l
  | VStr s => Ret ((fun c => VStr (String c EmptyString)) <$> list_ascii_of_string s)
  | VDict d => Ret (VStr <$> (map_to_list d).*1)
  | _ => Raise (type_error ("'" +:+ type_name v +:+ "' object is not iterable"))
  end.

(** The four statistics of a result. *)
Definition stat_keys : list string := ["views"; "likes"; "comments"; "shares"].

(** [{'views': 0, 'likes': 0, 'comments': 0, 'shares': 0}] *)
Definition zero_stats : gmap string value :=
  {[ "views" := VInt 0; "likes" := VInt 0; "comments" := VInt 0; "shares" := VInt 0 ]}.

(** [d.get(k, 0)] on a dictionary of the program's own. *)
Definition dget0 (k : string) (d : gmap string value) : value :=
  default (VInt 0) (d !! k).

(** A count as a result record promises it: an integer, not negative. *)
Definition is_count (v : value) : bool :=
  match v with
  | VInt n => 0 <=? n
  | _ => false
  end.

Definition counts_only (r : gmap string value) : bool :=
  forallb (fun k => match r !! k with Some v => is_count v | None => false end) stat_keys.

(** The four statistics are keys of [r]. *)
Definition has_stat_fields (r : gmap string value) : Prop :=
  Forall (fun k => is_Some (r !! k)) stat_keys.

(** The four statistics are the integer 0. *)
Definition zeroed (r : gmap string value) : Prop :=
  Forall (fun k => r !! k = Some (VInt 0)) stat_keys.

(** What every result record offers: the four statistics, and all of
    them 0 when there is an error field. *)
Definition record_ok (r : gmap string value) : Prop :=
  has_stat_fields r /\ (is_Some (r !! "error") -> zeroed r).

(** A dictionary of statistics that reports no error. *)
Definition stat_dict (r : gmap string value) : Prop :=
  has_stat_fields r /\ r !! "error" = None.

End PyOps.

(** ** The fragment of [re] that the patterns of the program use *)

Module Regex.

Import Text.

(** A pattern is a sequence of atoms; a class is its membership test,
    which includes both letter cases under [re.I]. *)
Inductive atom :=
| Lit (s : string)                (* literal text *)
| Opt (c : ascii)                 (* [c?] *)
| Star (cls : ascii -> bool)      (* [[...]*] *)
| Plus (cls : ascii -> bool)      (* [[...]+] *)
| Group (cls : ascii -> bool).    (* [([...]+)], the group 1 *)

Definition lit_here (icase : bool) (s l : string) : bool :=
  if icase then startswith_nocase s l else startswith s l.

Definition first_some (a : option string) (b : option string) : option string :=
  match a with
  | Some x => Some x
  | None => b
  end.

(** Matching at the head of [s], greedy, with backtracking in the order
    of the engine: a repetition first tries to take one more character.
    The result is the text of group 1 (the text [g] when the pattern has
    no group). *)
Fixpoint match_here (icase : bool) (p : list atom) (s : string) (g : string)
  {struct p} : option string :=
  match p with
  | [] => Some g
  | Lit l :: p' =>
      if lit_here icase s l then match_here icase p' (drop (String.length l) s) g
      else None
  | Opt c :: p' =>
      match s with
      | String a r =>
          if lit_here icase (String a EmptyString) (String c EmptyString)
          then first_some (match_here icase p' r g) (match_here icase p' s g)
          else match_here icase p' s g
      | EmptyString => match_here icase p' s g
      end
  | Star cls :: p' =>
      (fix star (s : string) : option string :=
         match s with
         | String a r =>
             if cls a then first_some (star r) (match_here icase p' s g)
             else match_here icase p' s g
         | EmptyString => match_here icase p' s g
         end) s
  | Plus cls :: p' =>
      (fix plus (s : string) : option string :=
         match s with
         | String a r =>
             if cls a then first_some (plus r) (match_here icase p' r g)
             else None
         | EmptyString => None
         end) s
  | Group cls :: p' =>
      (fix group (s : string) (acc : string) : option string :=
         match s with
         | String a r =>
             if cls a then
               let acc' := acc +:+ String a EmptyString in
               first_some (group r acc') (match_here icase p' r acc')
             else None
         | EmptyString => None
         end) s EmptyString
  end.

(** [re.search(p, s)]: the match at the leftmost position that has one;
    [None] when there is none. *)
Fixpoint search (icase : bool) (p : list atom) (s : string) : option string :=
  first_some (match_here icase p s EmptyString)
    match s with
    | String _ r => search icase p r
    | EmptyString => None
    end.

Definition found (o : option string) : bool :=
  match o with
  | Some _ => true
  | None => false
  end.

End Regex.

(** ** [utils/rate_limiter.py] *)

Module RateLimiter.

Local Open Scope Z_scope.

(** The attributes of a [RateLimiter].  [last_request_time] is the
    integer 0 until the first [wait], a clock reading afterwards; both
    are kept as a binary64 value. *)
Record t := Make {
  min_delay : spec_float;
  max_delay : spec_float;
  max_requests : Z;
  request_count : Z;
  last_request_time : spec_float;
}.

(** [RateLimiter.__init__] *)
Definition init (min_delay max_delay : spec_float) (max_requests : Z) : t :=
  {| min_delay := min_delay;
     max_delay := max_delay;
     max_requests := max_requests;
     request_count := 0;
     last_request_time := S754_zero false |}.

(** [RateLimiter.can_make_request] *)
Definition can_make_request (self : t) : bool :=
  request_count self <? max_requests self.

(** What one call of [wait] reads from outside: the clock before the
    pause, the draw of [random.uniform(min_delay, max_delay)], and the
    clock after the pause. *)
Record pacing := Pacing {
  clock_before : spec_float;
  drawn_delay : spec_float;
  clock_after : spec_float;
}.

(** The time that [wait] sleeps, if it sleeps. *)
Definition sleep_time (self : t) (p : pacing) : option spec_float :=
  if Float64.is_positive (last_request_time self) then
    let elapsed := SFsub Float64.prec Float64.emax (clock_before p) (last_request_time self) in
    if SFltb elapsed (drawn_delay p)
    then Some (SFsub Float64.prec Float64.emax (drawn_delay p) elapsed)
    else None
  else None.

(** [RateLimiter.wait]: the state after the call. *)
Definition wait (p : pacing) (self : t) : t :=
  {| min_delay := min_delay self;
     max_delay := max_delay self;
     max_requests := max_requests self;
     request_count := request_count self + 1;
     last_request_time := clock_after p |}.

(** [RateLimiter.get_remaining_requests] *)
Definition get_remaining_requests (self : t) : Z :=
  Z.max 0 (max_requests self - request_count self).

(** [RateLimiter.reset] *)
Definition reset (self : t) : t :=
  {| min_delay := min_delay self;
     max_delay := max_delay self;
     max_requests := max_requests self;
     request_count := 0;
     last_request_time := S754_zero false |}.

(** A sequence of calls of [wait], one per element of [ps]. *)
Definition waits (ps : list pacing) (self : t) : t :=
  foldl (fun s p => wait p s) self ps.

End RateLimiter.

(** ** The browser page, as the scrapers use it *)

Module Browser.

(** A DOM element handle. *)
Record element := Element {
  inner_text : py string;
  get_attribute : string -> py (option string);
}.

(** A page that has been asked to load a URL.  [captured] is what the
    response listener has left in [intercepted_data] when the extraction
    reads it ([VNone] when no response qualified). *)
Record page := Page {
  goto : py unit;
  scroll : py unit;
  captured : value;
  query_selector : string -> py (option element);
  query_selector_all : string -> py (list element);
}.

(** The selector [<head>"<v>"]], whose value is between double quotes. *)
Definition attr_is (head v : string) : string :=
  let quote := String (ascii_of_N 34) EmptyString in
  head +:+ quote +:+ v +:+ quote +:+ "]".

(** What a platform scraper went through, in order. *)
Inductive step :=
| Listen
| Navigate
| Settle
| ExtractNetwork
| ExtractHtml
| Unlisten.

(** [{'views': 0, 'likes': 0, 'comments': 0, 'shares': 0, 'error': str(e)}] *)
Definition error_stats (e : exn) : gmap string value :=
  <["error" := VStr (exn_msg e)]> PyOps.zero_stats.

(** The statistics that a platform scraper returns: a dictionary of the
    four statistics without error, or the zeroed statistics of an
    exception. *)
Definition scrape_shape (stats : gmap string value) : Prop :=
  PyOps.stat_dict stats \/ exists e : exn, stats = error_stats e.

End Browser.

(** ** [platforms/tiktok.py] *)

Module TikTok.

Import Text PyOps Regex Browser.
Local Open Scope Z_scope.

Definition handle_char (c : ascii) : bool :=
  isword c || char_eqb c "." || char_eqb c "-".

(** [TikTokScraper.is_tiktok_url] *)
Definition is_tiktok_url (url : string) : bool :=
  let patterns :=
    [ [Lit "tiktok.com/@"; Plus handle_char; Lit "/video/"; Plus isdigit];
      [Lit "vm.tiktok.com/"; Plus isword];
      [Lit "tiktok.com/t/"; Plus isword] ] in
  existsb (fun pattern => found (search false pattern url)) patterns.

(** [TikTokScraper.SELECTORS], in the order of the dictionary. *)
Definition SELECTORS : list (string * string) :=
  [ ("views", attr_is "[data-e2e=" "video-views");
    ("likes", attr_is "[data-e2e=" "like-count" +:+ ", "
              +:+ attr_is "[data-e2e=" "browse-like-count");
    ("comments", attr_is "[data-e2e=" "comment-count" +:+ ", "
                 +:+ attr_is "[data-e2e=" "browse-comment-count");
    ("shares", attr_is "[data-e2e=" "share-count") ].

(** The object that the three known shapes of a payload designate. *)
Definition item_info_of (data : value) : py value :=
  let* has_item_info := contains "itemInfo" data in
  if has_item_info then
    let* info := getitem "itemInfo" data in
    get "itemStruct" (VDict ∅) info
  else
    let* has_seo := contains "seoProps" data in
    if has_seo then
      let* seo := get "seoProps" (VDict ∅) data in
      get "webVideoDetail" (VDict ∅) seo
    else
      let* has_list := contains "itemList" data in
      if has_list then
        let* items := get "itemList" (VList []) data in
        if truthy items then getitem0 items else Ret VNone
      else Ret VNone.

(** [TikTokScraper._parse_intercepted_data]; [None] is the [None] of the
    source. *)
Definition _parse_intercepted_data (intercepted_data : value)
  : option (gmap string value) :=
  if negb (truthy intercepted_data) then None
  else
    let body : py (option (gmap string value)) :=
      let* item_info := item_info_of intercepted_data in
      if truthy item_info then
        let* stats := get "stats" (VDict ∅) item_info in
        let* views := get "playCount" (VInt 0) stats in
        let* likes := get "diggCount" (VInt 0) stats in
        let* comments := get "commentCount" (VInt 0) stats in
        let* shares := get "shareCount" (VInt 0) stats in
        Ret (Some ({[ "views" := views; "likes" := likes;
                       "comments" := comments; "shares" := shares ]}
                    : gmap string value))
      else Ret None in
    match body with
    | Ret r => r
    | Raise _ => None
    end.

(** [TikTokScraper._parse_count] *)
Definition _parse_count (text : string) : py Z :=
  if is_empty text then Ret 0
  else
    let text := remove_char " " (remove_char "," (upper (strip text))) in
    try_except_value_error
      (let '(multiplier, text) :=
         if endswith_char text "K" then (1000, drop_last text)
         else if endswith_char text "M" then (1000000, drop_last text)
         else if endswith_char text "B" then (1000000000, drop_last text)
         else (1, text) in
       let* f := Float64.of_string text in
       Float64.to_int (Float64.mul f (Float64.of_int multiplier)))
      (Ret 0).

(** The product that [_parse_count] hands to [int], for a text that is
    not empty. *)
Definition scaled_value (text : string) : py spec_float :=
  let text := remove_char " " (remove_char "," (upper (strip text))) in
  let '(multiplier, text) :=
    if endswith_char text "K" then (1000, drop_last text)
    else if endswith_char text "M" then (1000000, drop_last text)
    else if endswith_char text "B" then (1000000000, drop_last text)
    else (1, text) in
  let* f := Float64.of_string text in
  Ret (Float64.mul f (Float64.of_int multiplier)).

(** The product is an infinity, which [int] refuses. *)
Definition overflows (text : string) : bool :=
  match scaled_value text with
  | Ret f => Float64.is_infinite f
  | Raise _ => false
  end.

(** One turn of the loop of [_parse_from_html]: the statistic is set when
    the element is there and its text parses; any exception is dropped. *)
Definition read_stat (page : page) (stats : gmap string value)
  (entry : string * string) : gmap string value :=
  let '(stat_name, selector) := entry in
  let attempt : py (gmap string value) :=
    let* element := query_selector page selector in
    match element with
    | Some el =>
        let* text := inner_text el in
        let* n := _parse_count text in
        Ret (<[stat_name := VInt n]> stats)
    | None => Ret stats
    end in
  match attempt with
  | Ret stats' => stats'
  | Raise _ => stats
  end.

(** [TikTokScraper._parse_from_html] *)
Definition _parse_from_html (page : page) : gmap string value :=
  foldl (read_stat page) zero_stats SELECTORS.

(** [stats.get('views', 0) > 0 or stats.get('likes', 0) > 0], the test
    that chooses the message printed after the HTML fallback. *)
Definition html_has_data (stats : gmap string value) : py bool :=
  let* views_positive := gt0 (dget0 "views" stats) in
  if views_positive then Ret true else gt0 (dget0 "likes" stats).

(** The body of the [try] of [scrape], with the steps it reached. *)
Definition scrape_body (page : page) : py (gmap string value) * list step :=
  match goto page with
  | Raise e => (Raise e, [Navigate])
  | Ret _ =>
      match scroll page with
      | Raise e => (Raise e, [Navigate; Settle])
      | Ret _ =>
          let stats := _parse_intercepted_data (captured page) in
          let accepted : py bool :=
            match stats with
            | Some s =>
                if bool_decide (s = ∅) then Ret false
                else gt0 (dget0 "views" s)
            | None => Ret false
            end in
          match accepted, stats with
          | Raise e, _ => (Raise e, [Navigate; Settle; ExtractNetwork])
          | Ret true, Some s => (Ret s, [Navigate; Settle; ExtractNetwork])
          | Ret _, _ =>
              let stats := _parse_from_html page in
              (let* _ := html_has_data stats in Ret stats,
               [Navigate; Settle; ExtractNetwork; ExtractHtml])
          end
      end
  end.

(** [TikTokScraper.scrape]: the statistics returned and the steps gone
    through. *)
Definition scrape (page : page) (url : string) : gmap string value * list step :=
  let '(r, steps) := scrape_body page in
  (match r with
   | Ret stats => stats
   | Raise e => error_stats e
   end,
   [Listen] ++ steps ++ [Unlisten]).

End TikTok.

(** ** [platforms/instagram.py] *)

Module Instagram.

Import Text PyOps Regex Browser.
Local Open Scope Z_scope.

Definition code_char (c : ascii) : bool := isword c || char_eqb c "-".

(** [InstagramScraper.is_instagram_url] *)
Definition is_instagram_url (url : string) : bool :=
  let patterns :=
    [ [Lit "instagram.com/p/"; Plus code_char];
      [Lit "instagram.com/reel/"; Plus code_char];
      [Lit "instagram.com/reels/"; Plus code_char];
      [Lit "instagram.com/tv/"; Plus code_char] ] in
  existsb (fun pattern => found (search false pattern url)) patterns.

(** The media object that the known shapes of a payload designate: each
    shape that is present replaces the choice of the previous ones. *)
Definition media_of (data : value) : py value :=
  let media := VNone in
  let* has_data := contains "data" data in
  let* media :=
    if has_data then
      let* inner := get "data" (VDict ∅) data in
      let* shortcode_media := get "shortcode_media" (VDict ∅) inner in
      let media := if truthy shortcode_media then shortcode_media else media in
      let* inner := get "data" (VDict ∅) data in
      let* xdt_shortcode_media := get "xdt_shortcode_media" (VDict ∅) inner in
      Ret (if truthy xdt_shortcode_media then xdt_shortcode_media else media)
    else Ret media in
  let* has_items := contains "items" data in
  if has_items then
    let* items := get "items" (VList []) data in
    if truthy items then getitem0 items else Ret media
  else Ret media.

(** [InstagramScraper._parse_intercepted_data] *)
Definition _parse_intercepted_data (intercepted_data : value)
  : option (gmap string value) :=
  if negb (truthy intercepted_data) then None
  else
    let body : py (option (gmap string value)) :=
      let* media := media_of intercepted_data in
      if truthy media then
        let* like_edge := get "edge_media_preview_like" (VDict ∅) media in
        let* likes := get "count" (VInt 0) like_edge in
        let* comment_edge := get "edge_media_to_comment" (VDict ∅) media in
        let* comments := get "count" (VInt 0) comment_edge in
        let* video_view_count := get "video_view_count" (VInt 0) media in
        let* views := or_else video_view_count (get "play_count" (VInt 0) media) in
        let* likes := if truthy likes then Ret likes else get "like_count" (VInt 0) media in
        let* comments :=
          if truthy comments then Ret comments else get "comment_count" (VInt 0) media in
        let* views := if truthy views then Ret views else get "view_count" (VInt 0) media in
        Ret (Some ({[ "views" := views; "likes" := likes;
                      "comments" := comments; "shares" := VInt 0 ]}
                   : gmap string value))
      else Ret None in
    match body with
    | Ret r => r
    | Raise _ => None
    end.

(** [InstagramScraper._parse_count] *)
Definition _parse_count (text : string) : py Z :=
  if is_empty text then Ret 0
  else
    let text := remove_char " " (remove_char "," (upper (strip text))) in
    try_except_value_error
      (let '(multiplier, text) :=
         if endswith_char text "K" then (1000, drop_last text)
         else if endswith_char text "M" then (1000000, drop_last text)
         else if endswith_char text "B" then (1000000000, drop_last text)
         else (1, text) in
       let* f := Float64.of_string text in
       Float64.to_int (Float64.mul f (Float64.of_int multiplier)))
      (Ret 0).

(** The class [[\d,KMB.]] under [re.I]. *)
Definition count_char (c : ascii) : bool :=
  isdigit c || char_eqb c "," || char_eqb c "."
  || char_eqb (upper_char c) "K" || char_eqb (upper_char c) "M"
  || char_eqb (upper_char c) "B".

(** [([\d,KMB.]+)\s*<word>s?] *)
Definition count_pattern (word : string) : list atom :=
  [Group count_char; Star isspace; Lit word; Opt "s"].

(** A statement on the dictionary [stats], which is updated in place:
    the dictionary it leaves and whether it raised. *)
Definition update : Type := gmap string value -> gmap string value * py unit.

Definition then_ (a b : update) : update := fun stats =>
  match a stats with
  | (stats', Ret _) => b stats'
  | (stats', Raise e) => (stats', Raise e)
  end.

Definition skip : update := fun stats => (stats, Ret tt).

(** [if m: stats[key] = self._parse_count(m.group(1))] *)
Definition set_count (key : string) (m : option string) : update := fun stats =>
  match m with
  | Some group1 =>
      match _parse_count group1 with
      | Ret n => (<[key := VInt n]> stats, Ret tt)
      | Raise e => (stats, Raise e)
      end
  | None => (stats, Ret tt)
  end.

(** The first strategy: the counts of the [og:description] text. *)
Definition meta_strategy (page : page) : update := fun stats =>
  match query_selector page (attr_is "meta[property=" "og:description") with
  | Raise e => (stats, Raise e)
  | Ret None => (stats, Ret tt)
  | Ret (Some meta_content) =>
      match get_attribute meta_content "content" with
      | Raise e => (stats, Raise e)
      | Ret None => (stats, Ret tt)
      | Ret (Some content) =>
          if is_empty content then (stats, Ret tt)
          else
            let likes_match := search true (count_pattern "like") content in
            let comments_match := search true (count_pattern "comment") content in
            let views_match := search true (count_pattern "view") content in
            then_ (set_count "likes" likes_match)
              (then_ (set_count "comments" comments_match)
                 (set_count "views" views_match)) stats
      end
  end.

(** One turn of the loop on [interactionStatistic]. *)
Definition apply_stat (stat : value) : update := fun stats =>
  let turn : py (gmap string value) :=
    let* stat_type := get "interactionType" (VStr EmptyString) stat in
    let* count := get "userInteractionCount" (VInt 0) stat in
    let* is_like := contains "Like" stat_type in
    if is_like then Ret (<["likes" := count]> stats)
    else
      let* is_comment := contains "Comment" stat_type in
      if is_comment then Ret (<["comments" := count]> stats)
      else
        let* is_watch := contains "Watch" stat_type in
        if is_watch then Ret (<["views" := count]> stats) else Ret stats in
  match turn with
  | Ret stats' => (stats', Ret tt)
  | Raise e => (stats, Raise e)
  end.

Definition apply_stats (entries : list value) : update :=
  foldr (fun stat rest => then_ (apply_stat stat) rest) skip entries.

(** One turn of the loop on the script blocks: whatever is raised ends
    the turn and is dropped, what was written before stays. *)
Definition read_script (json_loads : string -> py value)
  (stats : gmap string value) (script : element) : gmap string value :=
  let entries : py (list value) :=
    let* content := inner_text script in
    let* data := json_loads content in
    let* has_statistic := contains "interactionStatistic" data in
    if has_statistic then
      let* statistic := get "interactionStatistic" (VList []) data in
      iterate statistic
    else Ret [] in
  match entries with
  | Ret entries => (apply_stats entries stats).1
  | Raise _ => stats
  end.

(** The second strategy: the [application/ld+json] script blocks. *)
Definition script_strategy (json_loads : string -> py value) (page : page)
  : update := fun stats =>
  match query_selector_all page (attr_is "script[type=" "application/ld+json") with
  | Raise e => (stats, Raise e)
  | Ret scripts => (foldl (read_script json_loads) stats scripts, Ret tt)
  end.

(** [InstagramScraper._parse_from_html] *)
Definition _parse_from_html (json_loads : string -> py value) (page : page)
  : gmap string value :=
  (then_ (meta_strategy page) (script_strategy json_loads page) zero_stats).1.

(** The test of [scrape] on a dictionary of statistics. *)
Definition has_data (stats : gmap string value) : py bool :=
  let* views_positive := gt0 (dget0 "views" stats) in
  if views_positive then Ret true else gt0 (dget0 "likes" stats).

(** The body of the [try] of [scrape], with the steps it reached. *)
Definition scrape_body (json_loads : string -> py value) (page : page)
  : py (gmap string value) * list step :=
  match goto page with
  | Raise e => (Raise e, [Navigate])
  | Ret _ =>
      match scroll page with
      | Raise e => (Raise e, [Navigate; Settle])
      | Ret _ =>
          let stats := _parse_intercepted_data (captured page) in
          let accepted : py bool :=
            match stats with
            | Some s => if bool_decide (s = ∅) then Ret false else has_data s
            | None => Ret false
            end in
          match accepted, stats with
          | Raise e, _ => (Raise e, [Navigate; Settle; ExtractNetwork])
          | Ret true, Some s => (Ret s, [Navigate; Settle; ExtractNetwork])
          | Ret _, _ =>
              let stats := _parse_from_html json_loads page in
              (let* _ := has_data stats in Ret stats,
               [Navigate; Settle; ExtractNetwork; ExtractHtml])
          end
      end
  end.

(** [InstagramScraper.scrape] *)
Definition scrape (json_loads : string -> py value) (page : page) (url : string)
  : gmap string value * list step :=
  let '(r, steps) := scrape_body json_loads page in
  (match r with
   | Ret stats => stats
   | Raise e => error_stats e
   end,
   [Listen] ++ steps ++ [Unlisten]).

End Instagram.

(** ** The resolution of a TikTok payload, as the specification words it *)

Module SpecReading.

Import PyOps.
Local Open Scope Z_scope.






(** "usable only if at least one of views/likes is strictly positive" *)
Definition acceptable (views likes : Z) : bool := (0 <? views) || (0 <? likes).

End SpecReading.

(** ** Browser sessions and the outside world *)

Module Session.

Import Browser.

Inductive platform := tiktok | instagram.

Definition platform_name (p : platform) : string :=
  match p with
  | tiktok => "tiktok"
  | instagram => "instagram"
  end.

(** What the program reads from outside. *)
Record world := World {
  launch : nat -> py unit;          (* the call of [create_stealth_browser] that opens session [k] *)
  new_page : nat -> py unit;        (* [context.new_page()] in session [k] *)
  site : string -> page;            (* the page, once asked to load a URL *)
  json_loads : string -> py value;  (* [json.loads] *)
  now_iso : nat -> string;          (* the [k]-th [datetime.now().isoformat()] *)
  pace : nat -> RateLimiter.pacing; (* what the [k]-th [wait] of a batch reads *)
}.

(** What the program does to browser sessions.  A session is the
    browser and the browsing context that one call of
    [create_stealth_browser] creates. *)
Inductive event :=
| Launch (sid : nat)
| NewPage (sid : nat)
| Scrape (sid : nat) (url : string) (steps : list step)
| Close (sid : nat).

Record state := State {
  sessions : nat;        (* sessions launched so far *)
  clock_reads : nat;     (* timestamps taken so far *)
  trace : list event;
}.

Definition initial : state := {| sessions := 0; clock_reads := 0; trace := [] |}.

Definition emit (evs : list event) (st : state) : state :=
  {| sessions := sessions st; clock_reads := clock_reads st; trace := trace st ++ evs |}.

(** [create_stealth_browser]: a new session, numbered from the count. *)
Definition open_session (w : world) (st : state) : py nat * state :=
  let sid := sessions st in
  let st' := {| sessions := S sid; clock_reads := clock_reads st; trace := trace st |} in
  match launch w sid with
  | Raise e => (Raise e, st')
  | Ret _ => (Ret sid, emit [Launch sid] st')
  end.

(** [datetime.now().isoformat()] *)
Definition read_clock (w : world) (st : state) : string * state :=
  (now_iso w (clock_reads st),
   {| sessions := sessions st; clock_reads := S (clock_reads st); trace := trace st |}).

(** The sessions in which the URLs were scraped, in order. *)
Definition scrape_sessions (tr : list event) : list nat :=
  omap (fun ev => match ev with Scrape sid _ _ => Some sid | _ => None end) tr.



End Session.

(** ** [scraper.py]: [SocialMediaScraper] *)

Module Scraper.

Import PyOps Browser Session.
Local Open Scope Z_scope.

(** The attributes of a [SocialMediaScraper] that change. *)
Record self := Self {
  rate_limiter : RateLimiter.t;
  results : list (gmap string value);
}.

(** [SocialMediaScraper.detect_platform] *)
Definition detect_platform (url : string) : option platform :=
  if TikTok.is_tiktok_url url then Some tiktok
  else if Instagram.is_instagram_url url then Some instagram
  else None.

Definition unsupported (url : string) : gmap string value :=
  {[ "url" := VStr url;
     "platform" := VStr "unknown";
     "error" := VStr "Unsupported platform";
     "views" := VInt 0;
     "likes" := VInt 0;
     "comments" := VInt 0;
     "shares" := VInt 0 ]}.

Definition platform_scrape (w : world) (p : platform) (url : string)
  : gmap string value * list step :=
  match p with
  | tiktok => TikTok.scrape (site w url) url
  | instagram => Instagram.scrape (json_loads w) (site w url) url
  end.

(** [SocialMediaScraper.scrape_url] *)
Definition scrape_url (w : world) (url : string) (st : state)
  : py (gmap string value) * state :=
  match detect_platform url with
  | None => (Ret (unsupported url), st)
  | Some platform =>
      match open_session w st with
      | (Raise e, st) => (Raise e, st)
      | (Ret sid, st) =>
          match new_page w sid with
          | Raise e => (Raise e, emit [Close sid] st)
          | Ret _ =>
              let '(stats, steps) := platform_scrape w platform url in
              let '(scraped_at, st) := read_clock w (emit [NewPage sid; Scrape sid url steps] st) in
              (Ret (stats ∪ {[ "url" := VStr url;
                               "platform" := VStr (platform_name platform);
                               "scraped_at" := VStr scraped_at ]}),
               emit [Close sid] st)
          end
      end
  end.

(** [f"{v:,}"]: the thousands separator is for numbers only. *)
Definition format_thousands (v : value) : py unit :=
  match v with
  | VInt _ | VBool _ | VFloat _ => Ret tt
  | VStr _ => Raise (Exn ValueError "Cannot specify ',' with 's'.")
  | _ => Raise (Exn TypeError
                  ("unsupported format string passed to " +:+ type_name v +:+ ".__format__"))
  end.

(** The three lines printed for a result. *)
Definition print_result (result : gmap string value) : py unit :=
  let* _ := format_thousands (dget0 "views" result) in
  let* _ := format_thousands (dget0 "likes" result) in
  format_thousands (dget0 "comments" result).

(** The loop of [scrape_urls] from the URL of index [i] on, in the one
    session [sid] that the batch has opened. *)
Fixpoint scrape_loop (w : world) (sid : nat) (urls : list string) (i : nat)
  (me : self) (st : state) : py unit * self * state :=
  match urls with
  | [] => (Ret tt, me, st)
  | url :: rest =>
      if negb (RateLimiter.can_make_request (rate_limiter me)) then (Ret tt, me, st)
      else
        let limiter := RateLimiter.wait (pace w i) (rate_limiter me) in
        let '(result, st) :=
          match detect_platform url with
          | None => (unsupported url, st)
          | Some platform =>
              let '(stats, steps) := platform_scrape w platform url in
              (stats ∪ {[ "url" := VStr url;
                          "platform" := VStr (platform_name platform) ]},
               emit [Scrape sid url steps] st)
          end in
        let '(scraped_at, st) := read_clock w st in
        let result := <["scraped_at" := VStr scraped_at]> result in
        let me := {| rate_limiter := limiter; results := results me ++ [result] |} in
        match print_result result with
        | Raise e => (Raise e, me, st)
        | Ret _ => scrape_loop w sid rest (S i) me st
        end
  end.

(** [SocialMediaScraper.scrape_urls] *)
Definition scrape_urls (w : world) (urls : list string) (me : self) (st : state)
  : py (list (gmap string value)) * self * state :=
  let me := {| rate_limiter := rate_limiter me; results := [] |} in
  match open_session w st with
  | (Raise e, st) => (Raise e, me, st)
  | (Ret sid, st) =>
      match new_page w sid with
      | Raise e => (Raise e, me, emit [Close sid] st)
      | Ret _ =>
          match scrape_loop w sid urls 0 me (emit [NewPage sid] st) with
          | (Raise e, me, st) => (Raise e, me, emit [Close sid] st)
          | (Ret _, me, st) => (Ret (results me), me, emit [Close sid] st)
          end
      end
  end.

End Scraper.

(** ** [api.py] *)

Module Api.

Import PyOps Browser Session.
Local Open Scope Z_scope.

(** [detect_platform]: [None] stands for ['unknown']. *)
Definition detect_platform (url : string) : option platform :=
  if TikTok.is_tiktok_url url then Some tiktok
  else if Instagram.is_instagram_url url then Some instagram
  else None.

Definition unsupported (url : string) : gmap string value :=
  {[ "url" := VStr url;
     "platform" := VStr "unknown";
     "error" := VStr "Unsupported platform. Only TikTok and Instagram are supported.";
     "views" := VInt 0;
     "likes" := VInt 0;
     "comments" := VInt 0;
     "shares" := VInt 0 ]}.

Definition failure (url : string) (p : platform) (e : exn) : gmap string value :=
  {[ "url" := VStr url;
     "platform" := VStr (platform_name p);
     "error" := VStr (exn_msg e);
     "views" := VInt 0;
     "likes" := VInt 0;
     "comments" := VInt 0;
     "shares" := VInt 0 ]}.

(** [scrape_single_url] *)
Definition scrape_single_url (w : world) (url : string) (st : state)
  : py (gmap string value) * state :=
  match detect_platform url with
  | None => (Ret (unsupported url), st)
  | Some platform =>
      match open_session w st with
      | (Raise e, st) => (Raise e, st)
      | (Ret sid, st) =>
          match new_page w sid with
          | Raise e => (Ret (failure url platform e), emit [Close sid] st)
          | Ret _ =>
              let '(stats, steps) := Scraper.platform_scrape w platform url in
              let '(scraped_at, st) := read_clock w (emit [NewPage sid; Scrape sid url steps] st) in
              (Ret (stats ∪ {[ "url" := VStr url;
                               "platform" := VStr (platform_name platform);
                               "scraped_at" := VStr scraped_at ]}),
               emit [Close sid] st)
          end
      end
  end.

End Api.

(** ** Concrete inputs *)

Module Examples.

Import PyOps Browser Session.
Local Open Scope Z_scope.

(** [RateLimiter(max_requests=n)], with the default delays 3.0 and 5.0. *)
Definition limiter (n : Z) : RateLimiter.t :=
  RateLimiter.init (Float64.of_int 3) (Float64.of_int 5) n.

Definition three_pacings : list RateLimiter.pacing :=
  let zero := S754_zero false in
  [RateLimiter.Pacing zero zero zero; RateLimiter.Pacing zero zero zero;
   RateLimiter.Pacing zero zero zero].

(** [{stats: {playCount: a, diggCount: b, commentCount: c, shareCount: d}}] *)
Definition item (a b c d : value) : gmap string value :=
  {[ "stats" := VDict {[ "playCount" := a; "diggCount" := b;
                         "commentCount" := c; "shareCount" := d ]} ]}.

Definition stats_of (a b c d : value) : gmap string value :=
  {[ "views" := a; "likes" := b; "comments" := c; "shares" := d ]}.

(** [{itemInfo: {itemStruct: item}}] *)
Definition item_payload (it : gmap string value) : value :=
  VDict {[ "itemInfo" := VDict {[ "itemStruct" := VDict it ]} ]}.

Definition scenario_item : gmap string value :=
  item (VInt 12500) (VInt 890) (VInt 45) (VInt 12).
Definition scenario_payload : value := item_payload scenario_item.


(** A TikTok payload with likes and no views. *)
Definition likes_only_payload : value :=
  item_payload (item (VInt 0) (VInt 890) (VInt 0) (VInt 0)).

(** A TikTok payload with comments only. *)
Definition comments_only_payload : value :=
  item_payload (item (VInt 0) (VInt 0) (VInt 5) (VInt 0)).

(** A TikTok payload whose like count is a JSON string. *)
Definition text_likes_payload : value :=
  item_payload (item (VInt 12500) (VStr "890") (VInt 45) (VInt 12)).

(** [{items: [{view_count: v, like_count: l, comment_count: c}]}] *)
Definition media_payload (v l c : Z) : value :=
  VDict {[ "items" := VList [VDict {[ "view_count" := VInt v; "like_count" := VInt l;
                                      "comment_count" := VInt c ]}] ]}.

(** A page that loads, shows no element, and has captured [payload]. *)
Definition page_with (payload : value) : page :=
  {| goto := Ret tt;
     scroll := Ret tt;
     captured := payload;
     query_selector := fun _ => Ret None;
     query_selector_all := fun _ => Ret [] |}.

Definition timeout : exn := Exn TimeoutError "Timeout 30000ms exceeded.".

(** The same page when its navigation runs into the 30 seconds. *)
Definition slow_page (payload : value) : page :=
  {| goto := Raise timeout;
     scroll := Ret tt;
     captured := payload;
     query_selector := fun _ => Ret None;
     query_selector_all := fun _ => Ret [] |}.

Definition no_json (text : string) : py value :=
  Raise (Exn ValueError "Expecting value").

(** A world in which every URL shows [pg]. *)
Definition world_of (pg : page) : world :=
  {| launch := fun _ => Ret tt;
     new_page := fun _ => Ret tt;
     site := fun _ => pg;
     json_loads := no_json;
     now_iso := fun _ => "2024-05-01T12:00:00";
     pace := fun _ => RateLimiter.Pacing (S754_zero false) (S754_zero false) (S754_zero false) |}.

Definition tiktok_url : string := "https://www.tiktok.com/@someone/video/7300000000000000000".
Definition other_tiktok_url : string := "https://vm.tiktok.com/ZMabc123/".
Definition instagram_url : string := "https://www.instagram.com/reel/Cx1abc-_9/".
Definition unknown_url : string := "https://example.com/watch?v=1".

(** An Instagram page whose description says 100 likes and whose
    structured-data block says 5. *)
Definition meta_element : element :=
  {| inner_text := Ret EmptyString;
     get_attribute := fun name =>
       Ret (if bool_decide (name = "content")
            then Some "100 likes, 7 comments - someone on Instagram"
            else None) |}.

Definition script_element : element :=
  {| inner_text := Ret "ld";
     get_attribute := fun _ => Ret None |}.

Definition like_entry : gmap string value :=
  {[ "interactionType" := VStr "http://schema.org/LikeAction";
     "userInteractionCount" := VInt 5 ]}.

Definition ld_json (text : string) : py value :=
  if bool_decide (text = "ld")
  then Ret (VDict {[ "interactionStatistic" := VList [VDict like_entry] ]})
  else no_json text.

Definition instagram_page : page :=
  {| goto := Ret tt;
     scroll := Ret tt;
     captured := VNone;
     query_selector := fun sel =>
       Ret (if bool_decide (sel = attr_is "meta[property=" "og:description")
            then Some meta_element else None);
     query_selector_all := fun _ => Ret [script_element] |}.

Definition scraper0 : Scraper.self :=
  {| Scraper.rate_limiter := limiter 20; Scraper.results := [] |}.

End Examples.

(** ** The statistics of the TikTok page, one by one *)

Module TikTokHtml.

Import PyOps Browser.
Local Open Scope Z_scope.

(** The text of one statistic in the TikTok page: what its element
    shows, parsed; 0 when the element is not there, when the query or the
    reading of the text raises, or when the parser raises. *)
Definition stat_of (page : page) (selector : string) : Z :=
  match query_selector page selector with
  | Ret (Some element) =>
      match inner_text element with
      | Ret text =>
          match TikTok._parse_count text with
          | Ret n => n
          | Raise _ => 0
          end
      | Raise _ => 0
      end
  | _ => 0
  end.

(** [SELECTORS[name]] *)
Definition selector_of (name : string) : string :=
  (list_to_map TikTok.SELECTORS : gmap string string) !!! name.

End TikTokHtml.

(** ** Texts made of the characters of a class *)

Module TextMore.

(** Every character of [s] is in the class [cls]. *)
Fixpoint all (cls : ascii -> bool) (s : string) : bool :=
  match s with
  | EmptyString => true
  | String c r => cls c && all cls r
  end.

End TextMore.

(** ** [scraper.py]: the list of URLs *)

Module Cli.

Import Text.

(** [load_urls_from_file], on the lines that the file yields. *)
Fixpoint load_urls_from_file (lines : list string) : list string :=
  match lines with
  | [] => []
  | line :: rest =>
      let line := strip line in
      if negb (is_empty line) && negb (startswith line "#")
      then line :: load_urls_from_file rest
      else load_urls_from_file rest
  end.

End Cli.

(** ** The response listeners *)

Module Listener.

Import Text PyOps.

(** A network response, as the listeners read it. *)
Record response := Response {
  url : string;
  headers : gmap string string;
  json : py value;
}.

(** [response.headers.get('content-type', '')] *)
Definition content_type (r : response) : string :=
  default EmptyString (headers r !! "content-type").

(** [TikTokScraper.API_PATTERNS] *)
Definition TIKTOK_API_PATTERNS : list string :=
  ["/api/item/detail"; "/api/recommend/item_list"; "webapp/video/detail"].

(** [InstagramScraper.API_PATTERNS] *)
Definition INSTAGRAM_API_PATTERNS : list string :=
  ["/api/v1/media/"; "/graphql/query"; "i.instagram.com/api"].

(** [TikTokScraper._intercept_response]: the payload that the listener
    holds after the response, from the one it held before. *)
Definition tiktok_intercept_response (intercepted_data : value) (r : response) : value :=
  if existsb (fun pattern => Text.contains (url r) pattern) TIKTOK_API_PATTERNS then
    if Text.contains (content_type r) "application/json" then
      match json r with
      | Ret data => data
      | Raise _ => intercepted_data
      end
    else intercepted_data
  else intercepted_data.

(** What a response leaves in the listener of TikTok, if anything. *)
Definition tiktok_retained (r : response) : option value :=
  if existsb (fun pattern => Text.contains (url r) pattern) TIKTOK_API_PATTERNS
     && Text.contains (content_type r) "application/json"
  then match json r with
       | Ret data => Some data
       | Raise _ => None
       end
  else None.

(** The payload at the time of the extraction: [scrape] starts from
    [None], then come the responses. *)
Definition tiktok_captured (responses : list response) : value :=
  foldl tiktok_intercept_response VNone responses.

Section Instagram.

(** [str] on a dictionary. *)
Variable py_str : gmap string value -> string.

(** [InstagramScraper._contains_media_data] *)
Definition _contains_media_data (data : value) : bool :=
  match data with
  | VDict d =>
      let keys_to_check :=
        ["edge_media_preview_like"; "edge_media_to_comment";
         "like_count"; "comment_count"; "play_count"] in
      let data_str := py_str d in
      existsb (fun key => Text.contains data_str key) keys_to_check
  | _ => false
  end.

(** [InstagramScraper._intercept_response] *)
Definition instagram_intercept_response (intercepted_data : value) (r : response)
  : value :=
  if existsb (fun pattern => Text.contains (url r) pattern) INSTAGRAM_API_PATTERNS then
    if Text.contains (content_type r) "application/json"
       || Text.contains (content_type r) "text/javascript" then
      match json r with
      | Ret data => if _contains_media_data data then data else intercepted_data
      | Raise _ => intercepted_data
      end
    else intercepted_data
  else intercepted_data.

Definition instagram_captured (responses : list response) : value :=
  foldl instagram_intercept_response VNone responses.

End Instagram.

End Listener.

(** ** [api.py]: the two routes *)

Module Endpoints.

Import Text PyOps Browser Session.
Local Open Scope Z_scope.

(** What a route answers: a JSON body with its status, or an exception
    that the route does not handle. *)
Inductive reply :=
| Reply (status : Z) (body : gmap string value)
| Unhandled (e : exn).

Definition failure_body (message : string) : gmap string value :=
  {[ "success" := VBool false; "error" := VStr message ]}.

(** [Missing "<key>" in request body] *)
Definition missing (key : string) : string :=
  let quote := String (ascii_of_N 34) EmptyString in
  "Missing " +:+ quote +:+ key +:+ quote +:+ " in request body".

(** [scrape_single_url] on whatever the request holds as URL: the
    patterns are searched in a string only (the message of the
    [TypeError] is that of Python 3.10). *)
Definition scrape_single (w : world) (url : value) (st : state)
  : py (gmap string value) * state :=
  match url with
  | VStr s => Api.scrape_single_url w s st
  | _ => (Raise (type_error "expected string or bytes-like object"), st)
  end.

(** The route [/scrape], on the value of [request.get_json()]. *)
Definition scrape_url (w : world) (data : value) (st : state) : reply * state :=
  if negb (truthy data) then (Reply 400 (failure_body (missing "url")), st)
  else
    match contains "url" data with
    | Raise e => (Unhandled e, st)
    | Ret false => (Reply 400 (failure_body (missing "url")), st)
    | Ret true =>
        match getitem "url" data with
        | Raise e => (Unhandled e, st)
        | Ret url =>
            match get "headless" (VBool true) data with
            | Raise e => (Unhandled e, st)
            | Ret _ =>
                match scrape_single w url st with
                | (Raise e, st') => (Reply 500 (failure_body (exn_msg e)), st')
                | (Ret result, st') =>
                    if truthy (default VNone (result !! "error")) then
                      (Reply 200 {[ "success" := VBool false;
                                    "error" := default VNone (result !! "error");
                                    "data" := VDict result ]}, st')
                    else
                      (Reply 200 {[ "success" := VBool true; "data" := VDict result ]},
                       st')
                end
            end
        end
    end.

(** [len(v)] *)
Definition py_len (v : value) : py nat :=
  match v with
  | VList l => Ret (length l)
  | VStr s => Ret (String.length s)
  | VDict d => Ret (size d)
  | _ => Raise (type_error ("object of type '" +:+ type_name v +:+ "' has no len()"))
  end.

(** [v[:10]]; on a dictionary the slice is refused as a key (a
    [TypeError] up to Python 3.11). *)
Definition first_ten (v : value) : py value :=
  match v with
  | VList l => Ret (VList (take 10 l))
  | VStr s => Ret (VStr (string_of_list_ascii (take 10 (list_ascii_of_string s))))
  | VDict _ => Raise (type_error "unhashable type: 'slice'")
  | _ => Raise (type_error ("'" +:+ type_name v +:+ "' object is not subscriptable"))
  end.

(** [url.strip()] *)
Definition py_strip (url : value) : py string :=
  match url with
  | VStr s => Ret (strip s)
  | _ => Raise (Exn AttributeError
                  ("'" +:+ type_name url +:+ "' object has no attribute 'strip'"))
  end.

(** The loop of [scrape_batch]: an entry that is false or blank is
    passed over, each other one is scraped by [scrape_single_url]. *)
Fixpoint batch_loop (w : world) (urls : list value)
  (results : list (gmap string value)) (st : state)
  : py (list (gmap string value)) * state :=
  match urls with
  | [] => (Ret results, st)
  | url :: rest =>
      if truthy url then
        match py_strip url with
        | Raise e => (Raise e, st)
        | Ret stripped =>
            if is_empty stripped then batch_loop w rest results st
            else
              match Api.scrape_single_url w stripped st with
              | (Raise e, st') => (Raise e, st')
              | (Ret result, st') => batch_loop w rest (results ++ [result]) st'
              end
        end
      else batch_loop w rest results st
  end.

Section Batch.

(** [sum(r.get(key, 0) for r in results)], the addition of Python being
    left to [sum]. *)
Variable py_sum : list value -> py value.

(** The keys of a dictionary in the order of their insertion, which a
    finite map does not keep. *)
Variable key_order : gmap string value -> list string.

(** The entries that [for url in urls] visits. *)
Definition entries_of (urls : value) : py (list value) :=
  match urls with
  | VDict d => Ret (VStr <$> key_order d)
  | _ => iterate urls
  end.

Definition total (key : string) (results : list (gmap string value)) : py value :=
  py_sum (dget0 key <$> results).

(** The [try] of [scrape_batch]. *)
Definition batch_body (w : world) (urls : list value) (st : state)
  : py (gmap string value) * state :=
  match batch_loop w urls [] st with
  | (Raise e, st') => (Raise e, st')
  | (Ret results, st') =>
      (let* total_views := total "views" results in
       let* total_likes := total "likes" results in
       let* total_comments := total "comments" results in
       let* total_shares := total "shares" results in
       Ret ({[ "success" := VBool true;
               "data" := VList (VDict <$> results);
               "summary" := VDict {[ "total_views" := total_views;
                                     "total_likes" := total_likes;
                                     "total_comments" := total_comments;
                                     "total_shares" := total_shares ]} ]}
            : gmap string value),
       st')
  end.

(** The route [/scrape/batch], on the value of [request.get_json()]. *)
Definition scrape_batch (w : world) (data : value) (st : state) : reply * state :=
  if negb (truthy data) then (Reply 400 (failure_body (missing "urls")), st)
  else
    match contains "urls" data with
    | Raise e => (Unhandled e, st)
    | Ret false => (Reply 400 (failure_body (missing "urls")), st)
    | Ret true =>
        match getitem "urls" data with
        | Raise e => (Unhandled e, st)
        | Ret urls =>
            match get "headless" (VBool true) data with
            | Raise e => (Unhandled e, st)
            | Ret _ =>
                if negb (truthy urls) then (Reply 400 (failure_body "Empty URL list"), st)
                else
                  match py_len urls with
                  | Raise e => (Unhandled e, st)
                  | Ret n =>
                      if Nat.eqb n 0 then (Reply 400 (failure_body "Empty URL list"), st)
                      else
                        match (if Nat.ltb 10 n then first_ten urls else Ret urls) with
                        | Raise e => (Unhandled e, st)
                        | Ret urls =>
                            match entries_of urls with
                            | Raise e => (Reply 500 (failure_body (exn_msg e)), st)
                            | Ret entries =>
                                match batch_body w entries st with
                                | (Raise e, st') =>
                                    (Reply 500 (failure_body (exn_msg e)), st')
                                | (Ret body, st') => (Reply 200 body, st')
                                end
                            end
                        end
                  end
            end
        end
    end.

End Batch.


End Endpoints.

(** ** More concrete inputs *)

Module MoreExamples.

Import PyOps Browser Session.
Local Open Scope Z_scope.

(** A TikTok payload whose view count is a JSON string. *)
Definition text_views_payload : value :=
  Examples.item_payload (Examples.item (VStr "12500") (VInt 890) (VInt 45) (VInt 12)).

(** An Instagram page without description, whose structured-data block
    gives the count of views as a string. *)
Definition watch_entry : gmap string value :=
  {[ "interactionType" := VStr "http://schema.org/WatchAction";
     "userInteractionCount" := VStr "1200" ]}.

Definition watch_json (text : string) : py value :=
  if bool_decide (text = "ld")
  then Ret (VDict {[ "interactionStatistic" := VList [VDict watch_entry] ]})
  else Examples.no_json text.

Definition script_page : page :=
  {| goto := Ret tt;
     scroll := Ret tt;
     captured := VNone;
     query_selector := fun _ => Ret None;
     query_selector_all := fun _ => Ret [Examples.script_element] |}.

(** An Instagram payload with both a GraphQL media and a list of items. *)
Definition both_shapes : gmap string value :=
  {[ "data" := VDict {[ "shortcode_media" := VDict {[ "video_view_count" := VInt 7 ]} ]};
     "items" := VList [VDict {[ "view_count" := VInt 9 ]}] ]}.

(** A world whose browser launches and whose page cannot be opened. *)
Definition no_page_world : world :=
  {| launch := fun _ => Ret tt;
     new_page := fun _ => Raise Examples.timeout;
     site := fun _ => Examples.page_with VNone;
     json_loads := Examples.no_json;
     now_iso := fun _ => EmptyString;
     pace := pace (Examples.world_of (Examples.page_with VNone)) |}.

(** A scraper whose limiter has no request left. *)
Definition spent_scraper : Scraper.self :=
  {| Scraper.rate_limiter := Examples.limiter 0; Scraper.results := [] |}.

(** The keys of a dictionary in the order of the finite map. *)
Definition map_order (d : gmap string value) : list string := (map_to_list d).*1.

(** [sum] on integers, which is all that the checks below need. *)
Definition int_sum (vs : list value) : py value :=
  foldl (fun acc v =>
           let* a := acc in
           match a, v with
           | VInt x, VInt y => Ret (VInt (x + y))
           | _, _ => Raise (type_error "unsupported operand type(s) for +")
           end) (Ret (VInt 0)) vs.


(** Twelve entries. *)
Definition twelve : list value :=
  replicate 10 (VStr Examples.tiktok_url) ++ [VStr Examples.instagram_url; VStr Examples.unknown_url].

End MoreExamples.

(** ** The limiter of the program *)

Module Limiter.

Import RateLimiter.
Local Open Scope Z_scope.

(** [RateLimiter()]: the arguments of [__init__] at their defaults. *)
Definition default : t := init (Float64.of_int 3) (Float64.of_int 5) 20.

(** [get_rate_limiter], on the global [_rate_limiter]: the limiter that
    it returns, and the global afterwards.  This is the one place where
    a limiter is built. *)
Definition get_rate_limiter (global : option t) : t * option t :=
  match global with
  | None => (default, Some default)
  | Some limiter => (limiter, global)
  end.

(** The calls that change a limiter. *)
Inductive call :=
| Wait (p : pacing)
| Reset.

Definition apply_call (self : t) (c : call) : t :=
  match c with
  | Wait p => wait p self
  | Reset => reset self
  end.

Definition calls (cs : list call) (self : t) : t := foldl apply_call self cs.

(** Twenty calls of [wait]. *)
Definition twenty_pacings : list pacing :=
  replicate 20 (Pacing (S754_zero false) (S754_zero false) (S754_zero false)).

End Limiter.

(** ** The pages that were asked for *)

Module Navigation.

Import Session.


End Navigation.

(** * Properties *)

(** ** Text *)

Section TextFacts.

Import Text.

Lemma char_eqb_eq (a b : ascii) : char_eqb a b = true <-> a = b.
Proof.
  unfold char_eqb, code. rewrite N.eqb_eq. split.
  - intros H. apply (f_equal ascii_of_N) in H.
    now rewrite !ascii_N_embedding in H.
  - now intros ->.
Qed.

Lemma upper_char_minus (c : ascii) :
  char_eqb c "-" = false -> char_eqb (upper_char c) "-" = false.
Proof. destruct c as [[] [] [] [] [] [] [] []]; intros H; exact H || reflexivity. Qed.

Lemma minus_free_cons (c : ascii) (s : string) :
  minus_free (String c s) = true <-> char_eqb c "-" = false /\ minus_free s = true.
Proof.
  cbn [minus_free]. rewrite andb_true_iff, negb_true_iff. tauto.
Qed.

Lemma minus_free_upper (s : string) :
  minus_free s = true -> minus_free (upper s) = true.
Proof.
  induction s as [|c s IH]; [easy|].
  cbn [upper]. rewrite !minus_free_cons. intros [Hc Hs].
  split; [now apply upper_char_minus | now apply IH].
Qed.

Lemma minus_free_lstrip (s : string) :
  minus_free s = true -> minus_free (lstrip s) = true.
Proof.
  induction s as [|c s IH]; [easy|].
  intros H. cbn [lstrip]. destruct (isspace c); [|exact H].
  apply IH. now apply minus_free_cons in H.
Qed.

Lemma minus_free_rstrip (s : string) :
  minus_free s = true -> minus_free (rstrip s) = true.
Proof.
  induction s as [|c s IH]; [easy|].
  rewrite minus_free_cons. intros [Hc Hs]. cbn [rstrip].
  specialize (IH Hs). destruct (rstrip s) as [|c' r'].
  - destruct (isspace c); [easy|]. now apply minus_free_cons.
  - now apply minus_free_cons.
Qed.

Lemma minus_free_remove_char (a : ascii) (s : string) :
  minus_free s = true -> minus_free (remove_char a s) = true.
Proof.
  induction s as [|c s IH]; [easy|].
  rewrite minus_free_cons. intros [Hc Hs]. cbn [remove_char].
  destruct (char_eqb c a); [now apply IH|].
  apply minus_free_cons. split; [exact Hc | now apply IH].
Qed.

Lemma minus_free_drop_last (s : string) :
  minus_free s = true -> minus_free (drop_last s) = true.
Proof.
  induction s as [|c s IH]; [easy|].
  rewrite minus_free_cons. intros [Hc Hs]. cbn [drop_last].
  destruct s as [|c' s']; [easy|].
  apply minus_free_cons. split; [exact Hc | now apply IH].
Qed.

(** The text that [_parse_count] obtains before it looks at the suffix
    has no minus sign when the input has none. *)
Lemma minus_free_normalised (s : string) :
  minus_free s = true ->
  minus_free (remove_char " " (remove_char "," (upper (strip s)))) = true.
Proof.
  intros H. do 2 apply minus_free_remove_char. apply minus_free_upper.
  unfold strip. now apply minus_free_rstrip, minus_free_lstrip.
Qed.

End TextFacts.

(** ** Floats *)

Section FloatFacts.

Import Text Float64.
Local Open Scope Z_scope.

Lemma binary_round_aux_signbit (p e m ex : Z) (l : location) :
  signbit (binary_round_aux p e false m ex l) = false.
Proof.
  unfold binary_round_aux.
  destruct (shr_fexp p e m ex l) as [mrs e'].
  destruct (shr_fexp p e _ e' loc_Exact) as [mrs' e''].
  destruct (shr_m mrs'); [reflexivity| |reflexivity].
  now destruct (e'' <=? e - p).
Qed.

Lemma of_ratio_signbit (num den : Z) : signbit (of_ratio false num den) = false.
Proof.
  unfold of_ratio. destruct (SFdiv_core_binary _ _ _ _ _ _) as [[q e] l].
  apply binary_round_aux_signbit.
Qed.

Lemma of_decimal_signbit (m e10 : Z) : signbit (of_decimal false m e10) = false.
Proof.
  unfold of_decimal.
  destruct m; [reflexivity | |]; destruct (0 <=? e10); apply of_ratio_signbit.
Qed.

Lemma mul_signbit (x y : spec_float) :
  signbit x = false -> signbit y = false -> signbit (mul x y) = false.
Proof.
  destruct x, y; cbn [signbit]; intros Hx Hy; subst; try reflexivity.
  apply binary_round_aux_signbit.
Qed.

Lemma take_sign_minus_free (s : string) :
  minus_free s = true -> take_sign s = (false, s) \/
                         exists r, s = String "+" r /\ take_sign s = (false, r).
Proof.
  destruct s as [|c r]; [now left|].
  rewrite minus_free_cons. intros [Hc _].
  destruct (ascii_dec c "-") as [->|Hm]; [discriminate|].
  destruct (ascii_dec c "+") as [->|Hp]; [right; now exists r|].
  left. unfold take_sign.
  destruct c as [[] [] [] [] [] [] [] []]; try reflexivity; congruence.
Qed.

Lemma parse_decimal_signbit (s : string) (f : spec_float) :
  parse_decimal false s = Some f -> signbit f = false.
Proof.
  unfold parse_decimal.
  destruct (take_digits s 0 0) as [[ip ni] r1].
  destruct (match r1 with
            | String "." r' => take_digits r' ip 0
            | _ => (ip, 0, r1)
            end) as [[m nf] r2].
  destruct (0 <? ni + nf); [|discriminate].
  destruct (parse_exponent r2); [|discriminate].
  intros [= <-]. apply of_decimal_signbit.
Qed.

Lemma parse_inf_nan_signbit (s : string) (f : spec_float) :
  parse_inf_nan false s = Some f -> signbit f = false.
Proof.
  unfold parse_inf_nan.
  repeat match goal with
         | |- context [if ?b then _ else _] => destruct b
         end; intros [= <-]; reflexivity.
Qed.

Lemma parse_unsigned_signbit (s : string) (f : spec_float) :
  match parse_decimal false s with
  | Some f => Some f
  | None => parse_inf_nan false s
  end = Some f -> signbit f = false.
Proof.
  destruct (parse_decimal false s) eqn:Hd.
  - intros [= <-]. now apply parse_decimal_signbit in Hd.
  - apply parse_inf_nan_signbit.
Qed.

Lemma parse_signed_signbit (s : string) (f : spec_float) :
  minus_free s = true -> parse_signed s = Some f -> signbit f = false.
Proof.
  intros Hs. unfold parse_signed.
  destruct (take_sign_minus_free s Hs) as [-> | (r & _ & ->)];
    apply parse_unsigned_signbit.
Qed.

Lemma strip_underscores_minus_free (s t : string) (prev : ascii) :
  minus_free s = true -> strip_underscores prev s = Some t -> minus_free t = true.
Proof.
  revert t prev. induction s as [|c s IH]; intros t prev.
  - cbn. destruct (char_eqb prev "_"); [discriminate|]. now intros _ [= <-].
  - rewrite minus_free_cons. intros [Hc Hs]. cbn [strip_underscores].
    destruct (char_eqb c "_").
    + destruct (isdigit prev); [now apply IH | discriminate].
    + destruct (char_eqb prev "_" && negb (isdigit c)); [discriminate|].
      destruct (strip_underscores c s) as [t'|] eqn:Ht; [|discriminate].
      intros [= <-]. apply minus_free_cons. split; [exact Hc|].
      now apply (IH t' c).
Qed.

Lemma minus_free_skip_spaces (s : string) :
  minus_free s = true -> minus_free (skip_spaces s) = true.
Proof.
  induction s as [|c s IH]; [easy|].
  intros H. cbn [skip_spaces]. destruct (is_c_space c); [|exact H].
  apply IH. now apply minus_free_cons in H.
Qed.

Lemma minus_free_drop_trailing_spaces (s : string) :
  minus_free s = true -> minus_free (drop_trailing_spaces s) = true.
Proof.
  induction s as [|c s IH]; [easy|].
  rewrite minus_free_cons. intros [Hc Hs]. cbn [drop_trailing_spaces].
  specialize (IH Hs). destruct (drop_trailing_spaces s) as [|c' r'].
  - destruct (is_c_space c); [easy|]. now apply minus_free_cons.
  - now apply minus_free_cons.
Qed.

(** [float] gives no negative value to a text without minus sign. *)
Lemma of_string_signbit (s : string) (f : spec_float) :
  minus_free s = true -> of_string s = Ret f -> signbit f = false.
Proof.
  intros Hs. unfold of_string.
  destruct (strip_underscores "000" s) as [t|] eqn:Ht; [|discriminate].
  destruct (parse_signed (drop_trailing_spaces (skip_spaces t))) as [g|] eqn:Hg;
    [|discriminate].
  intros [= <-]. eapply parse_signed_signbit; [|exact Hg].
  apply minus_free_drop_trailing_spaces, minus_free_skip_spaces.
  now apply (strip_underscores_minus_free s t "000").
Qed.

(** [float] raises nothing but [ValueError]. *)
Lemma of_string_raises (s : string) (e : exn) :
  of_string s = Raise e -> is_value_error e = true.
Proof.
  unfold of_string.
  destruct (strip_underscores "000" s) as [t|];
    [destruct (parse_signed (drop_trailing_spaces (skip_spaces t)))|];
    intros [= <-]; reflexivity.
Qed.

(** [int] of a float whose sign bit is clear. *)
Lemma to_int_signbit (f : spec_float) :
  signbit f = false ->
  match to_int f with
  | Ret n => 0 <= n
  | Raise e => is_infinite f = true \/ is_value_error e = true
  end.
Proof.
  destruct f as [s|s| |s m e]; cbn [signbit to_int is_infinite].
  - intros _. lia.
  - intros _. now left.
  - intros _. now right.
  - intros ->. cbn [cond_Zopp]. destruct (0 <=? e) eqn:He.
    + apply Z.leb_le in He. apply Z.mul_nonneg_nonneg; [lia|].
      now apply Z.pow_nonneg.
    + apply Z.leb_gt in He. apply Z.div_pos; [lia|].
      apply Z.pow_pos_nonneg; lia.
Qed.

Lemma to_int_total (f : spec_float) :
  (exists n, to_int f = Ret n) \/
  (exists e, to_int f = Raise e /\ (is_infinite f = true \/ is_value_error e = true)).
Proof.
  destruct f; cbn [to_int is_infinite]; eauto.
Qed.

End FloatFacts.

(** ** The count parser *)

Section CountParser.

Import Text Float64.
Local Open Scope Z_scope.

(** [_parse_count] is [int] applied to the scaled value, under the
    handler of [ValueError]. *)
Lemma parse_count_scaled (text : string) :
  TikTok._parse_count text =
    if is_empty text then Ret 0
    else try_except_value_error
           (let* f := TikTok.scaled_value text in to_int f) (Ret 0).
Proof.
  unfold TikTok._parse_count, TikTok.scaled_value.
  destruct (is_empty text); [reflexivity|].
  repeat match goal with
         | |- context [if endswith_char ?t ?c then _ else _] =>
             destruct (endswith_char t c)
         end;
    match goal with
    | |- context [of_string ?t] => destruct (of_string t); reflexivity
    end.
Qed.

Lemma scaled_value_signbit (text : string) (f : spec_float) :
  minus_free text = true -> TikTok.scaled_value text = Ret f -> signbit f = false.
Proof.
  intros Hm. apply minus_free_normalised in Hm. unfold TikTok.scaled_value.
  set (t := remove_char " " (remove_char "," (upper (strip text)))) in *.
  assert (Hd : minus_free (drop_last t) = true) by now apply minus_free_drop_last.
  repeat match goal with
         | |- context [if endswith_char ?t ?c then _ else _] =>
             destruct (endswith_char t c)
         end;
    match goal with
    | |- context [of_string ?u] => destruct (of_string u) as [g|] eqn:Hg
    end; try discriminate; intros [= <-];
    (apply mul_signbit; [now apply of_string_signbit in Hg | reflexivity]).
Qed.

Lemma scaled_value_raises (text : string) (e : exn) :
  TikTok.scaled_value text = Raise e -> is_value_error e = true.
Proof.
  unfold TikTok.scaled_value.
  repeat match goal with
         | |- context [if endswith_char ?t ?c then _ else _] =>
             destruct (endswith_char t c)
         end;
    match goal with
    | |- context [of_string ?u] => destruct (of_string u) as [g|] eqn:Hg
    end; try discriminate; intros [= <-]; now apply of_string_raises in Hg.
Qed.

(** C3, as the code has it.  For every input whose scaled value is not
    an infinity, the count parser returns an integer, and this integer is
    not negative when the input has no minus sign; a text that [float]
    refuses yields 0; the six examples of the specification hold. *)
Theorem parse_count_returns :
  (forall text : string,
      TikTok.overflows text = false ->
      exists n : Z, TikTok._parse_count text = Ret n
                    /\ (minus_free text = true -> 0 <= n))
  /\ (forall (text : string) (e : exn),
         TikTok.scaled_value text = Raise e -> TikTok._parse_count text = Ret 0)
  /\ TikTok._parse_count "1.5M" = Ret 1500000
  /\ TikTok._parse_count "234K" = Ret 234000
  /\ TikTok._parse_count "1,234" = Ret 1234
  /\ TikTok._parse_count EmptyString = Ret 0
  /\ TikTok._parse_count "abc" = Ret 0
  /\ TikTok._parse_count "2B" = Ret 2000000000.
Proof.
  split; [|split; [|repeat split; vm_compute; reflexivity]].
  - intros text Hfin. rewrite parse_count_scaled.
    destruct (is_empty text); [exists 0; split; [reflexivity | lia]|].
    unfold TikTok.overflows in Hfin.
    destruct (TikTok.scaled_value text) as [f|e] eqn:Hf; cbn [bind].
    + destruct (to_int f) as [n|e] eqn:Hn; cbn [try_except_value_error].
      * exists n. split; [reflexivity|]. intros Hm.
        pose proof (scaled_value_signbit text f Hm Hf) as Hs.
        apply to_int_signbit in Hs. now rewrite Hn in Hs.
      * destruct (to_int_total f) as [[n Hn']|(e' & He' & [Hinf|Hv])];
          try congruence.
        assert (e' = e) as -> by congruence. rewrite Hv.
        exists 0. split; [reflexivity | lia].
    + apply scaled_value_raises in Hf. cbn [try_except_value_error].
      rewrite Hf. exists 0. split; [reflexivity | lia].
  - intros text e Hf. rewrite parse_count_scaled.
    destruct (is_empty text); [reflexivity|].
    rewrite Hf. cbn [bind try_except_value_error].
    now rewrite (scaled_value_raises text e Hf).
Qed.

Lemma parse_count_returns_witness :
  TikTok.overflows "1.5M" = false
  /\ exists n : Z, TikTok._parse_count "1.5M" = Ret n
                   /\ (minus_free "1.5M" = true -> 0 <= n).
Proof.
  split; [reflexivity|].
  apply (proj1 parse_count_returns "1.5M"). reflexivity.
Defined.

(** C3, as the specification states it, fails: the text [-5] is parsed
    to the negative integer -5. *)
Lemma parse_count_negative :
  ~ (exists n : Z, TikTok._parse_count "-5" = Ret n /\ 0 <= n).
Proof.
  intros (n & H & Hn). vm_compute in H. injection H as <-. lia.
Qed.

(** C10.  The count parser of the TikTok scraper and that of the
    Instagram scraper return the same integer or raise the same
    exception, on every text. *)
Theorem parse_count_same (text : string) :
  TikTok._parse_count text = Instagram._parse_count text.
Proof.
  unfold TikTok._parse_count, Instagram._parse_count.
  destruct (is_empty text); reflexivity.
Qed.

End CountParser.

(** ** The rate limiter *)

Section RateLimiterFacts.

Import RateLimiter.
Local Open Scope Z_scope.

Lemma waits_max_requests (ps : list pacing) (s : t) :
  max_requests (waits ps s) = max_requests s.
Proof.
  revert s. induction ps as [|p ps IH]; intros s; [reflexivity|].
  cbn. unfold waits in IH. now rewrite IH.
Qed.

Lemma waits_request_count (ps : list pacing) (s : t) :
  request_count (waits ps s) = request_count s + Z.of_nat (length ps).
Proof.
  revert s. induction ps as [|p ps IH]; intros s.
  - cbn. lia.
  - cbn [length]. unfold waits in *. cbn [foldl]. rewrite IH. cbn. lia.
Qed.

Lemma calls_max_requests (cs : list Limiter.call) (s : t) :
  max_requests (Limiter.calls cs s) = max_requests s.
Proof.
  revert s. induction cs as [|c cs IH]; intros s; [reflexivity|].
  unfold Limiter.calls in *. cbn [foldl]. rewrite IH. now destruct c.
Qed.

(** C8.  [can_make_request] answers true exactly when
    [request_count < max_requests]; [max_requests] calls of [wait] from
    a state whose count is 0 make it answer false; [reset] zeroes the
    counters and, the ceiling being positive, makes [can_make_request]
    answer true again; [wait] increments the count in every state, also
    past the ceiling.  The ceiling is positive in every state of the
    limiter that the program builds: [get_rate_limiter] is the one place
    where a limiter is made, with the ceiling 20, and no call changes
    it. *)
Theorem rate_limiter_contract :
  (forall s : t, can_make_request s = true <-> request_count s < max_requests s)
  /\ (forall (s : t) (ps : list pacing),
         request_count s = 0 ->
         Z.of_nat (length ps) = max_requests s ->
         can_make_request (waits ps s) = false)
  /\ (forall s : t,
         request_count (reset s) = 0
         /\ last_request_time (reset s) = S754_zero false
         /\ max_requests (reset s) = max_requests s
         /\ (0 < max_requests s -> can_make_request (reset s) = true))
  /\ (forall (s : t) (p : pacing),
         request_count (wait p s) = request_count s + 1
         /\ max_requests (wait p s) = max_requests s)
  /\ (forall cs : list Limiter.call,
         max_requests (Limiter.calls cs (Limiter.get_rate_limiter None).1) = 20
         /\ can_make_request
              (reset (Limiter.calls cs (Limiter.get_rate_limiter None).1)) = true).
Proof.
  split; [|split; [|split; [|split]]].
  - intros s. unfold can_make_request. now rewrite Z.ltb_lt.
  - intros s ps H0 Hlen. unfold can_make_request.
    rewrite waits_request_count, waits_max_requests. apply Z.ltb_ge. lia.
  - intros s. repeat split. intros Hpos. unfold can_make_request. cbn.
    now apply Z.ltb_lt.
  - intros s p. split; reflexivity.
  - intros cs. pose proof (calls_max_requests cs (Limiter.get_rate_limiter None).1) as H.
    split; [exact H|]. unfold can_make_request, reset. cbn [request_count max_requests].
    rewrite H. reflexivity.
Qed.

Lemma rate_limiter_contract_witness :
  request_count Limiter.default = 0
  /\ Z.of_nat (length Limiter.twenty_pacings) = max_requests Limiter.default
  /\ can_make_request (waits Limiter.twenty_pacings Limiter.default) = false
  /\ 0 < max_requests (waits Limiter.twenty_pacings Limiter.default)
  /\ can_make_request (reset (waits Limiter.twenty_pacings Limiter.default)) = true.
Proof.
  split; [reflexivity|]. split; [reflexivity|].
  split; [apply (proj1 (proj2 rate_limiter_contract)); reflexivity|].
  split; [reflexivity|].
  apply (proj2 (proj2 (proj2
           (proj1 (proj2 (proj2 rate_limiter_contract))
              (waits Limiter.twenty_pacings Limiter.default))))).
  reflexivity.
Defined.

End RateLimiterFacts.

(** ** The structured-data extractor of TikTok *)

Section TikTokExtractor.

Import PyOps Browser.
Local Open Scope Z_scope.

Lemma contains_dict (k : string) (d : gmap string value) :
  contains k (VDict d) = Ret (match d !! k with Some _ => true | None => false end).
Proof. cbn. now destruct (d !! k). Qed.




End TikTokExtractor.

(** ** The scrape of one page *)

Section PlatformScrape.

Import PyOps Browser.
Local Open Scope Z_scope.

Lemma lookup_not_empty (s : gmap string value) (k : string) (v : value) :
  s !! k = Some v -> bool_decide (s = ∅) = false.
Proof.
  intros H. case_bool_decide as He; [|reflexivity].
  subst s. now rewrite lookup_empty in H.
Qed.

(** What the TikTok scraper does with a structured result whose view
    count is the integer [v]: it is accepted exactly when [0 < v]. *)
Lemma tiktok_accepts_on_views (page : page) (s : gmap string value) (v : Z) :
  goto page = Ret tt ->
  scroll page = Ret tt ->
  TikTok._parse_intercepted_data (captured page) = Some s ->
  s !! "views" = Some (VInt v) ->
  TikTok.scrape_body page =
    if 0 <? v then (Ret s, [Navigate; Settle; ExtractNetwork])
    else (let stats := TikTok._parse_from_html page in
          let* _ := TikTok.html_has_data stats in Ret stats,
          [Navigate; Settle; ExtractNetwork; ExtractHtml]).
Proof.
  intros Hgoto Hscroll Hdata Hviews. unfold TikTok.scrape_body.
  rewrite Hgoto, Hscroll, Hdata, (lookup_not_empty s "views" (VInt v) Hviews).
  unfold dget0. rewrite Hviews. cbn [default from_option id gt0].
  now destruct (0 <? v).
Qed.

(** What the Instagram scraper does with a structured result whose view
    and like counts are the integers [v] and [l]: it is accepted exactly
    when one of them is positive. *)
Lemma instagram_accepts_on_views_or_likes (json_loads : string -> py value)
  (page : page) (s : gmap string value) (v l : Z) :
  goto page = Ret tt ->
  scroll page = Ret tt ->
  Instagram._parse_intercepted_data (captured page) = Some s ->
  s !! "views" = Some (VInt v) ->
  s !! "likes" = Some (VInt l) ->
  Instagram.scrape_body json_loads page =
    if SpecReading.acceptable v l then (Ret s, [Navigate; Settle; ExtractNetwork])
    else (let stats := Instagram._parse_from_html json_loads page in
          let* _ := Instagram.has_data stats in Ret stats,
          [Navigate; Settle; ExtractNetwork; ExtractHtml]).
Proof.
  intros Hgoto Hscroll Hdata Hviews Hlikes. unfold Instagram.scrape_body.
  rewrite Hgoto, Hscroll, Hdata, (lookup_not_empty s "views" (VInt v) Hviews).
  unfold Instagram.has_data at 1, dget0, SpecReading.acceptable.
  rewrite Hviews, Hlikes. cbn [default from_option id gt0 bind].
  destruct (0 <? v); [reflexivity|]. cbn [orb]. now destruct (0 <? l).
Qed.

(** C1, on the failing input.  A TikTok payload with 0 views and 890
    likes gives the structured result [{views: 0, likes: 890, comments: 0,
    shares: 0}], which the acceptance rule of the specification accepts;
    the TikTok scraper rejects it and returns what the HTML fallback
    finds, while the Instagram scraper accepts the same four counts; a
    result with comments only is rejected by both. *)
Theorem tiktok_acceptance_ignores_likes :
  TikTok._parse_intercepted_data Examples.likes_only_payload
  = Some (Examples.stats_of (VInt 0) (VInt 890) (VInt 0) (VInt 0))
  /\ SpecReading.acceptable 0 890 = true
  /\ TikTok.scrape (Examples.page_with Examples.likes_only_payload) Examples.tiktok_url
     = (zero_stats, [Listen; Navigate; Settle; ExtractNetwork; ExtractHtml; Unlisten])
  /\ Instagram.scrape Examples.no_json
       (Examples.page_with (Examples.media_payload 0 890 0)) Examples.instagram_url
     = (Examples.stats_of (VInt 0) (VInt 890) (VInt 0) (VInt 0),
        [Listen; Navigate; Settle; ExtractNetwork; Unlisten])
  /\ TikTok.scrape (Examples.page_with Examples.comments_only_payload) Examples.tiktok_url
     = (zero_stats, [Listen; Navigate; Settle; ExtractNetwork; ExtractHtml; Unlisten])
  /\ Instagram.scrape Examples.no_json
       (Examples.page_with (Examples.media_payload 0 0 5)) Examples.instagram_url
     = (zero_stats, [Listen; Navigate; Settle; ExtractNetwork; ExtractHtml; Unlisten]).
Proof. repeat split; vm_compute; reflexivity. Qed.

Lemma error_stats_zeroed (e : exn) :
  zeroed (error_stats e) /\ error_stats e !! "error" = Some (VStr (exn_msg e)).
Proof.
  split; [|reflexivity].
  unfold zeroed, stat_keys. repeat constructor.
Qed.

(** C2, as the code has it.  When the navigation raises, be it for the
    30 seconds of its timeout or for another reason, the scrape of either
    platform ends there: no extraction is attempted, the listener is
    detached, and the result is the zeroed statistics with the message of
    the exception in the error field. *)
Theorem navigation_exception_ends_scrape (json_loads : string -> py value)
  (page : page) (url : string) (e : exn) :
  goto page = Raise e ->
  TikTok.scrape page url = (error_stats e, [Listen; Navigate; Unlisten])
  /\ Instagram.scrape json_loads page url = (error_stats e, [Listen; Navigate; Unlisten])
  /\ error_stats e !! "error" = Some (VStr (exn_msg e))
  /\ zeroed (error_stats e).
Proof.
  intros Hgoto. repeat split.
  - unfold TikTok.scrape, TikTok.scrape_body. now rewrite Hgoto.
  - unfold Instagram.scrape, Instagram.scrape_body. now rewrite Hgoto.
  - apply error_stats_zeroed.
Qed.

Lemma navigation_exception_ends_scrape_witness :
  goto (Examples.slow_page Examples.scenario_payload) = Raise Examples.timeout
  /\ TikTok.scrape (Examples.slow_page Examples.scenario_payload) Examples.tiktok_url
     = (error_stats Examples.timeout, [Listen; Navigate; Unlisten]).
Proof.
  split; [reflexivity|].
  apply (navigation_exception_ends_scrape Examples.no_json
           (Examples.slow_page Examples.scenario_payload) Examples.tiktok_url
           Examples.timeout).
  reflexivity.
Defined.

(** C2, as the specification states it, fails: a page whose navigation
    times out, whose scroll succeeds and whose response listener holds the
    payload of the scenario gives a record with an error field, and the
    payload is not read. *)
Lemma navigation_timeout_reports_error :
  exn_kind_of Examples.timeout = TimeoutError
  /\ scroll (Examples.slow_page Examples.scenario_payload) = Ret tt
  /\ exists (r : gmap string value) (st : Session.state),
      Scraper.scrape_url (Examples.world_of (Examples.slow_page Examples.scenario_payload))
        Examples.tiktok_url Session.initial = (Ret r, st)
      /\ r !! "error" = Some (VStr "Timeout 30000ms exceeded.")
      /\ r !! "views" = Some (VInt 0)
      /\ Session.trace st =
           [Session.Launch 0; Session.NewPage 0;
            Session.Scrape 0 Examples.tiktok_url [Listen; Navigate; Unlisten];
            Session.Close 0].
Proof.
  split; [reflexivity|]. split; [reflexivity|].
  eexists. eexists. split; [vm_compute; reflexivity|].
  repeat split; vm_compute; reflexivity.
Qed.

End PlatformScrape.

(** ** Result records *)

Section Records.

Import PyOps Browser Session.
Local Open Scope Z_scope.

Lemma stat_key_not_error (k : string) : k ∈ stat_keys -> k <> "error".
Proof.
  unfold stat_keys. rewrite !elem_of_cons, elem_of_nil.
  intros [->|[->|[->|[->|[]]]]]; discriminate.
Qed.

Lemma stat_dict_zero : stat_dict zero_stats.
Proof.
  split; [|reflexivity].
  unfold has_stat_fields, stat_keys. repeat constructor; eexists; reflexivity.
Qed.

Lemma stat_dict_insert (k : string) (v : value) (s : gmap string value) :
  k <> "error" -> stat_dict s -> stat_dict (<[k := v]> s).
Proof.
  intros Hk [Hf He]. split.
  - unfold has_stat_fields in *. eapply Forall_impl; [exact Hf|].
    intros k' Hk'. cbn beta in *. rewrite lookup_insert_is_Some.
    destruct (decide (k = k')); [now left | now right].
  - now rewrite lookup_insert_ne.
Qed.

Lemma stat_dict_four (a b c d : value) :
  stat_dict {[ "views" := a; "likes" := b; "comments" := c; "shares" := d ]}.
Proof.
  split; [|reflexivity].
  unfold has_stat_fields, stat_keys. repeat constructor; eexists; reflexivity.
Qed.

Lemma tiktok_structured_stat_dict (data : value) (s : gmap string value) :
  TikTok._parse_intercepted_data data = Some s -> stat_dict s.
Proof.
  unfold TikTok._parse_intercepted_data.
  destruct (negb (truthy data)); [discriminate|].
  destruct (TikTok.item_info_of data) as [item|]; cbn [bind]; [|discriminate].
  destruct (truthy item); [|discriminate].
  destruct (get "stats" (VDict ∅) item) as [stats|]; cbn [bind]; [|discriminate].
  repeat match goal with
         | |- context [get ?k ?d stats] =>
             destruct (get k d stats); cbn [bind]; [|discriminate]
         end.
  intros [= <-]. apply stat_dict_four.
Qed.

Lemma instagram_structured_stat_dict (data : value) (s : gmap string value) :
  Instagram._parse_intercepted_data data = Some s -> stat_dict s.
Proof.
  unfold Instagram._parse_intercepted_data.
  destruct (negb (truthy data)); [discriminate|].
  destruct (Instagram.media_of data) as [media|]; cbn [bind]; [|discriminate].
  destruct (truthy media); [|discriminate].
  repeat match goal with
         | |- context [bind ?m _] =>
             destruct m; cbn [bind]; [|discriminate]
         | |- context [if ?b then _ else _] => destruct b
         end;
    intros [= <-]; apply stat_dict_four.
Qed.

Lemma tiktok_read_stat_stat_dict (page : page) (s : gmap string value)
  (entry : string * string) :
  entry.1 <> "error" -> stat_dict s -> stat_dict (TikTok.read_stat page s entry).
Proof.
  destruct entry as [name selector]. cbn [fst]. intros Hname Hs.
  unfold TikTok.read_stat.
  destruct (query_selector page selector) as [[el|]|]; cbn [bind]; try exact Hs.
  destruct (inner_text el) as [text|]; cbn [bind]; try exact Hs.
  destruct (TikTok._parse_count text) as [n|]; cbn [bind]; try exact Hs.
  now apply stat_dict_insert.
Qed.

Lemma tiktok_html_stat_dict (page : page) : stat_dict (TikTok._parse_from_html page).
Proof.
  unfold TikTok._parse_from_html, TikTok.SELECTORS. cbn [foldl].
  repeat (apply tiktok_read_stat_stat_dict; [discriminate|]).
  apply stat_dict_zero.
Qed.

Lemma tiktok_scrape_shape (page : page) (url : string) :
  scrape_shape (TikTok.scrape page url).1.
Proof.
  unfold TikTok.scrape.
  destruct (TikTok.scrape_body page) as [[s|e] steps] eqn:Hbody; cbn [fst];
    [left | right; now exists e].
  revert Hbody. unfold TikTok.scrape_body.
  destruct (goto page); [|discriminate].
  destruct (scroll page); [|discriminate].
  destruct (TikTok._parse_intercepted_data (captured page)) as [s0|] eqn:Hdata.
  - apply tiktok_structured_stat_dict in Hdata.
    destruct (bool_decide (s0 = ∅)); [|destruct (gt0 (dget0 "views" s0)) as [[]|]];
      try discriminate;
      try (destruct (TikTok.html_has_data _); cbn [bind]; [|discriminate];
           intros [= <- _]; apply tiktok_html_stat_dict).
    now intros [= <- _].
  - destruct (TikTok.html_has_data _); cbn [bind]; [|discriminate].
    intros [= <- _]. apply tiktok_html_stat_dict.
Qed.

Lemma update_then (a b : Instagram.update) (P : gmap string value -> Prop) :
  (forall s, P s -> P (a s).1) -> (forall s, P s -> P (b s).1) ->
  forall s, P s -> P (Instagram.then_ a b s).1.
Proof.
  intros Ha Hb s Hs. unfold Instagram.then_.
  specialize (Ha s Hs). destruct (a s) as [s' [u|e]]; cbn [fst] in *;
    [now apply Hb | exact Ha].
Qed.

Lemma set_count_stat_dict (k : string) (m : option string) (s : gmap string value) :
  k <> "error" -> stat_dict s -> stat_dict (Instagram.set_count k m s).1.
Proof.
  intros Hk Hs. unfold Instagram.set_count.
  destruct m as [g|]; [|exact Hs].
  destruct (Instagram._parse_count g); [|exact Hs].
  now apply stat_dict_insert.
Qed.

Lemma meta_strategy_stat_dict (page : page) (s : gmap string value) :
  stat_dict s -> stat_dict (Instagram.meta_strategy page s).1.
Proof.
  intros Hs. unfold Instagram.meta_strategy.
  destruct (query_selector page _) as [[el|]|]; try exact Hs.
  destruct (get_attribute el "content") as [[content|]|]; try exact Hs.
  destruct (Text.is_empty content); [exact Hs|].
  apply (update_then _ _ stat_dict);
    [intros; now apply set_count_stat_dict | | exact Hs].
  intros s' Hs'. apply (update_then _ _ stat_dict);
    [| | exact Hs']; intros; now apply set_count_stat_dict.
Qed.

Lemma apply_stat_stat_dict (stat : value) (s : gmap string value) :
  stat_dict s -> stat_dict (Instagram.apply_stat stat s).1.
Proof.
  intros Hs. unfold Instagram.apply_stat.
  destruct (get "interactionType" _ stat) as [ty|]; cbn [bind fst]; [|exact Hs].
  destruct (get "userInteractionCount" _ stat) as [count|]; cbn [bind fst]; [|exact Hs].
  destruct (contains "Like" ty) as [[]|]; cbn [bind fst];
    [now apply stat_dict_insert | | exact Hs].
  destruct (contains "Comment" ty) as [[]|]; cbn [bind fst];
    [now apply stat_dict_insert | | exact Hs].
  destruct (contains "Watch" ty) as [[]|]; cbn [bind fst];
    [now apply stat_dict_insert | exact Hs | exact Hs].
Qed.

Lemma apply_stats_stat_dict (entries : list value) (s : gmap string value) :
  stat_dict s -> stat_dict (Instagram.apply_stats entries s).1.
Proof.
  revert s. induction entries as [|stat entries IH]; intros s Hs; [exact Hs|].
  cbn [Instagram.apply_stats foldr].
  apply (update_then _ _ stat_dict);
    [intros; now apply apply_stat_stat_dict | exact IH | exact Hs].
Qed.

Lemma read_script_stat_dict (json_loads : string -> py value)
  (s : gmap string value) (script : element) :
  stat_dict s -> stat_dict (Instagram.read_script json_loads s script).
Proof.
  intros Hs. unfold Instagram.read_script.
  match goal with
  | |- stat_dict (match ?m with _ => _ end) => destruct m as [entries|]
  end; [now apply apply_stats_stat_dict | exact Hs].
Qed.

Lemma instagram_html_stat_dict (json_loads : string -> py value) (page : page) :
  stat_dict (Instagram._parse_from_html json_loads page).
Proof.
  unfold Instagram._parse_from_html.
  apply (update_then _ _ stat_dict);
    [apply meta_strategy_stat_dict | | apply stat_dict_zero].
  intros s Hs. unfold Instagram.script_strategy.
  destruct (query_selector_all page _) as [scripts|]; cbn [fst]; [|exact Hs].
  revert s Hs. induction scripts as [|script scripts IH]; intros s Hs; [exact Hs|].
  cbn [foldl]. apply IH. now apply read_script_stat_dict.
Qed.

Lemma instagram_scrape_shape (json_loads : string -> py value) (page : page)
  (url : string) :
  scrape_shape (Instagram.scrape json_loads page url).1.
Proof.
  unfold Instagram.scrape.
  destruct (Instagram.scrape_body json_loads page) as [[s|e] steps] eqn:Hbody;
    cbn [fst]; [left | right; now exists e].
  revert Hbody. unfold Instagram.scrape_body.
  destruct (goto page); [|discriminate].
  destruct (scroll page); [|discriminate].
  destruct (Instagram._parse_intercepted_data (captured page)) as [s0|] eqn:Hdata.
  - apply instagram_structured_stat_dict in Hdata.
    destruct (bool_decide (s0 = ∅)); [|destruct (Instagram.has_data s0) as [[]|]];
      try discriminate;
      try (destruct (Instagram.has_data _); cbn [bind]; [|discriminate];
           intros [= <- _]; apply instagram_html_stat_dict).
    now intros [= <- _].
  - destruct (Instagram.has_data _); cbn [bind]; [|discriminate].
    intros [= <- _]. apply instagram_html_stat_dict.
Qed.

Lemma platform_scrape_shape (w : world) (p : platform) (url : string) :
  scrape_shape (Scraper.platform_scrape w p url).1.
Proof.
  destruct p; [apply tiktok_scrape_shape | apply instagram_scrape_shape].
Qed.

End Records.

(** ** The orchestration of one URL and of a batch *)

Section Orchestration.

Import PyOps Browser Session.
Local Open Scope Z_scope.

Lemma zeroed_has_stat_fields (r : gmap string value) : zeroed r -> has_stat_fields r.
Proof.
  unfold zeroed, has_stat_fields. intros Hz.
  eapply Forall_impl; [exact Hz|]. intros k ->. now eexists.
Qed.

Lemma record_of_shape (stats base : gmap string value) :
  scrape_shape stats -> base !! "error" = None -> record_ok (stats ∪ base).
Proof.
  intros [[Hf He] | [e ->]] Hbase.
  - split.
    + unfold has_stat_fields in *. eapply Forall_impl; [exact Hf|].
      intros k Hk. cbn beta in *. apply lookup_union_is_Some. now left.
    + intros [x Hx]. apply lookup_union_Some_raw in Hx.
      destruct Hx as [Hx | [_ Hx]]; congruence.
  - assert (Hz : zeroed (error_stats e ∪ base)).
    { destruct (error_stats_zeroed e) as [Hz _].
      unfold zeroed in *. eapply Forall_impl; [exact Hz|].
      intros k Hk. cbn beta in *. now apply lookup_union_Some_l. }
    split; [now apply zeroed_has_stat_fields | now intros _].
Qed.

Lemma record_ok_insert (k : string) (v : value) (r : gmap string value) :
  k ∉ stat_keys -> k <> "error" -> record_ok r -> record_ok (<[k := v]> r).
Proof.
  intros Hk He [Hf Hz]. split.
  - unfold has_stat_fields in *. eapply Forall_impl; [exact Hf|].
    intros k' Hk'. cbn beta in *. rewrite lookup_insert_is_Some.
    destruct (decide (k = k')); [now left | now right].
  - rewrite lookup_insert_ne by exact He. intros Herr. specialize (Hz Herr).
    unfold zeroed in *. rewrite Forall_forall in *. intros k' Hk'.
    rewrite lookup_insert_ne; [now apply Hz | now intros ->].
Qed.

Lemma record_ok_zeroed (r : gmap string value) : zeroed r -> record_ok r.
Proof. intros Hz. split; [now apply zeroed_has_stat_fields | now intros _]. Qed.

Lemma scraper_unsupported_zeroed (url : string) : zeroed (Scraper.unsupported url).
Proof. unfold zeroed, stat_keys. repeat constructor. Qed.

Lemma api_unsupported_zeroed (url : string) : zeroed (Api.unsupported url).
Proof. unfold zeroed, stat_keys. repeat constructor. Qed.

Lemma api_failure_zeroed (url : string) (p : platform) (e : exn) :
  zeroed (Api.failure url p e).
Proof. unfold zeroed, stat_keys. repeat constructor. Qed.

Lemma scraped_at_not_stat : "scraped_at" ∉ stat_keys.
Proof.
  unfold stat_keys. rewrite !not_elem_of_cons. repeat split; try discriminate.
  apply not_elem_of_nil.
Qed.

Lemma scrape_loop_results (w : world) (sid : nat) (urls : list string) (i : nat)
  (me : Scraper.self) (st : state) :
  Forall record_ok (Scraper.results me) ->
  Forall record_ok (Scraper.results (Scraper.scrape_loop w sid urls i me st).1.2).
Proof.
  revert i me st. induction urls as [|url urls IH]; intros i me st Hme; [exact Hme|].
  cbn [Scraper.scrape_loop].
  destruct (negb (RateLimiter.can_make_request (Scraper.rate_limiter me))); [exact Hme|].
  set (result :=
         match Scraper.detect_platform url with
         | Some p =>
             let '(stats, steps) := Scraper.platform_scrape w p url in
             (stats ∪ {[ "url" := VStr url; "platform" := VStr (platform_name p) ]},
              emit [Scrape sid url steps] st)
         | None => (Scraper.unsupported url, st)
         end).
  assert (Hres : record_ok result.1).
  { subst result. destruct (Scraper.detect_platform url) as [p|].
    - pose proof (platform_scrape_shape w p url) as Hshape.
      destruct (Scraper.platform_scrape w p url) as [stats steps]. cbn [fst] in *.
      now apply record_of_shape.
    - apply record_ok_zeroed, scraper_unsupported_zeroed. }
  destruct result as [r st1]. cbn [fst] in Hres.
  destruct (read_clock w st1) as [scraped_at st2].
  assert (Hall : Forall record_ok
                   (Scraper.results me ++ [<["scraped_at" := VStr scraped_at]> r])).
  { apply Forall_app. split; [exact Hme|]. constructor; [|constructor].
    apply record_ok_insert; [apply scraped_at_not_stat | discriminate | exact Hres]. }
  destruct (Scraper.print_result _); [|exact Hall].
  now apply IH.
Qed.

(** C4, as the code has it.  Every record that [scrape_url],
    [scrape_single_url] or a batch produces has the four fields views,
    likes, comments and shares, and they are the integer 0 whenever the
    record has an error field. *)
Theorem stat_record_fields (w : world) :
  (forall (url : string) (st st' : state) (r : gmap string value),
      Scraper.scrape_url w url st = (Ret r, st') -> record_ok r)
  /\ (forall (url : string) (st st' : state) (r : gmap string value),
         Api.scrape_single_url w url st = (Ret r, st') -> record_ok r)
  /\ (forall (urls : list string) (me : Scraper.self) (st : state),
         Forall record_ok (Scraper.results (Scraper.scrape_urls w urls me st).1.2)).
Proof.
  split; [|split].
  - intros url st st' r. unfold Scraper.scrape_url.
    destruct (Scraper.detect_platform url) as [p|].
    + destruct (open_session w st) as [[sid|e] st1]; [|discriminate].
      destruct (new_page w sid); [|discriminate].
      pose proof (platform_scrape_shape w p url) as Hshape.
      destruct (Scraper.platform_scrape w p url) as [stats steps]. cbn [fst] in *.
      destruct (read_clock w _) as [scraped_at st2].
      intros [= <- _]. now apply record_of_shape.
    + intros [= <- _]. apply record_ok_zeroed, scraper_unsupported_zeroed.
  - intros url st st' r. unfold Api.scrape_single_url.
    destruct (Api.detect_platform url) as [p|].
    + destruct (open_session w st) as [[sid|e] st1]; [|discriminate].
      destruct (new_page w sid).
      * pose proof (platform_scrape_shape w p url) as Hshape.
        destruct (Scraper.platform_scrape w p url) as [stats steps]. cbn [fst] in *.
        destruct (read_clock w _) as [scraped_at st2].
        intros [= <- _]. now apply record_of_shape.
      * intros [= <- _]. apply record_ok_zeroed, api_failure_zeroed.
    + intros [= <- _]. apply record_ok_zeroed, api_unsupported_zeroed.
  - intros urls me st. unfold Scraper.scrape_urls.
    destruct (open_session w st) as [[sid|e] st1]; [|constructor].
    destruct (new_page w sid); [|constructor].
    pose proof (scrape_loop_results w sid urls 0
                  {| Scraper.rate_limiter := Scraper.rate_limiter me;
                     Scraper.results := [] |}
                  (emit [NewPage sid] st1)) as Hloop.
    destruct (Scraper.scrape_loop w sid urls 0 _ _) as [[[u|e] me'] st'];
      cbn [fst snd] in *; apply Hloop; constructor.
Qed.

Lemma stat_record_fields_witness :
  exists (r : gmap string value) (st' : state),
    Scraper.scrape_url (Examples.world_of (Examples.page_with Examples.text_likes_payload))
      Examples.tiktok_url initial = (Ret r, st')
    /\ record_ok r.
Proof.
  eexists. eexists.
  assert (H : Scraper.scrape_url
                (Examples.world_of (Examples.page_with Examples.text_likes_payload))
                Examples.tiktok_url initial
              = (Ret (Examples.stats_of (VInt 12500) (VStr "890") (VInt 45) (VInt 12)
                      ∪ {[ "url" := VStr Examples.tiktok_url;
                           "platform" := VStr "tiktok";
                           "scraped_at" := VStr "2024-05-01T12:00:00" ]}),
                 {| sessions := 1; clock_reads := 1;
                    trace := [Launch 0; NewPage 0;
                              Scrape 0 Examples.tiktok_url
                                [Listen; Navigate; Settle; ExtractNetwork; Unlisten];
                              Close 0] |})).
  { vm_compute. reflexivity. }
  split; [exact H|].
  exact (proj1 (stat_record_fields _) _ _ _ _ H).
Defined.

(** C4, as the specification states it, fails: a TikTok payload whose
    like count is the JSON string "890" gives a record without error
    whose likes field is that string, not an integer. *)
Lemma record_with_text_count :
  exists (r : gmap string value) (st' : state),
    Scraper.scrape_url (Examples.world_of (Examples.page_with Examples.text_likes_payload))
      Examples.tiktok_url initial = (Ret r, st')
    /\ r !! "likes" = Some (VStr "890")
    /\ r !! "error" = None
    /\ counts_only r = false.
Proof.
  eexists. eexists. split; [vm_compute; reflexivity|].
  repeat split; vm_compute; reflexivity.
Qed.





End Orchestration.

(** ** The sessions of a batch *)

Section Batch.

Import PyOps Browser Session.
Local Open Scope Z_scope.

(** The loop of a batch adds nothing to the trace but scrapes in the
    session it was given, and launches nothing. *)
Lemma scrape_loop_trace (w : world) (sid : nat) (urls : list string) (i : nat)
  (me : Scraper.self) (st : state) :
  exists evs : list event,
    trace (Scraper.scrape_loop w sid urls i me st).2 = trace st ++ evs
    /\ Forall (fun ev => exists url steps, url ∈ urls /\ ev = Scrape sid url steps) evs
    /\ sessions (Scraper.scrape_loop w sid urls i me st).2 = sessions st.
Proof.
  revert i me st. induction urls as [|url urls IH]; intros i me st.
  - exists []. cbn. rewrite app_nil_r. repeat split. constructor.
  - cbn [Scraper.scrape_loop].
    destruct (negb (RateLimiter.can_make_request (Scraper.rate_limiter me))).
    { exists []. cbn. rewrite app_nil_r. repeat split. constructor. }
    set (step :=
           match Scraper.detect_platform url with
           | Some p =>
               let '(stats, steps) := Scraper.platform_scrape w p url in
               (stats ∪ {[ "url" := VStr url; "platform" := VStr (platform_name p) ]},
                emit [Scrape sid url steps] st)
           | None => (Scraper.unsupported url, st)
           end).
    assert (Hstep : exists evs,
               trace step.2 = trace st ++ evs
               /\ Forall (fun ev => exists u steps,
                              u ∈ url :: urls /\ ev = Scrape sid u steps) evs
               /\ sessions step.2 = sessions st).
    { subst step. destruct (Scraper.detect_platform url) as [p|].
      - destruct (Scraper.platform_scrape w p url) as [stats steps].
        exists [Scrape sid url steps]. cbn. repeat split.
        constructor; [|constructor]. exists url, steps. split; [left|reflexivity].
      - exists []. cbn. rewrite app_nil_r. repeat split. constructor. }
    destruct step as [r st1]. cbn [snd] in Hstep.
    destruct Hstep as (evs1 & Htr1 & Hall1 & Hses1).
    unfold read_clock.
    set (st2 := {| sessions := sessions st1; clock_reads := S (clock_reads st1);
                   trace := trace st1 |}).
    destruct (Scraper.print_result _).
    + destruct (IH (S i)
                  {| Scraper.rate_limiter :=
                       RateLimiter.wait (pace w i) (Scraper.rate_limiter me);
                     Scraper.results :=
                       Scraper.results me
                       ++ [<["scraped_at" := VStr (now_iso w (clock_reads st1))]> r] |}
                  st2) as (evs2 & Htr2 & Hall2 & Hses2).
      exists (evs1 ++ evs2). rewrite Htr2, Hses2. subst st2. cbn [trace sessions].
      rewrite Htr1, app_assoc. repeat split; [|exact Hses1].
      apply Forall_app. split; [exact Hall1|].
      eapply Forall_impl; [exact Hall2|].
      intros ev (u & steps & Hu & ->). exists u, steps. split; [now right|reflexivity].
    + exists evs1. subst st2. cbn [snd trace sessions]. repeat split; assumption.
Qed.

(** C6, as the code has it.  A batch opens one browser session before
    its first URL, scrapes every URL of the batch in the page of this one
    session, and closes the session once, after the loop, whether the loop
    came to its end, stopped at the ceiling of the rate limiter or
    raised. *)
Theorem batch_shares_one_session (w : world) (urls : list string)
  (me : Scraper.self) (st : state) :
  launch w (sessions st) = Ret tt ->
  new_page w (sessions st) = Ret tt ->
  exists evs : list event,
    trace (Scraper.scrape_urls w urls me st).2
    = trace st ++ [Launch (sessions st); NewPage (sessions st)] ++ evs
      ++ [Close (sessions st)]
    /\ Forall (fun ev => exists url steps,
                   url ∈ urls /\ ev = Scrape (sessions st) url steps) evs
    /\ sessions (Scraper.scrape_urls w urls me st).2 = S (sessions st).
Proof.
  intros Hlaunch Hpage. unfold Scraper.scrape_urls, open_session.
  rewrite Hlaunch, Hpage.
  set (me0 := {| Scraper.rate_limiter := Scraper.rate_limiter me;
                 Scraper.results := [] |}).
  set (st0 := emit [NewPage (sessions st)] _).
  destruct (scrape_loop_trace w (sessions st) urls 0 me0 st0)
    as (evs & Htr & Hall & Hses).
  exists evs.
  destruct (Scraper.scrape_loop w (sessions st) urls 0 me0 st0) as [[[u|e] me'] st'];
    cbn [snd emit trace sessions] in *; rewrite Htr, Hses; subst st0;
    cbn [emit trace sessions]; rewrite <- !app_assoc; repeat split; exact Hall.
Qed.

Lemma batch_shares_one_session_witness :
  exists evs : list event,
    trace (Scraper.scrape_urls (Examples.world_of (Examples.page_with Examples.scenario_payload))
             [Examples.tiktok_url; Examples.other_tiktok_url]
             Examples.scraper0 initial).2
    = trace initial ++ [Launch (sessions initial); NewPage (sessions initial)] ++ evs
      ++ [Close (sessions initial)]
    /\ Forall (fun ev => exists url steps,
                   url ∈ [Examples.tiktok_url; Examples.other_tiktok_url]
                   /\ ev = Scrape (sessions initial) url steps) evs
    /\ sessions (Scraper.scrape_urls
                   (Examples.world_of (Examples.page_with Examples.scenario_payload))
                   [Examples.tiktok_url; Examples.other_tiktok_url]
                   Examples.scraper0 initial).2 = S (sessions initial).
Proof.
  apply (batch_shares_one_session
           (Examples.world_of (Examples.page_with Examples.scenario_payload))
           [Examples.tiktok_url; Examples.other_tiktok_url] Examples.scraper0 initial);
    reflexivity.
Defined.

(** C6, as the specification states it, fails: the two URLs of a batch
    are scraped in the same session, the only one that is launched, and
    it is closed after the second. *)
Lemma batch_reuses_session :
  trace (Scraper.scrape_urls (Examples.world_of (Examples.page_with Examples.scenario_payload))
           [Examples.tiktok_url; Examples.other_tiktok_url]
           Examples.scraper0 initial).2
  = [Launch 0; NewPage 0;
     Scrape 0 Examples.tiktok_url [Listen; Navigate; Settle; ExtractNetwork; Unlisten];
     Scrape 0 Examples.other_tiktok_url [Listen; Navigate; Settle; ExtractNetwork; Unlisten];
     Close 0]
  /\ ~ NoDup (scrape_sessions
                (trace (Scraper.scrape_urls
                          (Examples.world_of (Examples.page_with Examples.scenario_payload))
                          [Examples.tiktok_url; Examples.other_tiktok_url]
                          Examples.scraper0 initial).2)).
Proof.
  assert (H : trace (Scraper.scrape_urls
                       (Examples.world_of (Examples.page_with Examples.scenario_payload))
                       [Examples.tiktok_url; Examples.other_tiktok_url]
                       Examples.scraper0 initial).2
              = [Launch 0; NewPage 0;
                 Scrape 0 Examples.tiktok_url
                   [Listen; Navigate; Settle; ExtractNetwork; Unlisten];
                 Scrape 0 Examples.other_tiktok_url
                   [Listen; Navigate; Settle; ExtractNetwork; Unlisten];
                 Close 0]).
  { vm_compute. reflexivity. }
  split; [exact H|]. rewrite H. cbn.
  intros Hnd. apply NoDup_cons in Hnd as [Hin _]. apply Hin. left.
Qed.

End Batch.

(** ** The HTML fallback of Instagram *)

Section InstagramHtml.

Import PyOps Browser.
Local Open Scope Z_scope.

(** C7, as the code has it.  In the Instagram HTML fallback the
    script-block strategy runs on the dictionary that the meta-description
    strategy leaves, and an entry of [interactionStatistic] whose type
    contains Like, else Comment, else Watch sets likes, comments or views
    to its [userInteractionCount] whatever the field holds; an entry of
    another type leaves the dictionary as it is. *)
Theorem script_strategy_overwrites :
  (forall (stats entry : gmap string value) (ty : string),
      default (VStr EmptyString) (entry !! "interactionType") = VStr ty ->
      Instagram.apply_stat (VDict entry) stats =
        (let count := default (VInt 0) (entry !! "userInteractionCount") in
         if Text.contains ty "Like" then <["likes" := count]> stats
         else if Text.contains ty "Comment" then <["comments" := count]> stats
         else if Text.contains ty "Watch" then <["views" := count]> stats
         else stats,
         Ret tt))
  /\ (forall (json_loads : string -> py value) (script : element)
             (stats data : gmap string value) (text : string) (entries : list value),
         inner_text script = Ret text ->
         json_loads text = Ret (VDict data) ->
         data !! "interactionStatistic" = Some (VList entries) ->
         Instagram.read_script json_loads stats script
         = (Instagram.apply_stats entries stats).1)
  /\ (forall (json_loads : string -> py value) (page : page)
             (stats : gmap string value) (scripts : list element),
         Instagram.meta_strategy page zero_stats = (stats, Ret tt) ->
         query_selector_all page (attr_is "script[type=" "application/ld+json")
         = Ret scripts ->
         Instagram._parse_from_html json_loads page
         = foldl (Instagram.read_script json_loads) stats scripts).
Proof.
  split; [|split].
  - intros stats entry ty Hty. unfold Instagram.apply_stat.
    cbn [get bind]. rewrite Hty. cbn [contains bind].
    destruct (Text.contains ty "Like"); [reflexivity|].
    destruct (Text.contains ty "Comment"); [reflexivity|].
    destruct (Text.contains ty "Watch"); reflexivity.
  - intros json_loads script stats data text entries Htext Hjson Hstat.
    unfold Instagram.read_script. rewrite Htext. cbn [bind]. rewrite Hjson.
    cbn [bind contains]. rewrite Hstat.
    rewrite bool_decide_eq_true_2 by (now eexists).
    cbn [get bind]. rewrite Hstat. reflexivity.
  - intros json_loads page stats scripts Hmeta Hscripts.
    unfold Instagram._parse_from_html, Instagram.then_. rewrite Hmeta.
    unfold Instagram.script_strategy. now rewrite Hscripts.
Qed.

Lemma script_strategy_overwrites_witness :
  default (VStr EmptyString) (Examples.like_entry !! "interactionType")
  = VStr "http://schema.org/LikeAction"
  /\ Instagram.apply_stat (VDict Examples.like_entry)
       (Examples.stats_of (VInt 0) (VInt 100) (VInt 7) (VInt 0)) =
       (let count := default (VInt 0) (Examples.like_entry !! "userInteractionCount") in
        if Text.contains "http://schema.org/LikeAction" "Like"
        then <["likes" := count]> (Examples.stats_of (VInt 0) (VInt 100) (VInt 7) (VInt 0))
        else if Text.contains "http://schema.org/LikeAction" "Comment"
        then <["comments" := count]> (Examples.stats_of (VInt 0) (VInt 100) (VInt 7) (VInt 0))
        else if Text.contains "http://schema.org/LikeAction" "Watch"
        then <["views" := count]> (Examples.stats_of (VInt 0) (VInt 100) (VInt 7) (VInt 0))
        else Examples.stats_of (VInt 0) (VInt 100) (VInt 7) (VInt 0),
        Ret tt).
Proof.
  split; [reflexivity|].
  apply (proj1 script_strategy_overwrites
           (Examples.stats_of (VInt 0) (VInt 100) (VInt 7) (VInt 0))
           Examples.like_entry "http://schema.org/LikeAction").
  reflexivity.
Defined.

(** C7, as the specification states it, fails: the meta description
    sets likes to 100, and the script block replaces this value by 5. *)
Lemma script_block_replaces_meta_count :
  Instagram.meta_strategy Examples.instagram_page zero_stats
  = (Examples.stats_of (VInt 0) (VInt 100) (VInt 7) (VInt 0), Ret tt)
  /\ Instagram._parse_from_html Examples.ld_json Examples.instagram_page
     = Examples.stats_of (VInt 0) (VInt 5) (VInt 7) (VInt 0).
Proof. split; vm_compute; reflexivity. Qed.

End InstagramHtml.

(** * Further properties of the code *)

(** ** The rate limiter, continued *)

Section RateLimiterBudget.

Import RateLimiter.
Local Open Scope Z_scope.

(** X1.  After any number of calls of [wait], the remaining requests
    are the ceiling minus the count, cut at 0: the count goes on past the
    ceiling and the remainder stays at 0; and no request remains exactly
    when [can_make_request] answers false. *)
Theorem remaining_requests_budget (s : t) (ps : list pacing) :
  get_remaining_requests (waits ps s)
  = Z.max 0 (max_requests s - request_count s - Z.of_nat (length ps))
  /\ 0 <= get_remaining_requests (waits ps s)
  /\ (get_remaining_requests (waits ps s) = 0
      <-> can_make_request (waits ps s) = false).
Proof.
  unfold get_remaining_requests, can_make_request.
  rewrite waits_request_count, waits_max_requests, Z.ltb_ge.
  repeat split; lia.
Qed.

End RateLimiterBudget.

(** ** The count parser, continued *)

Section CountParserMore.

Import Text Float64.
Local Open Scope Z_scope.

Lemma to_int_raises (f : spec_float) (e : exn) :
  to_int f = Raise e ->
  (is_infinite f = true /\ exn_kind_of e = OverflowError)
  \/ (is_infinite f = false /\ is_value_error e = true).
Proof.
  destruct f; cbn [to_int is_infinite]; intros [= <-]; [left|right]; now split.
Qed.

Lemma to_int_infinite (f : spec_float) :
  is_infinite f = true ->
  exists e, to_int f = Raise e /\ exn_kind_of e = OverflowError.
Proof.
  destruct f; cbn [is_infinite]; try discriminate. intros _.
  eexists. split; reflexivity.
Qed.

(** X2.  The count parser raises exactly when the scaled value is an
    infinity, and what it raises then is [OverflowError]: no other
    exception leaves it. *)
Theorem parse_count_raises_on_infinity (text : string) :
  (forall e : exn,
      TikTok._parse_count text = Raise e -> exn_kind_of e = OverflowError)
  /\ ((exists e : exn, TikTok._parse_count text = Raise e)
      <-> TikTok.overflows text = true).
Proof.
  rewrite parse_count_scaled. unfold TikTok.overflows.
  destruct (is_empty text) eqn:Hempty.
  - destruct text; [|discriminate]. split; [discriminate|].
    split; [intros [e He]; discriminate | discriminate].
  - destruct (TikTok.scaled_value text) as [f|e0] eqn:Hf; cbn [bind].
    + destruct (to_int f) as [n|e1] eqn:Hn; cbn [try_except_value_error].
      * split; [discriminate|]. split; [intros [e He]; discriminate|].
        intros Hinf. apply to_int_infinite in Hinf as (e & He & _). congruence.
      * destruct (to_int_raises f e1 Hn) as [[Hinf Hk]|[Hinf Hv]].
        -- assert (Hnv : is_value_error e1 = false)
             by (unfold is_value_error; now rewrite Hk).
           rewrite Hnv. split; [now intros e [= <-]|].
           split; [now intros _ | intros _; now exists e1].
        -- rewrite Hv, Hinf. split; [discriminate|].
           split; [intros [e He]; discriminate | discriminate].
    + cbn [try_except_value_error]. rewrite (scaled_value_raises text e0 Hf).
      split; [discriminate|]. split; [intros [e He]; discriminate | discriminate].
Qed.

Lemma parse_count_raises_on_infinity_witness :
  TikTok.overflows "1e400" = true
  /\ exists e : exn, TikTok._parse_count "1e400" = Raise e.
Proof.
  split; [reflexivity|].
  apply (proj2 (proj2 (parse_count_raises_on_infinity "1e400"))). reflexivity.
Defined.

Lemma isspace_upper_char (c : ascii) : isspace (upper_char c) = isspace c.
Proof. destruct c as [[] [] [] [] [] [] [] []]; reflexivity. Qed.

Lemma upper_lstrip (s : string) : upper (lstrip s) = lstrip (upper s).
Proof.
  induction s as [|c s IH]; [reflexivity|].
  cbn [lstrip upper]. rewrite isspace_upper_char.
  destruct (isspace c); [exact IH | reflexivity].
Qed.

Lemma upper_rstrip (s : string) : upper (rstrip s) = rstrip (upper s).
Proof.
  induction s as [|c s IH]; [reflexivity|].
  cbn [rstrip upper]. rewrite <- IH, isspace_upper_char.
  destruct (rstrip s); cbn [upper]; [destruct (isspace c)|]; reflexivity.
Qed.

Lemma upper_strip (s : string) : upper (strip s) = strip (upper s).
Proof. unfold strip. now rewrite upper_rstrip, upper_lstrip. Qed.

Lemma is_empty_upper (s : string) : is_empty (upper s) = is_empty s.
Proof. now destruct s. Qed.

(** X3.  The count parser does not see the letter case: two texts that
    are equal once in upper case are parsed alike, so [1.5m] is [1.5M]. *)
Theorem parse_count_ignores_case (s t : string) :
  upper s = upper t -> TikTok._parse_count s = TikTok._parse_count t.
Proof.
  intros H.
  assert (He : is_empty s = is_empty t)
    by now rewrite <- (is_empty_upper s), <- (is_empty_upper t), H.
  assert (Hs : upper (strip s) = upper (strip t))
    by now rewrite !upper_strip, H.
  unfold TikTok._parse_count. now rewrite He, Hs.
Qed.

Lemma parse_count_ignores_case_witness :
  upper "1.5m" = upper "1.5M"
  /\ TikTok._parse_count "1.5m" = TikTok._parse_count "1.5M".
Proof.
  split; [reflexivity|]. apply parse_count_ignores_case. reflexivity.
Defined.

Lemma lstrip_fixed (c : ascii) (r : string) :
  isspace c = false -> lstrip (String c r) = String c r.
Proof. intros H. cbn [lstrip]. now rewrite H. Qed.

Lemma lstrip_head (s : string) :
  lstrip s = EmptyString
  \/ exists c r, lstrip s = String c r /\ isspace c = false.
Proof.
  induction s as [|c s IH]; [now left|].
  cbn [lstrip]. destruct (isspace c) eqn:Hc; [exact IH|].
  right. now exists c, s.
Qed.

Lemma rstrip_head (c : ascii) (r : string) :
  isspace c = false -> exists r', rstrip (String c r) = String c r'.
Proof.
  intros H. cbn [rstrip]. destruct (rstrip r) as [|c' r'].
  - rewrite H. now eexists.
  - now eexists.
Qed.

Lemma rstrip_idempotent (s : string) : rstrip (rstrip s) = rstrip s.
Proof.
  induction s as [|c s IH]; [reflexivity|].
  cbn [rstrip]. destruct (rstrip s) as [|c' r'] eqn:Hr.
  - destruct (isspace c) eqn:Hc; [reflexivity|]. cbn [rstrip]. now rewrite Hc.
  - change (rstrip (String c (String c' r')) = String c (String c' r')).
    cbn [rstrip]. cbn [rstrip] in IH. rewrite IH. reflexivity.
Qed.

Lemma strip_idempotent (s : string) : strip (strip s) = strip s.
Proof.
  unfold strip. destruct (lstrip_head s) as [-> | (c & r & -> & Hc)]; [reflexivity|].
  destruct (rstrip_head c r Hc) as [r' Hr]. rewrite Hr.
  rewrite (lstrip_fixed c r' Hc), <- Hr. apply rstrip_idempotent.
Qed.

(** X4.  The count parser does not see the white space around the
    text, and a text of white space alone is parsed to 0. *)
Theorem parse_count_ignores_outer_space (s : string) :
  TikTok._parse_count (strip s) = TikTok._parse_count s
  /\ (strip s = EmptyString -> TikTok._parse_count s = Ret 0).
Proof.
  assert (Hblank : strip s = EmptyString -> TikTok._parse_count s = Ret 0).
  { intros H. unfold TikTok._parse_count. rewrite H.
    destruct (is_empty s); reflexivity. }
  split; [|exact Hblank].
  destruct (strip s) as [|c r] eqn:Hs; [now rewrite Hblank|].
  rewrite <- Hs. unfold TikTok._parse_count. rewrite strip_idempotent, Hs.
  destruct s; [discriminate Hs | reflexivity].
Qed.

Lemma parse_count_ignores_outer_space_witness :
  strip "   " = EmptyString /\ TikTok._parse_count "   " = Ret 0.
Proof.
  split; [reflexivity|].
  apply (proj2 (parse_count_ignores_outer_space "   ")). reflexivity.
Defined.

End CountParserMore.

(** ** What the scrape of a page keeps *)

Section TikTokInvariant.

Import PyOps Browser.
Local Open Scope Z_scope.

Variable P : gmap string value -> Prop.
Hypothesis P_four : forall a b c d : value,
    P {[ "views" := a; "likes" := b; "comments" := c; "shares" := d ]}.
Hypothesis P_insert : forall (k : string) (v : value) (s : gmap string value),
    k ∈ stat_keys -> P s -> P (<[k := v]> s).
Hypothesis P_error : forall e : exn, P (error_stats e).

Lemma tiktok_structured_keeps (data : value) (s : gmap string value) :
  TikTok._parse_intercepted_data data = Some s -> P s.
Proof.
  unfold TikTok._parse_intercepted_data.
  destruct (negb (truthy data)); [discriminate|].
  destruct (TikTok.item_info_of data) as [item|]; cbn [bind]; [|discriminate].
  destruct (truthy item); [|discriminate].
  destruct (get "stats" (VDict ∅) item) as [stats|]; cbn [bind]; [|discriminate].
  repeat match goal with
         | |- context [get ?k ?d stats] =>
             destruct (get k d stats); cbn [bind]; [|discriminate]
         end.
  intros [= <-]. apply P_four.
Qed.

Lemma tiktok_read_stat_keeps (page : page) (s : gmap string value)
  (entry : string * string) :
  entry.1 ∈ stat_keys -> P s -> P (TikTok.read_stat page s entry).
Proof.
  destruct entry as [name selector]. cbn [fst]. intros Hname Hs.
  unfold TikTok.read_stat.
  destruct (query_selector page selector) as [[el|]|]; cbn [bind]; try exact Hs.
  destruct (inner_text el) as [text|]; cbn [bind]; try exact Hs.
  destruct (TikTok._parse_count text) as [n|]; cbn [bind]; try exact Hs.
  now apply P_insert.
Qed.

Lemma tiktok_html_keeps (page : page) : P (TikTok._parse_from_html page).
Proof.
  unfold TikTok._parse_from_html, TikTok.SELECTORS. cbn [foldl].
  repeat (apply tiktok_read_stat_keeps;
          [cbn [fst]; unfold stat_keys; set_solver|]).
  apply P_four.
Qed.

Lemma tiktok_scrape_keeps (page : page) (url : string) :
  P (TikTok.scrape page url).1.
Proof.
  unfold TikTok.scrape.
  destruct (TikTok.scrape_body page) as [[s|e] steps] eqn:Hbody; cbn [fst];
    [|apply P_error].
  revert Hbody. unfold TikTok.scrape_body.
  destruct (goto page); [|discriminate].
  destruct (scroll page); [|discriminate].
  destruct (TikTok._parse_intercepted_data (captured page)) as [s0|] eqn:Hdata.
  - apply tiktok_structured_keeps in Hdata.
    destruct (bool_decide (s0 = ∅)); [|destruct (gt0 (dget0 "views" s0)) as [[]|]];
      try discriminate;
      try (destruct (TikTok.html_has_data _); cbn [bind]; [|discriminate];
           intros [= <- _]; apply tiktok_html_keeps).
    now intros [= <- _].
  - destruct (TikTok.html_has_data _); cbn [bind]; [|discriminate].
    intros [= <- _]. apply tiktok_html_keeps.
Qed.

End TikTokInvariant.

Section InstagramInvariant.

Import PyOps Browser.
Local Open Scope Z_scope.

Variable P : gmap string value -> Prop.
Hypothesis P_four : forall a b c : value,
    P {[ "views" := a; "likes" := b; "comments" := c; "shares" := VInt 0 ]}.
Hypothesis P_insert : forall (k : string) (v : value) (s : gmap string value),
    k ∈ ["likes"; "comments"; "views"] -> P s -> P (<[k := v]> s).
Hypothesis P_error : forall e : exn, P (error_stats e).

Lemma instagram_structured_keeps (data : value) (s : gmap string value) :
  Instagram._parse_intercepted_data data = Some s -> P s.
Proof.
  unfold Instagram._parse_intercepted_data.
  destruct (negb (truthy data)); [discriminate|].
  destruct (Instagram.media_of data) as [media|]; cbn [bind]; [|discriminate].
  destruct (truthy media); [|discriminate].
  repeat match goal with
         | |- context [bind ?m _] =>
             destruct m; cbn [bind]; [|discriminate]
         | |- context [if ?b then _ else _] => destruct b
         end;
    intros [= <-]; apply P_four.
Qed.

Lemma set_count_keeps (k : string) (m : option string) (s : gmap string value) :
  k ∈ ["likes"; "comments"; "views"] -> P s -> P (Instagram.set_count k m s).1.
Proof.
  intros Hk Hs. unfold Instagram.set_count.
  destruct m as [g|]; [|exact Hs].
  destruct (Instagram._parse_count g); [|exact Hs].
  now apply P_insert.
Qed.

Lemma meta_strategy_keeps (page : page) (s : gmap string value) :
  P s -> P (Instagram.meta_strategy page s).1.
Proof.
  intros Hs. unfold Instagram.meta_strategy.
  destruct (query_selector page _) as [[el|]|]; try exact Hs.
  destruct (get_attribute el "content") as [[content|]|]; try exact Hs.
  destruct (Text.is_empty content); [exact Hs|].
  apply (update_then _ _ P);
    [intros; apply set_count_keeps; [set_solver | assumption] | | exact Hs].
  intros s' Hs'. apply (update_then _ _ P);
    [| | exact Hs']; intros; (apply set_count_keeps; [set_solver | assumption]).
Qed.

Lemma apply_stat_keeps (stat : value) (s : gmap string value) :
  P s -> P (Instagram.apply_stat stat s).1.
Proof.
  intros Hs. unfold Instagram.apply_stat.
  destruct (get "interactionType" _ stat) as [ty|]; cbn [bind fst]; [|exact Hs].
  destruct (get "userInteractionCount" _ stat) as [count|]; cbn [bind fst]; [|exact Hs].
  destruct (contains "Like" ty) as [[]|]; cbn [bind fst];
    [apply P_insert; [set_solver | exact Hs] | | exact Hs].
  destruct (contains "Comment" ty) as [[]|]; cbn [bind fst];
    [apply P_insert; [set_solver | exact Hs] | | exact Hs].
  destruct (contains "Watch" ty) as [[]|]; cbn [bind fst];
    [apply P_insert; [set_solver | exact Hs] | exact Hs | exact Hs].
Qed.

Lemma apply_stats_keeps (entries : list value) (s : gmap string value) :
  P s -> P (Instagram.apply_stats entries s).1.
Proof.
  revert s. induction entries as [|stat entries IH]; intros s Hs; [exact Hs|].
  cbn [Instagram.apply_stats foldr].
  apply (update_then _ _ P);
    [intros; now apply apply_stat_keeps | exact IH | exact Hs].
Qed.

Lemma read_script_keeps (json_loads : string -> py value)
  (s : gmap string value) (script : element) :
  P s -> P (Instagram.read_script json_loads s script).
Proof.
  intros Hs. unfold Instagram.read_script.
  match goal with
  | |- P (match ?m with _ => _ end) => destruct m as [entries|]
  end; [now apply apply_stats_keeps | exact Hs].
Qed.

Lemma instagram_html_keeps (json_loads : string -> py value) (page : page) :
  P (Instagram._parse_from_html json_loads page).
Proof.
  unfold Instagram._parse_from_html.
  apply (update_then _ _ P); [apply meta_strategy_keeps | | apply P_four].
  intros s Hs. unfold Instagram.script_strategy.
  destruct (query_selector_all page _) as [scripts|]; cbn [fst]; [|exact Hs].
  revert s Hs. induction scripts as [|script scripts IH]; intros s Hs; [exact Hs|].
  cbn [foldl]. apply IH. now apply read_script_keeps.
Qed.

Lemma instagram_scrape_keeps (json_loads : string -> py value) (page : page)
  (url : string) :
  P (Instagram.scrape json_loads page url).1.
Proof.
  unfold Instagram.scrape.
  destruct (Instagram.scrape_body json_loads page) as [[s|e] steps] eqn:Hbody;
    cbn [fst]; [|apply P_error].
  revert Hbody. unfold Instagram.scrape_body.
  destruct (goto page); [|discriminate].
  destruct (scroll page); [|discriminate].
  destruct (Instagram._parse_intercepted_data (captured page)) as [s0|] eqn:Hdata.
  - apply instagram_structured_keeps in Hdata.
    destruct (bool_decide (s0 = ∅)); [|destruct (Instagram.has_data s0) as [[]|]];
      try discriminate;
      try (destruct (Instagram.has_data _); cbn [bind]; [|discriminate];
           intros [= <- _]; apply instagram_html_keeps).
    now intros [= <- _].
  - destruct (Instagram.has_data _); cbn [bind]; [|discriminate].
    intros [= <- _]. apply instagram_html_keeps.
Qed.

End InstagramInvariant.

(** ** The statistics that a scrape returns *)

Section ScrapeResults.

Import PyOps Browser Session.
Local Open Scope Z_scope.

(** X5.  Whatever the page and the payload, and on every path, the
    failing ones included, the statistics that the Instagram scraper
    returns have the share count 0. *)
Theorem instagram_shares_always_zero (json_loads : string -> py value)
  (page : page) (url : string) :
  (Instagram.scrape json_loads page url).1 !! "shares" = Some (VInt 0).
Proof.
  apply (instagram_scrape_keeps (fun s => s !! "shares" = Some (VInt 0))).
  - reflexivity.
  - intros k v s Hk Hs. rewrite lookup_insert_ne; [exact Hs|].
    intros ->. rewrite !elem_of_cons, elem_of_nil in Hk.
    destruct Hk as [H|[H|[H|[]]]]; discriminate.
  - reflexivity.
Qed.

Lemma four_no_other_key (k : string) (a b c d : value) :
  k ∉ stat_keys ->
  ({[ "views" := a; "likes" := b; "comments" := c; "shares" := d ]}
   : gmap string value) !! k = None.
Proof.
  unfold stat_keys. rewrite !not_elem_of_cons. intros (Hv & Hl & Hc & Hs & _).
  rewrite !lookup_insert_ne by congruence.
  apply lookup_singleton_ne. congruence.
Qed.

Lemma platform_scrape_no_other_key (w : world) (p : platform) (url k : string) :
  k ∉ stat_keys -> k <> "error" -> (Scraper.platform_scrape w p url).1 !! k = None.
Proof.
  intros Hk He.
  assert (Hins : forall (k' : string) (v : value) (s : gmap string value),
             k' ∈ stat_keys -> s !! k = None -> <[k' := v]> s !! k = None).
  { intros k' v s Hk' Hs. rewrite lookup_insert_ne; [exact Hs|]. now intros ->. }
  assert (Herr : forall e : exn, error_stats e !! k = None).
  { intros e. unfold error_stats. rewrite lookup_insert_ne by congruence.
    now apply four_no_other_key. }
  destruct p; cbn [Scraper.platform_scrape].
  - apply (tiktok_scrape_keeps (fun s => s !! k = None));
      [intros; now apply four_no_other_key | exact Hins | exact Herr].
  - apply (instagram_scrape_keeps (fun s => s !! k = None));
      [intros; now apply four_no_other_key | | exact Herr].
    intros k' v s Hk' Hs. apply Hins; [|exact Hs].
    unfold stat_keys. rewrite !elem_of_cons, elem_of_nil in *. tauto.
Qed.

Lemma not_stat_key (k : string) :
  k <> "views" -> k <> "likes" -> k <> "comments" -> k <> "shares" -> k ∉ stat_keys.
Proof.
  unfold stat_keys. rewrite !not_elem_of_cons. intros. repeat split; try congruence.
  apply not_elem_of_nil.
Qed.

(** X6.  A record of [scrape_url] or [scrape_single_url] names the URL
    that was asked for and the platform that was detected for it: the
    statistics of a scraper have no field that could replace them.  A
    record of [scrape_url] has a timestamp exactly when a platform was
    detected. *)
Theorem record_names_its_request (w : world) (url : string) (st st' : state)
  (r : gmap string value) :
  let name := match Scraper.detect_platform url with
              | Some p => platform_name p
              | None => "unknown"
              end in
  (Scraper.scrape_url w url st = (Ret r, st') ->
   r !! "url" = Some (VStr url)
   /\ r !! "platform" = Some (VStr name)
   /\ (is_Some (r !! "scraped_at") <-> is_Some (Scraper.detect_platform url)))
  /\ (Api.scrape_single_url w url st = (Ret r, st') ->
      r !! "url" = Some (VStr url) /\ r !! "platform" = Some (VStr name)).
Proof.
  intros name. subst name.
  assert (Hurl : forall p, (Scraper.platform_scrape w p url).1 !! "url" = None)
    by (intros p; apply platform_scrape_no_other_key;
        [apply not_stat_key|]; discriminate).
  assert (Hplat : forall p, (Scraper.platform_scrape w p url).1 !! "platform" = None)
    by (intros p; apply platform_scrape_no_other_key;
        [apply not_stat_key|]; discriminate).
  assert (Hat : forall p, (Scraper.platform_scrape w p url).1 !! "scraped_at" = None)
    by (intros p; apply platform_scrape_no_other_key;
        [apply not_stat_key|]; discriminate).
  split.
  - unfold Scraper.scrape_url.
    destruct (Scraper.detect_platform url) as [p|].
    + destruct (open_session w st) as [[sid|e] st1]; [|discriminate].
      destruct (new_page w sid); [|discriminate].
      specialize (Hurl p). specialize (Hplat p). specialize (Hat p).
      destruct (Scraper.platform_scrape w p url) as [stats steps]. cbn [fst] in *.
      destruct (read_clock w _) as [scraped_at st2].
      intros [= <- _].
      rewrite !lookup_union_r by assumption.
      repeat split; try reflexivity; intros _; now eexists.
    + intros [= <- _]. repeat split; try reflexivity.
      * intros [x Hx]. discriminate Hx.
      * intros [x Hx]. discriminate Hx.
  - unfold Api.scrape_single_url, Api.detect_platform, Scraper.detect_platform.
    destruct (TikTok.is_tiktok_url url) eqn:Ht;
      [|destruct (Instagram.is_instagram_url url) eqn:Hi].
    all: try (intros [= <- _]; split; reflexivity).
    all: destruct (open_session w st) as [[sid|e] st1]; [|discriminate].
    all: destruct (new_page w sid); [|intros [= <- _]; split; reflexivity].
    + specialize (Hurl tiktok). specialize (Hplat tiktok).
      destruct (Scraper.platform_scrape w tiktok url) as [stats steps]. cbn [fst] in *.
      destruct (read_clock w _) as [scraped_at st2].
      intros [= <- _]. rewrite !lookup_union_r by assumption. split; reflexivity.
    + specialize (Hurl instagram). specialize (Hplat instagram).
      destruct (Scraper.platform_scrape w instagram url) as [stats steps].
      cbn [fst] in *.
      destruct (read_clock w _) as [scraped_at st2].
      intros [= <- _]. rewrite !lookup_union_r by assumption. split; reflexivity.
Qed.

Lemma record_names_its_request_witness :
  exists (r : gmap string value) (st' : state),
    Scraper.scrape_url (Examples.world_of (Examples.page_with Examples.scenario_payload))
      Examples.tiktok_url initial = (Ret r, st')
    /\ r !! "url" = Some (VStr Examples.tiktok_url)
    /\ r !! "platform" = Some (VStr "tiktok").
Proof.
  eexists. eexists.
  assert (H : Scraper.scrape_url
                (Examples.world_of (Examples.page_with Examples.scenario_payload))
                Examples.tiktok_url initial
              = (Ret (Examples.stats_of (VInt 12500) (VInt 890) (VInt 45) (VInt 12)
                      ∪ {[ "url" := VStr Examples.tiktok_url;
                           "platform" := VStr "tiktok";
                           "scraped_at" := VStr "2024-05-01T12:00:00" ]}),
                 {| sessions := 1; clock_reads := 1;
                    trace := [Launch 0; NewPage 0;
                              Scrape 0 Examples.tiktok_url
                                [Listen; Navigate; Settle; ExtractNetwork; Unlisten];
                              Close 0] |})).
  { vm_compute. reflexivity. }
  split; [exact H|].
  destruct (proj1 (record_names_its_request _ _ _ _ _) H) as (Hu & Hp & _).
  split; [exact Hu | exact Hp].
Defined.

End ScrapeResults.

(** ** The extraction of each platform, continued *)

Section ExtractionMore.

Import PyOps Browser TikTokHtml.
Local Open Scope Z_scope.

Lemma read_stat_sets (page : page) (s : gmap string value) (name selector : string) :
  s !! name = Some (VInt 0) ->
  TikTok.read_stat page s (name, selector)
  = <[name := VInt (stat_of page selector)]> s.
Proof.
  intros Hs. unfold TikTok.read_stat, stat_of.
  destruct (query_selector page selector) as [[el|]|]; cbn [bind];
    try (symmetry; now apply insert_id).
  destruct (inner_text el) as [text|]; cbn [bind];
    try (symmetry; now apply insert_id).
  destruct (TikTok._parse_count text) as [n|]; cbn [bind];
    [reflexivity | symmetry; now apply insert_id].
Qed.

(** X7.  The HTML fallback of TikTok reads the four statistics one by
    one: each is the parsed text of the element of its own selector, and
    0 when this element is missing, when its query or the reading of its
    text raises, or when the parser raises; the result has these four
    integers and nothing else, so that a failure on one statistic changes
    none of the others. *)
Theorem tiktok_html_closed_form (page : page) :
  TikTok._parse_from_html page
  = {[ "views" := VInt (stat_of page (selector_of "views"));
       "likes" := VInt (stat_of page (selector_of "likes"));
       "comments" := VInt (stat_of page (selector_of "comments"));
       "shares" := VInt (stat_of page (selector_of "shares")) ]}.
Proof.
  unfold TikTok._parse_from_html, TikTok.SELECTORS. cbn [foldl].
  rewrite (read_stat_sets page zero_stats "views") by reflexivity.
  rewrite (read_stat_sets page _ "likes") by reflexivity.
  rewrite (read_stat_sets page _ "comments") by reflexivity.
  rewrite (read_stat_sets page _ "shares") by reflexivity.
  reflexivity.
Qed.

Lemma tiktok_html_check_returns (page : page) :
  exists b : bool, TikTok.html_has_data (TikTok._parse_from_html page) = Ret b.
Proof.
  unfold TikTok._parse_from_html, TikTok.SELECTORS. cbn [foldl].
  rewrite (read_stat_sets page zero_stats "views") by reflexivity.
  rewrite (read_stat_sets page _ "likes") by reflexivity.
  rewrite (read_stat_sets page _ "comments") by reflexivity.
  rewrite (read_stat_sets page _ "shares") by reflexivity.
  change (TikTok.html_has_data ?m)
    with (TikTok.html_has_data
            ({[ "views" := VInt (stat_of page (selector_of "views"));
                "likes" := VInt (stat_of page (selector_of "likes"));
                "comments" := VInt (stat_of page (selector_of "comments"));
                "shares" := VInt (stat_of page (selector_of "shares")) ]}
             : gmap string value)).
  unfold TikTok.html_has_data, dget0. cbn [bind].
  set (v := stat_of page (selector_of "views")).
  set (l := stat_of page (selector_of "likes")).
  replace (({[ "views" := VInt v; "likes" := VInt l;
               "comments" := VInt (stat_of page (selector_of "comments"));
               "shares" := VInt (stat_of page (selector_of "shares")) ]}
            : gmap string value) !! "views") with (Some (VInt v)) by reflexivity.
  replace (({[ "views" := VInt v; "likes" := VInt l;
               "comments" := VInt (stat_of page (selector_of "comments"));
               "shares" := VInt (stat_of page (selector_of "shares")) ]}
            : gmap string value) !! "likes") with (Some (VInt l)) by reflexivity.
  cbn [default from_option id gt0 bind].
  destruct (0 <? v); eexists; reflexivity.
Qed.

(** X8.  With a page that loads and scrolls, and a structured result
    whose view count is the integer [v], the TikTok scraper returns this
    result as it is, and does not look at the HTML, when [0 < v]; it
    returns what the HTML fallback reads when [v <= 0], whatever the other
    counts of the structured result. *)
Theorem tiktok_scrape_by_views (page : page) (url : string)
  (s : gmap string value) (v : Z) :
  goto page = Ret tt ->
  scroll page = Ret tt ->
  TikTok._parse_intercepted_data (captured page) = Some s ->
  s !! "views" = Some (VInt v) ->
  TikTok.scrape page url =
    if 0 <? v
    then (s, [Listen; Navigate; Settle; ExtractNetwork; Unlisten])
    else (TikTok._parse_from_html page,
          [Listen; Navigate; Settle; ExtractNetwork; ExtractHtml; Unlisten]).
Proof.
  intros Hgoto Hscroll Hdata Hviews. unfold TikTok.scrape.
  rewrite (tiktok_accepts_on_views page s v Hgoto Hscroll Hdata Hviews).
  destruct (0 <? v); [reflexivity|]. cbv zeta.
  destruct (tiktok_html_check_returns page) as [b ->]. reflexivity.
Qed.

Lemma tiktok_scrape_by_views_witness :
  TikTok.scrape (Examples.page_with Examples.likes_only_payload) Examples.tiktok_url =
    if 0 <? 0
    then (Examples.stats_of (VInt 0) (VInt 890) (VInt 0) (VInt 0),
          [Listen; Navigate; Settle; ExtractNetwork; Unlisten])
    else (TikTok._parse_from_html (Examples.page_with Examples.likes_only_payload),
          [Listen; Navigate; Settle; ExtractNetwork; ExtractHtml; Unlisten]).
Proof.
  apply (tiktok_scrape_by_views (Examples.page_with Examples.likes_only_payload)
           Examples.tiktok_url
           (Examples.stats_of (VInt 0) (VInt 890) (VInt 0) (VInt 0)) 0);
    reflexivity.
Defined.

(** X9.  When the view count of the structured result is not a number
    (a string, [None], a list, an object), the comparison with 0 raises:
    the TikTok scrape ends with the zeroed statistics and the message of
    this [TypeError], and the HTML fallback is not tried. *)
Theorem tiktok_scrape_type_error (page : page) (url : string)
  (s : gmap string value) (v : value) (e : exn) :
  goto page = Ret tt ->
  scroll page = Ret tt ->
  TikTok._parse_intercepted_data (captured page) = Some s ->
  s !! "views" = Some v ->
  gt0 v = Raise e ->
  TikTok.scrape page url
  = (error_stats e, [Listen; Navigate; Settle; ExtractNetwork; Unlisten])
  /\ exn_kind_of e = TypeError.
Proof.
  intros Hgoto Hscroll Hdata Hviews Hgt. split.
  - unfold TikTok.scrape, TikTok.scrape_body.
    rewrite Hgoto, Hscroll, Hdata, (lookup_not_empty s "views" v Hviews).
    unfold dget0. rewrite Hviews. cbn [default from_option id]. now rewrite Hgt.
  - destruct v; cbn [gt0] in Hgt; try discriminate; now injection Hgt as <-.
Qed.

Lemma tiktok_scrape_type_error_witness :
  TikTok.scrape (Examples.page_with MoreExamples.text_views_payload) Examples.tiktok_url
  = (error_stats (type_error "'>' not supported between instances of 'str' and 'int'"),
     [Listen; Navigate; Settle; ExtractNetwork; Unlisten])
  /\ exn_kind_of (type_error "'>' not supported between instances of 'str' and 'int'")
     = TypeError.
Proof.
  apply (tiktok_scrape_type_error (Examples.page_with MoreExamples.text_views_payload)
           Examples.tiktok_url
           (Examples.stats_of (VStr "12500") (VInt 890) (VInt 45) (VInt 12))
           (VStr "12500")); reflexivity.
Defined.

(** X10.  With a page that loads and scrolls, and a structured result
    whose view and like counts are the integers [v] and [l], the Instagram
    scraper returns this result as it is when one of the two is positive;
    otherwise it runs the HTML fallback, and returns what the fallback
    reads unless the comparison of its counts with 0 raises, in which case
    it returns the zeroed statistics with the message of the exception. *)
Theorem instagram_scrape_by_views_or_likes (json_loads : string -> py value)
  (page : page) (url : string) (s : gmap string value) (v l : Z) :
  goto page = Ret tt ->
  scroll page = Ret tt ->
  Instagram._parse_intercepted_data (captured page) = Some s ->
  s !! "views" = Some (VInt v) ->
  s !! "likes" = Some (VInt l) ->
  Instagram.scrape json_loads page url =
    if (0 <? v) || (0 <? l)
    then (s, [Listen; Navigate; Settle; ExtractNetwork; Unlisten])
    else (match Instagram.has_data (Instagram._parse_from_html json_loads page) with
          | Ret _ => Instagram._parse_from_html json_loads page
          | Raise e => error_stats e
          end,
          [Listen; Navigate; Settle; ExtractNetwork; ExtractHtml; Unlisten]).
Proof.
  intros Hgoto Hscroll Hdata Hviews Hlikes. unfold Instagram.scrape.
  rewrite (instagram_accepts_on_views_or_likes json_loads page s v l
             Hgoto Hscroll Hdata Hviews Hlikes).
  unfold SpecReading.acceptable.
  destruct ((0 <? v) || (0 <? l)); [reflexivity|]. cbv zeta.
  now destruct (Instagram.has_data _).
Qed.

Lemma instagram_scrape_by_views_or_likes_witness :
  Instagram.scrape Examples.no_json
    (Examples.page_with (Examples.media_payload 0 890 0)) Examples.instagram_url =
    if (0 <? 0) || (0 <? 890)
    then (Examples.stats_of (VInt 0) (VInt 890) (VInt 0) (VInt 0),
          [Listen; Navigate; Settle; ExtractNetwork; Unlisten])
    else (match Instagram.has_data
                  (Instagram._parse_from_html Examples.no_json
                     (Examples.page_with (Examples.media_payload 0 890 0))) with
          | Ret _ => Instagram._parse_from_html Examples.no_json
                       (Examples.page_with (Examples.media_payload 0 890 0))
          | Raise e => error_stats e
          end,
          [Listen; Navigate; Settle; ExtractNetwork; ExtractHtml; Unlisten]).
Proof.
  apply (instagram_scrape_by_views_or_likes Examples.no_json
           (Examples.page_with (Examples.media_payload 0 890 0)) Examples.instagram_url
           (Examples.stats_of (VInt 0) (VInt 890) (VInt 0) (VInt 0)) 0 890);
    reflexivity.
Defined.

(** X11.  When no structured result is there and the view count that
    the HTML fallback of Instagram has read is not a number (a
    [userInteractionCount] given as a string), the comparison with 0
    raises after the fallback: the scrape returns the zeroed statistics
    with the message of this [TypeError], and what the fallback had read
    is lost. *)
Theorem instagram_html_type_error (json_loads : string -> py value)
  (page : page) (url : string) (v : value) (e : exn) :
  goto page = Ret tt ->
  scroll page = Ret tt ->
  Instagram._parse_intercepted_data (captured page) = None ->
  Instagram._parse_from_html json_loads page !! "views" = Some v ->
  gt0 v = Raise e ->
  Instagram.scrape json_loads page url
  = (error_stats e,
     [Listen; Navigate; Settle; ExtractNetwork; ExtractHtml; Unlisten]).
Proof.
  intros Hgoto Hscroll Hdata Hviews Hgt.
  unfold Instagram.scrape, Instagram.scrape_body.
  rewrite Hgoto, Hscroll, Hdata. unfold Instagram.has_data, dget0.
  rewrite Hviews. cbn [default from_option id]. now rewrite Hgt.
Qed.

Lemma instagram_html_type_error_witness :
  Instagram._parse_from_html MoreExamples.watch_json MoreExamples.script_page !! "views"
  = Some (VStr "1200")
  /\ Instagram.scrape MoreExamples.watch_json MoreExamples.script_page
       Examples.instagram_url
     = (error_stats (type_error "'>' not supported between instances of 'str' and 'int'"),
        [Listen; Navigate; Settle; ExtractNetwork; ExtractHtml; Unlisten]).
Proof.
  split; [reflexivity|].
  apply (instagram_html_type_error MoreExamples.watch_json MoreExamples.script_page
           Examples.instagram_url (VStr "1200")); reflexivity.
Defined.

End ExtractionMore.

(** ** The shapes of a payload *)

Section PayloadShapes.

Import PyOps Browser.
Local Open Scope Z_scope.

Lemma tiktok_item_info_of_text (s : string) :
  match TikTok.item_info_of (VStr s) with
  | Ret item => item = VNone
  | Raise _ => True
  end.
Proof.
  unfold TikTok.item_info_of. cbn [contains bind].
  repeat (match goal with
          | |- context [if ?b then _ else _] => destruct b
          end; cbn [getitem get bind]; try exact I).
  reflexivity.
Qed.

Lemma tiktok_item_info_of_list (l : list value) :
  match TikTok.item_info_of (VList l) with
  | Ret item => item = VNone
  | Raise _ => True
  end.
Proof.
  unfold TikTok.item_info_of. cbn [contains bind].
  repeat (match goal with
          | |- context [if ?b then _ else _] => destruct b
          end; cbn [getitem get bind]; try exact I).
  reflexivity.
Qed.

Lemma instagram_media_of_text (s : string) :
  match Instagram.media_of (VStr s) with
  | Ret media => media = VNone
  | Raise _ => True
  end.
Proof.
  unfold Instagram.media_of. cbn [contains bind].
  repeat (match goal with
          | |- context [if ?b then _ else _] => destruct b
          end; cbn [getitem get bind]; try exact I).
  reflexivity.
Qed.

Lemma instagram_media_of_list (l : list value) :
  match Instagram.media_of (VList l) with
  | Ret media => media = VNone
  | Raise _ => True
  end.
Proof.
  unfold Instagram.media_of. cbn [contains bind].
  repeat (match goal with
          | |- context [if ?b then _ else _] => destruct b
          end; cbn [getitem get bind]; try exact I).
  reflexivity.
Qed.

(** X12.  The structured-data extractors give statistics for a JSON
    object only: a payload that is a list, a string, a number, a boolean
    or [null] gives [None] on both platforms, also a string or a list that
    holds the name of a key. *)
Theorem structured_data_needs_an_object (data : value) (s : gmap string value) :
  TikTok._parse_intercepted_data data = Some s
  \/ Instagram._parse_intercepted_data data = Some s ->
  exists d : gmap string value, data = VDict d /\ d <> ∅.
Proof.
  intros H. destruct data as [|b|n|f|t|l|d].
  7: { exists d. split; [reflexivity|]. intros ->.
       destruct H as [H|H]; vm_compute in H; discriminate. }
  all: exfalso.
  - destruct H as [H|H]; discriminate.
  - destruct H as [H|H]; destruct b; discriminate.
  - destruct H as [H|H];
      [unfold TikTok._parse_intercepted_data in H
      |unfold Instagram._parse_intercepted_data in H];
      destruct (negb (truthy (VInt n))); discriminate.
  - destruct H as [H|H];
      [unfold TikTok._parse_intercepted_data in H
      |unfold Instagram._parse_intercepted_data in H];
      destruct (negb (truthy (VFloat f))); discriminate.
  - destruct H as [H|H].
    + unfold TikTok._parse_intercepted_data in H.
      destruct (negb (truthy (VStr t))); [discriminate|].
      pose proof (tiktok_item_info_of_text t) as Hi.
      destruct (TikTok.item_info_of (VStr t)); [subst|]; discriminate.
    + unfold Instagram._parse_intercepted_data in H.
      destruct (negb (truthy (VStr t))); [discriminate|].
      pose proof (instagram_media_of_text t) as Hi.
      destruct (Instagram.media_of (VStr t)); [subst|]; discriminate.
  - destruct H as [H|H].
    + unfold TikTok._parse_intercepted_data in H.
      destruct (negb (truthy (VList l))); [discriminate|].
      pose proof (tiktok_item_info_of_list l) as Hi.
      destruct (TikTok.item_info_of (VList l)); [subst|]; discriminate.
    + unfold Instagram._parse_intercepted_data in H.
      destruct (negb (truthy (VList l))); [discriminate|].
      pose proof (instagram_media_of_list l) as Hi.
      destruct (Instagram.media_of (VList l)); [subst|]; discriminate.
Qed.

Lemma structured_data_needs_an_object_witness :
  exists d : gmap string value, Examples.scenario_payload = VDict d /\ d <> ∅.
Proof.
  apply (structured_data_needs_an_object Examples.scenario_payload
           (Examples.stats_of (VInt 12500) (VInt 890) (VInt 45) (VInt 12))).
  left. reflexivity.
Defined.

Lemma contains_dict_some (k : string) (d : gmap string value) (v : value) :
  d !! k = Some v -> contains k (VDict d) = Ret true.
Proof. intros H. rewrite contains_dict. now rewrite H. Qed.

Lemma contains_dict_none (k : string) (d : gmap string value) :
  d !! k = None -> contains k (VDict d) = Ret false.
Proof. intros H. rewrite contains_dict. now rewrite H. Qed.

(** X13.  In an Instagram payload the shape that is tested last wins:
    a list [items] that is not empty gives its first element as the media,
    whatever [data.shortcode_media] and [data.xdt_shortcode_media] hold;
    without [items], a non-empty [data.xdt_shortcode_media] is taken
    rather than [data.shortcode_media]. *)
Theorem instagram_last_shape_wins :
  (forall (d inner : gmap string value) (first : value) (others : list value),
      d !! "data" = Some (VDict inner) ->
      d !! "items" = Some (VList (first :: others)) ->
      Instagram.media_of (VDict d) = Ret first)
  /\ (forall (d : gmap string value) (first : value) (others : list value),
         d !! "data" = None ->
         d !! "items" = Some (VList (first :: others)) ->
         Instagram.media_of (VDict d) = Ret first)
  /\ (forall (d inner : gmap string value) (graph xdt : value),
         d !! "data" = Some (VDict inner) ->
         d !! "items" = None ->
         inner !! "shortcode_media" = Some graph ->
         inner !! "xdt_shortcode_media" = Some xdt ->
         truthy xdt = true ->
         Instagram.media_of (VDict d) = Ret xdt).
Proof.
  split; [|split].
  - intros d inner first others Hdata Hitems. unfold Instagram.media_of.
    rewrite (contains_dict_some _ _ _ Hdata), (contains_dict_some _ _ _ Hitems).
    cbn [bind get]. rewrite Hdata, Hitems. reflexivity.
  - intros d first others Hdata Hitems. unfold Instagram.media_of.
    rewrite (contains_dict_none _ _ Hdata), (contains_dict_some _ _ _ Hitems).
    cbn [bind get]. rewrite Hitems. reflexivity.
  - intros d inner graph xdt Hdata Hitems Hgraph Hxdt Htruthy.
    unfold Instagram.media_of.
    rewrite (contains_dict_some _ _ _ Hdata), (contains_dict_none _ _ Hitems).
    cbn [bind get]. rewrite Hdata. cbn [default from_option id bind get].
    rewrite Hxdt. cbn [default from_option id]. now rewrite Htruthy.
Qed.

Lemma instagram_last_shape_wins_witness :
  MoreExamples.both_shapes !! "data"
  = Some (VDict {[ "shortcode_media" := VDict {[ "video_view_count" := VInt 7 ]} ]})
  /\ Instagram.media_of (VDict MoreExamples.both_shapes)
     = Ret (VDict {[ "view_count" := VInt 9 ]}).
Proof.
  split; [reflexivity|].
  apply (proj1 instagram_last_shape_wins MoreExamples.both_shapes
           {[ "shortcode_media" := VDict {[ "video_view_count" := VInt 7 ]} ]}
           (VDict {[ "view_count" := VInt 9 ]}) []); reflexivity.
Defined.

End PayloadShapes.

(** ** Sessions and batches, continued *)

Section SessionsMore.

Import PyOps Browser Session.
Local Open Scope Z_scope.



(** X15.  When the browser launches but the page cannot be opened, the
    session is closed at once and nothing is scraped; [scrape_url] and
    [scrape_urls] let the exception through, while [scrape_single_url]
    returns a record with the message of the exception and the four
    statistics at 0.  When the browser cannot be launched, the three of
    them let the exception through and nothing is closed. *)
Theorem browser_failures (w : world) (url : string) (urls : list string)
  (me : Scraper.self) (st : state) (p : platform) (e : exn) :
  Scraper.detect_platform url = Some p ->
  (launch w (sessions st) = Ret tt ->
   new_page w (sessions st) = Raise e ->
   (Scraper.scrape_url w url st).1 = Raise e
   /\ (Api.scrape_single_url w url st).1 = Ret (Api.failure url p e)
   /\ (Scraper.scrape_urls w urls me st).1.1 = Raise e
   /\ trace (Scraper.scrape_url w url st).2
      = trace st ++ [Launch (sessions st); Close (sessions st)]
   /\ trace (Api.scrape_single_url w url st).2
      = trace st ++ [Launch (sessions st); Close (sessions st)]
   /\ trace (Scraper.scrape_urls w urls me st).2
      = trace st ++ [Launch (sessions st); Close (sessions st)])
  /\ (launch w (sessions st) = Raise e ->
      (Scraper.scrape_url w url st).1 = Raise e
      /\ (Api.scrape_single_url w url st).1 = Raise e
      /\ (Scraper.scrape_urls w urls me st).1.1 = Raise e
      /\ trace (Scraper.scrape_url w url st).2 = trace st
      /\ trace (Api.scrape_single_url w url st).2 = trace st
      /\ trace (Scraper.scrape_urls w urls me st).2 = trace st).
Proof.
  intros Hp.
  assert (Hp' : Api.detect_platform url = Some p) by exact Hp.
  unfold Scraper.scrape_url, Api.scrape_single_url, Scraper.scrape_urls, open_session.
  rewrite Hp, Hp'. split.
  - intros -> ->. cbn. rewrite <- !app_assoc. repeat split.
  - intros ->. cbn. repeat split.
Qed.

Lemma browser_failures_witness :
  (Scraper.scrape_url MoreExamples.no_page_world Examples.tiktok_url initial).1
  = Raise Examples.timeout
  /\ (Api.scrape_single_url MoreExamples.no_page_world Examples.tiktok_url initial).1
     = Ret (Api.failure Examples.tiktok_url tiktok Examples.timeout).
Proof.
  destruct (proj1 (browser_failures MoreExamples.no_page_world Examples.tiktok_url []
                     Examples.scraper0 initial tiktok Examples.timeout eq_refl)
              eq_refl eq_refl)
    as (H1 & H2 & _).
  split; [exact H1 | exact H2].
Defined.

End SessionsMore.

(** ** The requests of a batch *)

Section BatchRequests.

Import PyOps Browser Session.
Local Open Scope Z_scope.

Lemma scrape_loop_accounting (w : world) (sid : nat) (urls : list string) (i : nat)
  (me : Scraper.self) (st : state) :
  exists new : list (gmap string value),
    Scraper.results (Scraper.scrape_loop w sid urls i me st).1.2
    = Scraper.results me ++ new
    /\ (length new <= length urls)%nat
    /\ Forall2 (fun r url => r !! "url" = Some (VStr url)) new (take (length new) urls)
    /\ RateLimiter.request_count
         (Scraper.rate_limiter (Scraper.scrape_loop w sid urls i me st).1.2)
       = RateLimiter.request_count (Scraper.rate_limiter me) + Z.of_nat (length new)
    /\ RateLimiter.max_requests
         (Scraper.rate_limiter (Scraper.scrape_loop w sid urls i me st).1.2)
       = RateLimiter.max_requests (Scraper.rate_limiter me)
    /\ Z.of_nat (length new)
       <= RateLimiter.get_remaining_requests (Scraper.rate_limiter me).
Proof.
  revert i me st. induction urls as [|url urls IH]; intros i me st.
  { exists []. cbn. rewrite app_nil_r. repeat split; try constructor; try lia.
    unfold RateLimiter.get_remaining_requests. lia. }
  cbn [Scraper.scrape_loop].
  destruct (RateLimiter.can_make_request (Scraper.rate_limiter me)) eqn:Hcan; cbn [negb].
  2: { exists []. cbn. rewrite app_nil_r. repeat split; try constructor; try lia.
       unfold RateLimiter.get_remaining_requests. lia. }
  apply Z.ltb_lt in Hcan.
  set (step :=
         match Scraper.detect_platform url with
         | Some p =>
             let '(stats, steps) := Scraper.platform_scrape w p url in
             (stats ∪ {[ "url" := VStr url; "platform" := VStr (platform_name p) ]},
              emit [Scrape sid url steps] st)
         | None => (Scraper.unsupported url, st)
         end).
  assert (Hurl : step.1 !! "url" = Some (VStr url)).
  { subst step. destruct (Scraper.detect_platform url) as [p|]; [|reflexivity].
    pose proof (platform_scrape_no_other_key w p url "url") as Hno.
    destruct (Scraper.platform_scrape w p url) as [stats steps]. cbn [fst] in *.
    rewrite lookup_union_r; [reflexivity|].
    apply Hno; [apply not_stat_key|]; discriminate. }
  destruct step as [r st1]. cbn [fst] in Hurl.
  unfold read_clock.
  set (result := <["scraped_at" := VStr (now_iso w (clock_reads st1))]> r).
  assert (Hres : result !! "url" = Some (VStr url)).
  { subst result. now rewrite lookup_insert_ne by discriminate. }
  set (me1 := {| Scraper.rate_limiter :=
                   RateLimiter.wait (pace w i) (Scraper.rate_limiter me);
                 Scraper.results := Scraper.results me ++ [result] |}).
  set (st2 := {| sessions := sessions st1; clock_reads := S (clock_reads st1);
                 trace := trace st1 |}).
  destruct (Scraper.print_result result).
  - destruct (IH (S i) me1 st2) as (new & Hnew & Hlen & Hurls & Hcount & Hmax & Hrem).
    exists (result :: new). rewrite Hnew, Hcount, Hmax. subst me1.
    cbn [Scraper.results Scraper.rate_limiter RateLimiter.request_count
           RateLimiter.max_requests RateLimiter.wait length take] in *.
    rewrite <- app_assoc. repeat split; try lia.
    + now constructor.
    + unfold RateLimiter.get_remaining_requests in *.
      cbn [RateLimiter.request_count RateLimiter.max_requests RateLimiter.wait] in *.
      lia.
  - exists [result]. subst me1.
    cbn [fst snd Scraper.results Scraper.rate_limiter RateLimiter.request_count
           RateLimiter.max_requests RateLimiter.wait length take].
    repeat split; try lia.
    + constructor; [exact Hres | constructor].
    + unfold RateLimiter.get_remaining_requests. lia.
Qed.

(** X16.  A batch asks the rate limiter for one request per URL that
    it processes, a URL of unknown platform included; it processes the
    URLs in their order, each result naming its URL; it never processes
    more URLs than the limiter had requests left; and it leaves the count
    of the limiter where these requests have brought it, without
    resetting it.  What the batch returns is the list of these results. *)
Theorem batch_request_accounting (w : world) (urls : list string)
  (me : Scraper.self) (st : state) :
  let me' := (Scraper.scrape_urls w urls me st).1.2 in
  let n := length (Scraper.results me') in
  RateLimiter.request_count (Scraper.rate_limiter me')
  = RateLimiter.request_count (Scraper.rate_limiter me) + Z.of_nat n
  /\ RateLimiter.max_requests (Scraper.rate_limiter me')
     = RateLimiter.max_requests (Scraper.rate_limiter me)
  /\ (n <= length urls)%nat
  /\ Z.of_nat n <= RateLimiter.get_remaining_requests (Scraper.rate_limiter me)
  /\ Forall2 (fun r url => r !! "url" = Some (VStr url))
       (Scraper.results me') (take n urls)
  /\ (forall rs : list (gmap string value),
         (Scraper.scrape_urls w urls me st).1.1 = Ret rs -> rs = Scraper.results me').
Proof.
  cbv zeta. unfold Scraper.scrape_urls.
  assert (Hnone : 0 <= RateLimiter.get_remaining_requests (Scraper.rate_limiter me))
    by (unfold RateLimiter.get_remaining_requests; lia).
  destruct (open_session w st) as [[sid|e] st1];
    [|cbn; repeat split; try lia; try constructor; discriminate].
  destruct (new_page w sid);
    [|cbn; repeat split; try lia; try constructor; discriminate].
  set (me0 := {| Scraper.rate_limiter := Scraper.rate_limiter me;
                 Scraper.results := [] |}).
  destruct (scrape_loop_accounting w sid urls 0 me0 (emit [NewPage sid] st1))
    as (new & Hnew & Hlen & Hurls & Hcount & Hmax & Hrem).
  destruct (Scraper.scrape_loop w sid urls 0 me0 (emit [NewPage sid] st1))
    as [[[u|e] me'] st']; cbn [fst snd] in *;
    subst me0; cbn [app Scraper.results Scraper.rate_limiter] in *;
    rewrite Hnew; (repeat split; try assumption; try discriminate).
  now intros rs [= <-].
Qed.

(** X17.  A batch whose limiter can make no request when it starts
    still launches a browser, opens a page and closes them; it processes
    no URL and returns the empty list. *)
Theorem exhausted_batch_still_opens_a_session (w : world) (urls : list string)
  (me : Scraper.self) (st : state) :
  RateLimiter.can_make_request (Scraper.rate_limiter me) = false ->
  launch w (sessions st) = Ret tt ->
  new_page w (sessions st) = Ret tt ->
  Scraper.scrape_urls w urls me st
  = (Ret [],
     {| Scraper.rate_limiter := Scraper.rate_limiter me; Scraper.results := [] |},
     {| sessions := S (sessions st);
        clock_reads := clock_reads st;
        trace := trace st ++ [Launch (sessions st); NewPage (sessions st);
                              Close (sessions st)] |}).
Proof.
  intros Hcan Hlaunch Hpage. unfold Scraper.scrape_urls, open_session.
  rewrite Hlaunch, Hpage.
  destruct urls as [|url urls]; cbn [Scraper.scrape_loop Scraper.rate_limiter];
    try rewrite Hcan; cbn [negb]; unfold emit; cbn [trace sessions clock_reads];
    rewrite <- !app_assoc; reflexivity.
Qed.

Lemma exhausted_batch_still_opens_a_session_witness :
  Scraper.scrape_urls (Examples.world_of (Examples.page_with Examples.scenario_payload))
    [Examples.tiktok_url] MoreExamples.spent_scraper initial
  = (Ret [],
     {| Scraper.rate_limiter := Scraper.rate_limiter MoreExamples.spent_scraper;
        Scraper.results := [] |},
     {| sessions := S (sessions initial);
        clock_reads := clock_reads initial;
        trace := trace initial ++ [Launch (sessions initial); NewPage (sessions initial);
                                   Close (sessions initial)] |}).
Proof.
  apply (exhausted_batch_still_opens_a_session
           (Examples.world_of (Examples.page_with Examples.scenario_payload))
           [Examples.tiktok_url] MoreExamples.spent_scraper initial); reflexivity.
Defined.

Lemma scrape_loop_stops_on_raise (w : world) (sid : nat) (urls more : list string)
  (i : nat) (me : Scraper.self) (st : state) (e : exn) :
  (Scraper.scrape_loop w sid urls i me st).1.1 = Raise e ->
  Scraper.scrape_loop w sid (urls ++ more) i me st
  = Scraper.scrape_loop w sid urls i me st.
Proof.
  revert i me st. induction urls as [|url urls IH]; intros i me st; [discriminate|].
  cbn [Scraper.scrape_loop app].
  destruct (negb (RateLimiter.can_make_request (Scraper.rate_limiter me)));
    [discriminate|].
  destruct (match Scraper.detect_platform url with
            | Some p =>
                let '(stats, steps) := Scraper.platform_scrape w p url in
                (stats ∪ {[ "url" := VStr url; "platform" := VStr (platform_name p) ]},
                 emit [Scrape sid url steps] st)
            | None => (Scraper.unsupported url, st)
            end) as [r st1].
  destruct (read_clock w st1) as [scraped_at st2].
  destruct (Scraper.print_result _); [apply IH | reflexivity].
Qed.

(** X18.  An exception that leaves the loop of a batch, such as the
    one of the thousands separator on a count that is not a number when
    a result is printed, ends the batch: the URLs that come after are
    never processed, and the batch with them behaves as the batch without
    them. *)
Theorem batch_stops_on_raise (w : world) (urls more : list string)
  (me : Scraper.self) (st : state) (e : exn) :
  (Scraper.scrape_urls w urls me st).1.1 = Raise e ->
  Scraper.scrape_urls w (urls ++ more) me st = Scraper.scrape_urls w urls me st.
Proof.
  unfold Scraper.scrape_urls.
  destruct (open_session w st) as [[sid|e0] st1]; [|reflexivity].
  destruct (new_page w sid); [|reflexivity].
  set (me0 := {| Scraper.rate_limiter := Scraper.rate_limiter me;
                 Scraper.results := [] |}).
  intros H.
  destruct (Scraper.scrape_loop w sid urls 0 me0 (emit [NewPage sid] st1))
    as [[[u|e1] me'] st'] eqn:Hloop; [discriminate|].
  rewrite (scrape_loop_stops_on_raise w sid urls more 0 me0 _ e1), Hloop;
    [reflexivity | now rewrite Hloop].
Qed.

Lemma batch_stops_on_raise_witness :
  (Scraper.scrape_urls (Examples.world_of (Examples.page_with Examples.text_likes_payload))
     [Examples.tiktok_url] Examples.scraper0 initial).1.1
  = Raise (Exn ValueError "Cannot specify ',' with 's'.")
  /\ Scraper.scrape_urls (Examples.world_of (Examples.page_with Examples.text_likes_payload))
       ([Examples.tiktok_url] ++ [Examples.other_tiktok_url]) Examples.scraper0 initial
     = Scraper.scrape_urls
         (Examples.world_of (Examples.page_with Examples.text_likes_payload))
         [Examples.tiktok_url] Examples.scraper0 initial.
Proof.
  assert (H : (Scraper.scrape_urls
                 (Examples.world_of (Examples.page_with Examples.text_likes_payload))
                 [Examples.tiktok_url] Examples.scraper0 initial).1.1
              = Raise (Exn ValueError "Cannot specify ',' with 's'."))
    by (vm_compute; reflexivity).
  split; [exact H|].
  exact (batch_stops_on_raise _ _ _ _ _ _ H).
Defined.

End BatchRequests.

(** ** The list of URLs of the command line *)

Section UrlList.

Import Text.

Lemma load_urls_member (lines : list string) (u : string) :
  u ∈ Cli.load_urls_from_file lines ->
  is_empty u = false /\ startswith u "#" = false
  /\ exists line, line ∈ lines /\ u = strip line.
Proof.
  induction lines as [|line lines IH]; cbn [Cli.load_urls_from_file].
  - intros H. now apply elem_of_nil in H.
  - destruct (negb (is_empty (strip line)) && negb (startswith (strip line) "#"))
      eqn:Hkeep.
    + rewrite elem_of_cons. intros [-> | Hin].
      * apply andb_true_iff in Hkeep as [He Hs].
        apply negb_true_iff in He, Hs. repeat split; try assumption.
        exists line. split; [left | reflexivity].
      * destruct (IH Hin) as (He & Hs & l & Hl & ->). repeat split; try assumption.
        exists l. split; [now right | reflexivity].
    + intros Hin. destruct (IH Hin) as (He & Hs & l & Hl & ->).
      repeat split; try assumption. exists l. split; [now right | reflexivity].
Qed.

(** X19.  Every URL that [load_urls_from_file] returns is the text of
    a line without the white space around it, is not empty and does not
    begin with [#]; and a list that was loaded is not changed by loading
    it again. *)
Theorem load_urls_clean_and_stable (lines : list string) :
  Forall (fun u => is_empty u = false /\ startswith u "#" = false
                   /\ strip u = u /\ exists line, line ∈ lines /\ u = strip line)
    (Cli.load_urls_from_file lines)
  /\ Cli.load_urls_from_file (Cli.load_urls_from_file lines)
     = Cli.load_urls_from_file lines.
Proof.
  assert (Hall : Forall (fun u => is_empty u = false /\ startswith u "#" = false
                                  /\ strip u = u
                                  /\ exists line, line ∈ lines /\ u = strip line)
                   (Cli.load_urls_from_file lines)).
  { apply Forall_forall. intros u Hu.
    destruct (load_urls_member lines u Hu) as (He & Hs & line & Hl & ->).
    repeat split; try assumption; [apply strip_idempotent | now exists line]. }
  split; [exact Hall|].
  induction Hall as [|u us (He & Hs & Hstrip & _) _ IH]; [reflexivity|].
  cbn [Cli.load_urls_from_file]. rewrite Hstrip, He, Hs. cbn [negb andb].
  now rewrite IH.
Qed.

(** X20.  [load_urls_from_file] keeps the order of the lines and drops
    only the lines that are blank or comments: the list of a file that
    has more lines begins with the list of the file without them. *)
Theorem load_urls_appends (lines more : list string) :
  Cli.load_urls_from_file (lines ++ more)
  = Cli.load_urls_from_file lines ++ Cli.load_urls_from_file more.
Proof.
  induction lines as [|line lines IH]; [reflexivity|].
  cbn [Cli.load_urls_from_file app].
  destruct (negb (is_empty (strip line)) && negb (startswith (strip line) "#"));
    cbn [app]; now rewrite IH.
Qed.

End UrlList.

(** ** The response listeners *)

Section Listeners.

Import PyOps Listener.

Lemma tiktok_intercept_retained (d : value) (r : response) :
  tiktok_intercept_response d r = default d (tiktok_retained r).
Proof.
  unfold tiktok_intercept_response, tiktok_retained.
  destruct (existsb _ TIKTOK_API_PATTERNS); [|reflexivity].
  destruct (Text.contains (content_type r) "application/json"); [|reflexivity].
  now destruct (json r).
Qed.

(** X21.  The listener of TikTok holds, when the extraction reads it,
    the body of the last response that had the address of a data endpoint,
    a JSON content type and a body that parses; the other responses, and
    those whose body does not parse, leave it as it was; it holds [None]
    when there was no such response. *)
Theorem tiktok_listener_keeps_last (held : value) (responses : list response) :
  foldl tiktok_intercept_response held responses
  = default held (last (omap tiktok_retained responses))
  /\ tiktok_captured responses = default VNone (last (omap tiktok_retained responses)).
Proof.
  assert (H : forall d, foldl tiktok_intercept_response d responses
                        = default d (last (omap tiktok_retained responses))).
  { induction responses as [|r rs IH]; intros d; [reflexivity|].
    cbn [foldl]. rewrite IH, tiktok_intercept_retained.
    change (omap tiktok_retained (r :: rs))
      with (match tiktok_retained r with
            | Some x => x :: omap tiktok_retained rs
            | None => omap tiktok_retained rs
            end).
    destruct (tiktok_retained r) as [x|]; cbn [default from_option id]; [|reflexivity].
    rewrite last_cons. now destruct (last (omap tiktok_retained rs)). }
  split; [apply H | apply H].
Qed.

(** X22.  Whatever [str] gives for a dictionary, the listener of
    Instagram holds [None] or a JSON object: a body that is a list, a
    string or a number is never kept, and neither is what a body that does
    not parse would have been. *)
Theorem instagram_listener_keeps_objects (py_str : gmap string value -> string)
  (responses : list response) :
  instagram_captured py_str responses = VNone
  \/ exists d : gmap string value, instagram_captured py_str responses = VDict d.
Proof.
  unfold instagram_captured.
  assert (H : forall d0, (d0 = VNone \/ exists d, d0 = VDict d) ->
                         foldl (instagram_intercept_response py_str) d0 responses = VNone
                         \/ exists d, foldl (instagram_intercept_response py_str) d0
                                        responses = VDict d).
  { induction responses as [|r rs IH]; intros d0 Hd0; [exact Hd0|].
    cbn [foldl]. apply IH. unfold instagram_intercept_response.
    destruct (existsb _ INSTAGRAM_API_PATTERNS); [|exact Hd0].
    destruct (_ || _); [|exact Hd0].
    destruct (json r) as [data|]; [|exact Hd0].
    destruct (_contains_media_data py_str data) eqn:Hc; [|exact Hd0].
    destruct data; try discriminate Hc. right. now eexists. }
  apply H. now left.
Qed.

End Listeners.

(** ** The counts of the meta description *)

Section MetaCounts.

Import Text PyOps Browser Regex.
Local Open Scope Z_scope.

Lemma minus_free_snoc (s : string) (c : ascii) :
  minus_free s = true -> char_eqb c "-" = false ->
  minus_free (s +:+ String c EmptyString) = true.
Proof.
  intros Hs Hc. induction s as [|a s IH]; cbn [String.append].
  - apply minus_free_cons. now split.
  - apply minus_free_cons in Hs as [Ha Hs]. apply minus_free_cons. split; auto.
Qed.

(** The text that a match gives for the group 1 has no minus sign when
    the class of the group has none. *)
Lemma match_here_minus_free (icase : bool) (p : list atom) :
  Forall (fun a => match a with
                   | Group cls => forall c, cls c = true -> char_eqb c "-" = false
                   | _ => True
                   end) p ->
  forall (s g out : string),
    minus_free g = true ->
    match_here icase p s g = Some out -> minus_free out = true.
Proof.
  induction 1 as [|a p Ha _ IH]; intros s g out Hg.
  - cbn. now intros [= <-].
  - destruct a as [l|c|cls|cls|cls]; cbn [match_here].
    + destruct (lit_here icase s l); [now apply IH | discriminate].
    + destruct s as [|a r]; [now apply IH|].
      destruct (lit_here icase _ _); [|now apply IH].
      destruct (match_here icase p r g) eqn:H1; cbn [first_some].
      * intros [= <-]. now apply (IH r g).
      * now apply IH.
    + revert out. induction s as [|a r IHs]; intros out; [now apply IH|].
      destruct (cls a); [|now apply IH].
      match goal with
      | |- first_some ?x _ = _ -> _ => destruct x eqn:H1; cbn [first_some]
      end.
      * intros [= <-]. now apply IHs.
      * now apply IH.
    + revert out. induction s as [|a r IHs]; intros out; [discriminate|].
      destruct (cls a); [|discriminate].
      match goal with
      | |- first_some ?x _ = _ -> _ => destruct x eqn:H1; cbn [first_some]
      end.
      * intros [= <-]. now apply IHs.
      * now apply IH.
    + assert (Hgen : forall acc, minus_free acc = true ->
                 (fix group (s0 acc0 : string) {struct s0} : option string :=
                    match s0 with
                    | EmptyString => None
                    | String a0 r0 =>
                        if cls a0
                        then first_some (group r0 (acc0 +:+ String a0 EmptyString))
                               (match_here icase p r0 (acc0 +:+ String a0 EmptyString))
                        else None
                    end) s acc = Some out -> minus_free out = true).
      { clear Hg g. revert out. induction s as [|a r IHs]; intros out acc Hacc;
          [discriminate|].
        destruct (cls a) eqn:Hcls; [|discriminate].
        assert (Hacc' : minus_free (acc +:+ String a EmptyString) = true)
          by (apply minus_free_snoc; [exact Hacc | now apply Ha]).
        match goal with
        | |- first_some ?x _ = _ -> _ => destruct x eqn:H1; cbn [first_some]
        end.
        - intros [= <-]. now apply (IHs _ _ Hacc').
        - now apply IH. }
      now apply Hgen.
Qed.

Lemma search_minus_free (icase : bool) (p : list atom) (s out : string) :
  Forall (fun a => match a with
                   | Group cls => forall c, cls c = true -> char_eqb c "-" = false
                   | _ => True
                   end) p ->
  search icase p s = Some out -> minus_free out = true.
Proof.
  intros Hp. induction s as [|a r IH]; cbn [search].
  - destruct (match_here icase p EmptyString EmptyString) eqn:H; [|discriminate].
    intros [= <-]. now apply (match_here_minus_free icase p Hp _ EmptyString _ eq_refl H).
  - destruct (match_here icase p (String a r) EmptyString) eqn:H; cbn [first_some].
    + intros [= <-]. now apply (match_here_minus_free icase p Hp _ EmptyString _ eq_refl H).
    + exact IH.
Qed.

Lemma count_char_not_minus (c : ascii) :
  Instagram.count_char c = true -> char_eqb c "-" = false.
Proof. destruct c as [[] [] [] [] [] [] [] []]; intros H; reflexivity || discriminate H. Qed.

Lemma count_pattern_minus_free (word content group1 : string) :
  search true (Instagram.count_pattern word) content = Some group1 ->
  minus_free group1 = true.
Proof.
  apply search_minus_free. unfold Instagram.count_pattern.
  repeat constructor. exact count_char_not_minus.
Qed.

Lemma parse_count_minus_free (text : string) (n : Z) :
  minus_free text = true -> Instagram._parse_count text = Ret n -> 0 <= n.
Proof.
  intros Hm. change (Instagram._parse_count text) with (TikTok._parse_count text).
  rewrite parse_count_scaled.
  destruct (is_empty text); [intros [= <-]; lia|].
  destruct (TikTok.scaled_value text) as [f|e] eqn:Hf; cbn [bind].
  - pose proof (scaled_value_signbit text f Hm Hf) as Hs.
    apply to_int_signbit in Hs.
    destruct (Float64.to_int f) as [m|e]; cbn [try_except_value_error].
    + now intros [= <-].
    + destruct (is_value_error e); [intros [= <-]; lia | discriminate].
  - cbn [try_except_value_error]. rewrite (scaled_value_raises text e Hf).
    intros [= <-]. lia.
Qed.

(** A dictionary whose four statistics are integers that are not
    negative. *)
Lemma set_count_counts (k : string) (m : option string) (content word : string)
  (s : gmap string value) :
  m = search true (Instagram.count_pattern word) content ->
  k ∈ stat_keys ->
  (forall k', k' ∈ stat_keys -> exists n : Z, s !! k' = Some (VInt n) /\ 0 <= n) ->
  forall k', k' ∈ stat_keys ->
             exists n : Z, (Instagram.set_count k m s).1 !! k' = Some (VInt n) /\ 0 <= n.
Proof.
  intros Hm Hk Hs k' Hk'. unfold Instagram.set_count.
  destruct m as [g|]; [|now apply Hs].
  destruct (Instagram._parse_count g) as [n|] eqn:Hn; cbn [fst]; [|now apply Hs].
  destruct (decide (k = k')) as [->|Hne].
  - exists n. rewrite lookup_insert_eq. split; [reflexivity|].
    apply (parse_count_minus_free g n); [|exact Hn].
    now apply (count_pattern_minus_free word content).
  - rewrite lookup_insert_ne by exact Hne. now apply Hs.
Qed.

(** X23.  What the meta-description strategy of Instagram leaves in the
    dictionary is, for each of the four statistics, an integer that is not
    negative: the pattern takes no minus sign, and a count that the parser
    refuses leaves the field as it was. *)
Theorem meta_strategy_counts (page : page) :
  counts_only (Instagram.meta_strategy page zero_stats).1 = true.
Proof.
  assert (H : forall k, k ∈ stat_keys ->
                        exists n : Z,
                          (Instagram.meta_strategy page zero_stats).1 !! k = Some (VInt n)
                          /\ 0 <= n).
  { assert (H0 : forall k, k ∈ stat_keys ->
                           exists n : Z, zero_stats !! k = Some (VInt n) /\ 0 <= n).
    { intros k. unfold stat_keys. rewrite !elem_of_cons, elem_of_nil.
      intros [->|[->|[->|[->|[]]]]]; exists 0; split; (reflexivity || lia). }
    unfold Instagram.meta_strategy.
    destruct (query_selector page _) as [[el|]|]; try exact H0.
    destruct (get_attribute el "content") as [[content|]|]; try exact H0.
    destruct (is_empty content); [exact H0|].
    set (P := fun s : gmap string value =>
                forall k, k ∈ stat_keys -> exists n : Z, s !! k = Some (VInt n) /\ 0 <= n).
    assert (Hset : forall (k word : string) (s : gmap string value),
               k ∈ stat_keys -> P s ->
               P (Instagram.set_count k
                    (search true (Instagram.count_pattern word) content) s).1).
    { intros k word s Hk Hs k' Hk'.
      now apply (set_count_counts k _ content word s eq_refl Hk Hs). }
    assert (Hin : forall k, k = "likes" \/ k = "comments" \/ k = "views" ->
                            k ∈ stat_keys).
    { intros k. unfold stat_keys. rewrite !elem_of_cons. tauto. }
    apply (update_then _ _ P); [| |exact H0].
    - intros s Hs. apply Hset; [apply Hin; tauto | exact Hs].
    - intros s Hs. apply (update_then _ _ P); [| |exact Hs].
      + intros s' Hs'. apply Hset; [apply Hin; tauto | exact Hs'].
      + intros s' Hs'. apply Hset; [apply Hin; tauto | exact Hs']. }
  unfold counts_only, stat_keys. cbn [forallb].
  repeat match goal with
         | |- context [?m !! ?k] =>
             let Hk := fresh in
             destruct (H k) as (? & Hk & ?);
             [unfold stat_keys; rewrite !elem_of_cons; tauto|];
             rewrite Hk; cbn [is_count]
         end.
  rewrite !andb_true_iff, !Z.leb_le. tauto.
Qed.

End MetaCounts.

(** ** The URLs of each platform *)

Section UrlShapes.

Import Text TextMore Regex.

Lemma found_first_some (a b : option string) :
  found (first_some a b) = found a || found b.
Proof. now destruct a. Qed.

Lemma startswith_append (s l : string) :
  startswith s l = true <-> exists r, s = l +:+ r.
Proof.
  revert s. induction l as [|b l IH]; intros s.
  - split; [intros _; now exists s | intros _; now destruct s].
  - destruct s as [|a s]; cbn [startswith].
    + split; [discriminate | intros [r Hr]; discriminate].
    + rewrite andb_true_iff, char_eqb_eq, IH. split.
      * intros [-> [r ->]]. now exists r.
      * intros [r [= -> ->]]. split; [reflexivity | now exists r].
Qed.

Lemma drop_append (l r : string) : drop (String.length l) (l +:+ r) = r.
Proof. induction l as [|b l IH]; [reflexivity | exact IH]. Qed.

Lemma match_here_lit (icase : bool) (l : string) (p : list atom) (s g : string) :
  match_here icase (Lit l :: p) s g
  = if lit_here icase s l then match_here icase p (drop (String.length l) s) g else None.
Proof. reflexivity. Qed.

Lemma match_here_plus_nil (icase : bool) (cls : ascii -> bool) (p : list atom)
  (g : string) :
  match_here icase (Plus cls :: p) EmptyString g = None.
Proof. reflexivity. Qed.

Lemma match_here_plus_cons (icase : bool) (cls : ascii -> bool) (p : list atom)
  (a : ascii) (r g : string) :
  match_here icase (Plus cls :: p) (String a r) g
  = if cls a
    then first_some (match_here icase (Plus cls :: p) r g) (match_here icase p r g)
    else None.
Proof. reflexivity. Qed.

(** A repetition matches when a run of its class, not empty, is
    followed by a match of what comes next. *)
Lemma match_here_plus (icase : bool) (cls : ascii -> bool) (p : list atom)
  (s g : string) :
  found (match_here icase (Plus cls :: p) s g) = true
  <-> exists run rest,
      run <> EmptyString /\ all cls run = true /\ s = run +:+ rest
      /\ found (match_here icase p rest g) = true.
Proof.
  induction s as [|a r IH].
  - rewrite match_here_plus_nil. split; [discriminate|].
    intros (run & rest & Hne & _ & Hs & _). destruct run; [congruence | discriminate].
  - rewrite match_here_plus_cons. destruct (cls a) eqn:Ha.
    + rewrite found_first_some, orb_true_iff, IH. split.
      * intros [(run & rest & Hne & Hall & -> & Hrest) | Hrest].
        -- exists (String a run), rest. repeat split; try assumption; [discriminate|].
           cbn [all]. now rewrite Ha.
        -- exists (String a EmptyString), r. repeat split; try assumption;
             [discriminate | cbn [all]; now rewrite Ha].
      * intros (run & rest & Hne & Hall & Hs & Hrest).
        destruct run as [|x run]; [congruence|]. injection Hs as -> ->.
        cbn [all] in Hall. apply andb_true_iff in Hall as [_ Hall].
        destruct run as [|y run]; [now right|].
        left. exists (String y run), rest. repeat split; try assumption. discriminate.
    + split; [discriminate|].
      intros (run & rest & Hne & Hall & Hs & _).
      destruct run as [|x run]; [congruence|]. injection Hs as -> ->.
      cbn [all] in Hall. rewrite Ha in Hall. discriminate.
Qed.

(** The last repetition of a pattern needs one character of its class. *)
Lemma match_here_last_plus (icase : bool) (cls : ascii -> bool) (s g : string) :
  found (match_here icase [Plus cls] s g) = true
  <-> exists c post, cls c = true /\ s = String c post.
Proof.
  rewrite match_here_plus. split.
  - intros (run & rest & Hne & Hall & -> & _).
    destruct run as [|c run]; [congruence|].
    cbn [all] in Hall. apply andb_true_iff in Hall as [Hc _].
    now exists c, (run +:+ rest).
  - intros (c & post & Hc & ->).
    exists (String c EmptyString), post. repeat split; [discriminate|].
    cbn [all]. now rewrite Hc.
Qed.

Lemma search_cons (icase : bool) (p : list atom) (a : ascii) (r : string) :
  search icase p (String a r)
  = first_some (match_here icase p (String a r) EmptyString) (search icase p r).
Proof. reflexivity. Qed.

(** [re.search] finds a match when a suffix of the text begins with one. *)
Lemma search_found (icase : bool) (p : list atom) (s : string) :
  found (search icase p s) = true
  <-> exists pre suf, s = pre +:+ suf
                      /\ found (match_here icase p suf EmptyString) = true.
Proof.
  induction s as [|a r IH].
  - cbn [search]. rewrite found_first_some, orb_false_r. split.
    + intros H. now exists EmptyString, EmptyString.
    + intros (pre & suf & Hs & H). destruct pre; [|discriminate].
      change (EmptyString = suf) in Hs. now rewrite <- Hs in H.
  - rewrite search_cons, found_first_some, orb_true_iff, IH. split.
    + intros [H | (pre & suf & -> & H)].
      * now exists EmptyString, (String a r).
      * now exists (String a pre), suf.
    + intros (pre & suf & Hs & H). destruct pre as [|x pre].
      * change (String a r = suf) in Hs. rewrite <- Hs in H. now left.
      * injection Hs as -> ->. right. now exists pre, suf.
Qed.

(** The patterns [<literal>[class]+]. *)
Lemma search_lit_plus (l : string) (cls : ascii -> bool) (s : string) :
  found (search false [Lit l; Plus cls] s) = true
  <-> exists pre c post, cls c = true /\ s = pre +:+ l +:+ String c post.
Proof.
  rewrite search_found. split.
  - intros (pre & suf & -> & H). rewrite match_here_lit in H. cbn [lit_here] in H.
    destruct (startswith suf l) eqn:Hl; [|discriminate].
    apply startswith_append in Hl as [r ->]. rewrite drop_append in H.
    apply match_here_last_plus in H as (c & post & Hc & ->).
    now exists pre, c, post.
  - intros (pre & c & post & Hc & ->). exists pre, (l +:+ String c post).
    split; [reflexivity|]. rewrite match_here_lit. cbn [lit_here].
    rewrite (proj2 (startswith_append _ l)) by now eexists.
    rewrite drop_append. apply match_here_last_plus. now exists c, post.
Qed.

(** X24.  [is_instagram_url] accepts exactly the texts that hold, at any
    place, [instagram.com/p/], [instagram.com/reel/], [instagram.com/reels/]
    or [instagram.com/tv/] followed by a letter, a digit, an underscore or
    a hyphen: what comes before and after is not looked at. *)
Theorem instagram_url_shape (url : string) :
  Instagram.is_instagram_url url = true
  <-> exists (kind pre post : string) (c : ascii),
      kind ∈ ["instagram.com/p/"; "instagram.com/reel/";
              "instagram.com/reels/"; "instagram.com/tv/"]
      /\ Instagram.code_char c = true
      /\ url = pre +:+ kind +:+ String c post.
Proof.
  unfold Instagram.is_instagram_url. cbn [existsb].
  rewrite !orb_true_iff, !search_lit_plus. split.
  - intros [H|[H|[H|[H|H]]]]; try discriminate;
      destruct H as (pre & c & post & Hc & ->);
      eexists _, pre, post, c; (split; [|split; [exact Hc | reflexivity]]);
      rewrite !elem_of_cons; tauto.
  - intros (kind & pre & post & c & Hk & Hc & ->).
    rewrite !elem_of_cons, elem_of_nil in Hk.
    destruct Hk as [->|[->|[->|[->|[]]]]];
      [left | right; left | do 2 right; left | do 3 right; left];
      now exists pre, c, post.
Qed.

(** X25.  [is_tiktok_url] accepts exactly the texts that hold, at any
    place, [tiktok.com/@], a handle of letters, digits, underscores, dots
    and hyphens that is not empty, [/video/] and a digit; or
    [vm.tiktok.com/] or [tiktok.com/t/] followed by a letter, a digit or
    an underscore. *)
Theorem tiktok_url_shape (url : string) :
  TikTok.is_tiktok_url url = true
  <-> (exists (pre handle post : string) (c : ascii),
          handle <> EmptyString /\ all TikTok.handle_char handle = true
          /\ isdigit c = true
          /\ url = pre +:+ "tiktok.com/@" +:+ handle +:+ "/video/" +:+ String c post)
      \/ (exists (kind pre post : string) (c : ascii),
             kind ∈ ["vm.tiktok.com/"; "tiktok.com/t/"]
             /\ isword c = true
             /\ url = pre +:+ kind +:+ String c post).
Proof.
  unfold TikTok.is_tiktok_url. cbn [existsb].
  rewrite !orb_true_iff, !search_lit_plus, search_found. split.
  - intros [H|[H|[H|H]]]; try discriminate.
    + left. destruct H as (pre & suf & -> & H).
      rewrite match_here_lit in H. cbn [lit_here] in H.
      destruct (startswith suf "tiktok.com/@") eqn:Hl; [|discriminate].
      apply startswith_append in Hl as [r ->]. rewrite drop_append in H.
      apply match_here_plus in H as (handle & rest & Hne & Hall & -> & H).
      rewrite match_here_lit in H. cbn [lit_here] in H.
      destruct (startswith rest "/video/") eqn:Hv; [|discriminate].
      apply startswith_append in Hv as [r' ->]. rewrite drop_append in H.
      apply match_here_last_plus in H as (c & post & Hc & ->).
      exists pre, handle, post, c. repeat split; assumption.
    + right. destruct H as (pre & c & post & Hc & ->).
      exists "vm.tiktok.com/", pre, post, c.
      split; [rewrite !elem_of_cons; tauto | now split].
    + right. destruct H as (pre & c & post & Hc & ->).
      exists "tiktok.com/t/", pre, post, c.
      split; [rewrite !elem_of_cons; tauto | now split].
  - intros [(pre & handle & post & c & Hne & Hall & Hc & ->)
           | (kind & pre & post & c & Hk & Hc & ->)].
    + left. exists pre, ("tiktok.com/@" +:+ handle +:+ "/video/" +:+ String c post).
      split; [reflexivity|]. rewrite match_here_lit. cbn [lit_here].
      rewrite (proj2 (startswith_append _ "tiktok.com/@")) by now eexists.
      rewrite drop_append. apply match_here_plus.
      exists handle, ("/video/" +:+ String c post). repeat split; try assumption.
      rewrite match_here_lit. cbn [lit_here].
      rewrite (proj2 (startswith_append _ "/video/")) by now eexists.
      rewrite drop_append. apply match_here_last_plus. now exists c, post.
    + rewrite !elem_of_cons, elem_of_nil in Hk.
      destruct Hk as [->|[->|[]]]; [right; left | do 2 right; left];
        now exists pre, c, post.
Qed.

End UrlShapes.

(** ** The routes of the API *)

Section Routes.

Import Text PyOps Browser Session Endpoints.










(** X27.  The route [/scrape/batch] reads the first ten entries of the
    list [urls] and nothing of what follows them: the answer and the
    sessions are those of the request that holds these ten entries
    alone. *)
Theorem api_batch_ignores_past_ten (py_sum : list value -> py value)
  (key_order : gmap string value -> list string)
  (w : world) (d : gmap string value) (l : list value) (st : state) :
  d !! "urls" = Some (VList l) ->
  scrape_batch py_sum key_order w (VDict d) st
  = scrape_batch py_sum key_order w (VDict (<["urls" := VList (take 10 l)]> d)) st.
Proof.
  intros Hd.
  destruct (Nat.ltb 10 (length l)) eqn:Hlong.
  2:{ apply Nat.ltb_ge in Hlong. rewrite take_ge by exact Hlong.
      now rewrite insert_id by exact Hd. }
  pose proof Hlong as Hlt. apply Nat.ltb_lt in Hlt.
  assert (Hd' : <["urls" := VList (take 10 l)]> d !! "urls" = Some (VList (take 10 l)))
    by apply lookup_insert_eq.
  assert (Hlen : length (take 10 l) = 10%nat) by (rewrite length_take; lia).
  unfold scrape_batch. cbn [truthy].
  rewrite (lookup_not_empty _ _ _ Hd), (lookup_not_empty _ _ _ Hd'). cbn [negb].
  rewrite (contains_dict_some _ _ _ Hd), (contains_dict_some _ _ _ Hd').
  cbn [getitem get]. rewrite Hd, Hd'.
  destruct l as [|x l]; [cbn in Hlt; lia|].
  change (take 10 (x :: l)) with (x :: take 9 l) in *.
  cbn [truthy negb py_len]. rewrite Hlen, Hlong.
  cbn [length Nat.eqb Nat.ltb Nat.leb first_ten].
  reflexivity.
Qed.

Lemma api_batch_ignores_past_ten_witness :
  scrape_batch MoreExamples.int_sum MoreExamples.map_order
    (Examples.world_of (Examples.page_with Examples.scenario_payload))
    (VDict {[ "urls" := VList MoreExamples.twelve ]}) initial
  = scrape_batch MoreExamples.int_sum MoreExamples.map_order
      (Examples.world_of (Examples.page_with Examples.scenario_payload))
      (VDict (<["urls" := VList (take 10 MoreExamples.twelve)]>
                {[ "urls" := VList MoreExamples.twelve ]})) initial.
Proof.
  apply (api_batch_ignores_past_ten MoreExamples.int_sum MoreExamples.map_order).
  reflexivity.
Defined.

(** X28.  The status of the answer of the route [/scrape] to a JSON
    object: 400 exactly when the object has no [url], and then no browser
    is launched; 500 exactly when the [url] is not a string, or is the URL
    of a supported platform and the browser does not launch; 200
    otherwise, with [success] false for a URL of no supported platform.
    The route lets no exception escape, and [success] is true with
    status 200 only. *)
Theorem api_scrape_status (w : world) (d : gmap string value) (st : state) :
  exists (status : Z) (body : gmap string value),
    (scrape_url w (VDict d) st).1 = Reply status body
    /\ (status = 400 \/ status = 500 \/ status = 200)%Z
    /\ (status = 400%Z <-> d !! "url" = None)
    /\ (status = 400%Z -> (scrape_url w (VDict d) st).2 = st)
    /\ (status = 500%Z <->
        exists u, d !! "url" = Some u
                  /\ match u with
                     | VStr s => exists p e, Api.detect_platform s = Some p
                                             /\ launch w (sessions st) = Raise e
                     | _ => True
                     end)
    /\ (body !! "success" = Some (VBool true) -> status = 200%Z)
    /\ (forall s, d !! "url" = Some (VStr s) -> Api.detect_platform s = None ->
                  status = 200%Z /\ body !! "success" = Some (VBool false)).
Proof.
  destruct (d !! "url") as [u|] eqn:Hd.
  2:{ assert (Hout : scrape_url w (VDict d) st
                     = (Reply 400 (failure_body (missing "url")), st)).
      { unfold scrape_url. destruct (negb (truthy (VDict d))); [reflexivity|].
        now rewrite (contains_dict_none _ _ Hd). }
      rewrite Hout. exists 400%Z, (failure_body (missing "url")). cbn [fst snd].
      repeat split; try tauto; try discriminate; try lia.
      intros (u & Hu & _). discriminate Hu. }
  assert (Hout : scrape_url w (VDict d) st
                 = match scrape_single w u st with
                   | (Raise e, st') => (Reply 500 (failure_body (exn_msg e)), st')
                   | (Ret result, st') =>
                       if truthy (default VNone (result !! "error")) then
                         (Reply 200 {[ "success" := VBool false;
                                       "error" := default VNone (result !! "error");
                                       "data" := VDict result ]}, st')
                       else
                         (Reply 200 {[ "success" := VBool true; "data" := VDict result ]},
                          st')
                   end).
  { unfold scrape_url. cbn [truthy]. rewrite (lookup_not_empty _ _ _ Hd). cbn [negb].
    rewrite (contains_dict_some _ _ _ Hd). cbn [getitem get]. now rewrite Hd. }
  rewrite Hout. clear Hout.
  assert (Hbad : forall e : exn,
             (scrape_single w u st).1 = Raise e ->
             match u with
             | VStr s => exists p e, Api.detect_platform s = Some p
                                     /\ launch w (sessions st) = Raise e
             | _ => True
             end).
  { intros e. destruct u; try tauto. cbn [scrape_single].
    unfold Api.scrape_single_url, open_session. cbv zeta.
    destruct (Api.detect_platform s) as [p|]; [|discriminate].
    destruct (launch w (sessions st)) as [|e'] eqn:Hl.
    - destruct (new_page w (sessions st)); [|discriminate].
      destruct (Scraper.platform_scrape w p s). discriminate.
    - intros _. now exists p, e'. }
  assert (Hgood : forall r : gmap string value,
             (scrape_single w u st).1 = Ret r ->
             match u with
             | VStr s => Api.detect_platform s = None
                         \/ exists x, launch w (sessions st) = Ret x
             | _ => False
             end).
  { intros r. destruct u; try discriminate. cbn [scrape_single].
    unfold Api.scrape_single_url, open_session. cbv zeta.
    destruct (Api.detect_platform s) as [p|]; [|now left].
    destruct (launch w (sessions st)) as [x|e']; [|discriminate].
    intros _. right. now exists x. }
  assert (Hnone : forall s, u = VStr s -> Api.detect_platform s = None ->
                            scrape_single w u st = (Ret (Api.unsupported s), st)).
  { intros s -> Hs. cbn [scrape_single]. unfold Api.scrape_single_url. now rewrite Hs. }
  destruct (scrape_single w u st) as [[result|e] st1] eqn:Hsingle; cbn [fst] in *.
  - specialize (Hgood result eq_refl).
    assert (H500 : ~ (exists u0, Some u = Some u0
                                 /\ match u0 with
                                    | VStr s => exists p e, Api.detect_platform s = Some p
                                                            /\ launch w (sessions st) = Raise e
                                    | _ => True
                                    end)).
    { intros (u0 & Hu & Hm). injection Hu as <-. destruct u; try tauto.
      destruct Hm as (p & e & Hp & He). destruct Hgood as [Hn | [x Hx]]; congruence. }
    destruct (truthy (default VNone (result !! "error"))) eqn:Herr.
    + eexists 200%Z, _. cbn [fst snd]. split; [reflexivity|].
      split; [lia|]. split; [split; [lia | discriminate]|]. split; [lia|].
      split; [split; [lia | intros H; now apply H500 in H]|].
      split; [reflexivity|]. intros s _ _. split; reflexivity.
    + eexists 200%Z, _. cbn [fst snd]. split; [reflexivity|].
      split; [lia|]. split; [split; [lia | discriminate]|]. split; [lia|].
      split; [split; [lia | intros H; now apply H500 in H]|].
      split; [reflexivity|]. intros s Hs Hp. injection Hs as ->.
      pose proof (Hnone s eq_refl Hp) as Heq. injection Heq as -> _.
      discriminate Herr.
  - specialize (Hbad e eq_refl).
    eexists 500%Z, _. cbn [fst snd]. split; [reflexivity|].
    split; [lia|]. split; [split; [lia | discriminate]|]. split; [lia|].
    split; [split; [intros _; now exists u | reflexivity]|].
    split; [discriminate|]. intros s Hs Hp. injection Hs as ->.
    discriminate (Hnone s eq_refl Hp).
Qed.

End Routes.
